(** * NocoDB: webhook condition evaluation, webhook dispatch and lookup
      select-query generation

    A shallow embedding of
    - [packages/nocodb/src/helpers/webhookHelpers.ts]
      ([parseBody], [validateCondition], [constructWebHookData],
      [populateAxiosReq], [flattenFilter], [invokeWebhook],
      [parseHrtimeToMilliSeconds]) and
    - the lookup query builder [generateLookupSelectQuery] with
      [getDisplayValueOfRefTable],
    followed by the properties established about them. *)

From Stdlib Require Import String Ascii List ZArith QArith Qround Bool Lia.
From Stdlib Require PrimFloat SpecFloat FloatOps Uint63.
Import ListNotations.
Close Scope Q_scope.
Open Scope string_scope.
Open Scope list_scope.
Set Warnings "-register-all".

(* ================================================================== *)
(** * JavaScript values and the operators the helpers rely on *)
(* ================================================================== *)

Module Js.

(** Values that reach the helpers: rows read from the database, filter
    literals, webhook payloads.  Numbers are IEEE doubles; their
    arithmetic belongs to the engine, so the carrier is a parameter.
    Objects keep their keys in insertion order.  Strings are sequences of
    code units below 256. *)
Inductive value (number : Type) : Type :=
| undefined
| null
| JBool (b : bool)
| JNum (n : number)
| JStr (s : string)
| JArr (items : list (value number))
| JObj (props : list (string * value number)).

Arguments undefined {number}.
Arguments null {number}.
Arguments JBool {number} b.
Arguments JNum {number} n.
Arguments JStr {number} s.
Arguments JArr {number} items.
Arguments JObj {number} props.

(** Exceptions raised inside the helpers. *)
Inductive error : Type :=
| TypeError (msg : string)
| BadRequest (msg : string)
| NotImplemented (msg : string)
| TemplateError (msg : string)
(** an error of the HTTP client ([e.isAxiosError]); [private_ip] tells
    whether its message or response body mentions a private IP address *)
| AxiosError (private_ip : bool) (msg : string)
| AdapterError (msg : string)
| SecurityError (msg : string).

(** Outcome of a function call: a returned value or a thrown error. *)
Inductive result (A : Type) : Type :=
| Ok (a : A)
| Err (e : error).
Arguments Ok {A} a.
Arguments Err {A} e.

Definition bind {A B} (r : result A) (k : A -> result B) : result B :=
  match r with
  | Ok a => k a
  | Err e => Err e
  end.

(** [try { body } catch (e) { handler }] *)
Definition try_catch {A} (body : result A) (handler : error -> result A)
  : result A :=
  match body with
  | Ok a => Ok a
  | Err e => handler e
  end.

(** Outcome of a statement inside a function body: fall through with a
    value, leave the enclosing function with [return v], or throw. *)
Inductive completion (R A : Type) : Type :=
| Normal (a : A)
| Return (r : R)
| Throw (e : error).
Arguments Normal {R A} a.
Arguments Return {R A} r.
Arguments Throw {R A} e.

(** The engine primitives used by the helpers; their definitions are the
    ECMAScript ones and are not part of the repository. *)
Class Runtime (number : Type) : Type := {
  (** the number of an integer (array lengths, literals) *)
  num_of_Z : Z -> number;
  (** unary minus *)
  num_neg : number -> number;
  (** ToBoolean is false on a number: +0, -0 or NaN *)
  num_is_falsy : number -> bool;
  (** [a < b] and [a <= b] on numbers (false when either is NaN) *)
  num_ltb : number -> number -> bool;
  num_leb : number -> number -> bool;
  (** ToNumber, as applied by unary plus and [Number(x)] *)
  ToNumber : value number -> number;
  (** loose equality [a == b] *)
  looseEq : value number -> value number -> bool;
  (** [x.toString()] of a value that is neither null nor undefined *)
  ToString : value number -> string;
  (** [String.prototype.toLowerCase] *)
  toLowerCase : string -> string
}.

Section Operators.
Context {number : Type} {RT : Runtime number}.
#[local] Abbreviation value := (value number).

(** ToBoolean *)
Definition truthy (v : value) : bool :=
  match v with
  | undefined | null => false
  | JBool b => b
  | JNum n => negb (num_is_falsy n)
  | JStr s => negb (s =? "")
  | JArr _ | JObj _ => true
  end.

(** [!a] *)
Definition js_not (a : value) : value := JBool (negb (truthy a)).
(** [a || b] *)
Definition js_or (a b : value) : value := if truthy a then a else b.
(** [a && b] *)
Definition js_and (a b : value) : value := if truthy a then b else a.
(** [a ?? b] *)
Definition coalesce (a b : value) : value :=
  match a with
  | undefined | null => b
  | _ => a
  end.

Definition is_nullish (v : value) : bool :=
  match v with
  | undefined | null => true
  | _ => false
  end.

(** [a === ''], [a === null], [a === undefined] *)
Definition is_empty_string (v : value) : bool :=
  match v with JStr s => s =? "" | _ => false end.
Definition is_null (v : value) : bool :=
  match v with null => true | _ => false end.
Definition is_undefined (v : value) : bool :=
  match v with undefined => true | _ => false end.

Definition isArray (v : value) : bool :=
  match v with JArr _ => true | _ => false end.

(** Own property lookup in an object literal; the last binding of a
    key wins, as in an object built by assignment or spread. *)
Fixpoint lookup (k : string) (props : list (string * value))
  : option value :=
  match props with
  | [] => None
  | (k', v) :: rest =>
      match lookup k rest with
      | Some w => Some w
      | None => if k' =? k then Some v else None
      end
  end.

(** [o[k]] for a key that names a row field or [id]: a TypeError on
    null and undefined, the own property of an object, and
    [undefined] on every other value (no such property on a
    primitive or on an array). *)
Definition get (o : value) (k : string) : result value :=
  match o with
  | undefined | null =>
      Err (TypeError "Cannot read properties of null or undefined")
  | JObj props =>
      Ok match lookup k props with Some v => v | None => undefined end
  | _ => Ok undefined
  end.

(** [o?.[k]] *)
Definition get_opt (o : value) (k : string) : value :=
  match get o k with
  | Ok v => v
  | Err _ => undefined
  end.

(** White space removed by [String.prototype.trim], among the code
    units below 256: TAB, LF, VT, FF, CR, SP and NBSP. *)
Definition is_white_space (c : ascii) : bool :=
  let n := nat_of_ascii c in
  (Nat.leb 9 n && Nat.leb n 13) || Nat.eqb n 32 || Nat.eqb n 160.

Fixpoint trimStart (s : string) : string :=
  match s with
  | String c rest => if is_white_space c then trimStart rest else s
  | EmptyString => EmptyString
  end.

Fixpoint trimEnd (s : string) : string :=
  match s with
  | EmptyString => EmptyString
  | String c rest =>
      let rest' := trimEnd rest in
      if is_white_space c && (rest' =? "") then EmptyString
      else String c rest'
  end.

Definition trim (s : string) : string := trimEnd (trimStart s).

(** [s.split(sep)] for a one-character separator: never empty. *)
Fixpoint split (sep : ascii) (s : string) : list string :=
  match s with
  | EmptyString => [EmptyString]
  | String c rest =>
      if Ascii.eqb c sep then EmptyString :: split sep rest
      else match split sep rest with
           | [] => [String c EmptyString]
           | piece :: pieces => String c piece :: pieces
           end
  end.

Definition comma : ascii := ","%char.

(** [strings.includes(x)] for an array of strings: SameValueZero
    relates a string only to an equal string. *)
Definition includes_value (strings : list string) (x : value) : bool :=
  match x with
  | JStr s => existsb (String.eqb s) strings
  | _ => false
  end.

(** [values.includes(s)] for a string [s]. *)
Definition includes_string (values : list value) (s : string) : bool :=
  existsb (fun v => match v with JStr t => t =? s | _ => false end) values.

(** [hay.indexOf(needle)]; [None] stands for -1. *)
Definition indexOf (hay needle : string) : option nat :=
  String.index 0 needle hay.

End Operators.

(** Decimal digits, as printed by [Number.prototype.toString] and
    template literals for integers. *)
Definition digit (n : Z) : string :=
  String (ascii_of_nat (48 + Z.to_nat (n mod 10))) EmptyString.

(** Decimal digits of a non-negative integer. *)
Fixpoint digits (fuel : nat) (n : Z) : string :=
  match fuel with
  | O => digit n
  | S fuel' =>
      if (n <? 10)%Z then digit n
      else digits fuel' (n / 10)%Z ++ digit n
  end.

Definition Z_to_string (n : Z) : string :=
  if (n <? 0)%Z then "-" ++ digits (Z.to_nat (Z.log2 (- n))) (- n)
  else digits (Z.to_nat (Z.log2 n)) n.

End Js.

(* ================================================================== *)
(** * The enumerations of nocodb-sdk *)
(* ================================================================== *)

Module Sdk.

(** [UITypes]: the members the sources name; every other member of the
    enumeration is an [OtherUIType]. *)
Inductive UITypes : Type :=
| LinkToAnotherRecord | ForeignKey | Lookup | SingleLineText | Attachment
| Date | Decimal | Formula | Rollup | DateTime | CreatedTime
| LastModifiedTime | Barcode | QrCode | Links | User | CreatedBy
| LastModifiedBy
| OtherUIType (name : string).

(** [RelationTypes] *)
Inductive RelationTypes : Type :=
| HAS_MANY | BELONGS_TO | MANY_TO_MANY | ONE_TO_ONE.

End Sdk.

(* ================================================================== *)
(** * webhookHelpers.ts *)
(* ================================================================== *)

Module Webhook.
Import Js Sdk.

(** [filter.logical_op]: ['and' | 'or' | 'not'], possibly unset. *)
Inductive LogicalOp : Type := op_and | op_or | op_not.

(** [filter.comparison_op]: the operators [validateCondition] names;
    every other one is a [cmp_other]. *)
Inductive ComparisonOp : Type :=
| cmp_eq | cmp_neq | cmp_gt | cmp_lt | cmp_lte | cmp_le | cmp_gte | cmp_ge
| cmp_empty | cmp_blank | cmp_notempty | cmp_notblank
| cmp_isWithin
| cmp_anyof | cmp_nanyof | cmp_allof | cmp_nallof
| cmp_like | cmp_nlike | cmp_checked | cmp_notchecked
| cmp_null | cmp_notnull
| cmp_other (name : string).

(** [filter.comparison_sub_op]: the sub-operators [validateCondition]
    names; every other one is a [sub_other]. *)
Inductive ComparisonSubOp : Type :=
| today | tomorrow | yesterday | oneWeekAgo | oneWeekFromNow
| oneMonthAgo | oneMonthFromNow | daysAgo | daysFromNow | exactDate
| pastWeek | pastMonth | pastYear | nextWeek | nextMonth | nextYear
| pastNumberOfDays | nextNumberOfDays
| sub_other (name : string).

(** Units handed to dayjs. *)
Inductive TimeUnit : Type := day | week | month | year.

(** What [await filter.getColumn(context)] yields, as far as the
    evaluator reads it: [title], [uidt] and [meta.date_format]. *)
Record Column : Type := mkColumn {
  title : string;
  uidt : UITypes;
  date_format : option string
}.

(** The dayjs library (with its isBetween, isSameOrBefore and
    isSameOrAfter plugins), the clock and nocodb-sdk's
    [isDateMonthFormat].  A date argument is either a plain value or a
    dayjs object.  All comparisons are the ['day'] granularity ones. *)
Class Dayjs (number : Type) : Type := {
  dayjs : Type;
  (** [dayjs(new Date())] *)
  dayjs_now : dayjs;
  (** [dayjs(x)] *)
  dayjs_of : value number + dayjs -> dayjs;
  (** [d.date(1)] *)
  dayjs_date1 : dayjs -> dayjs;
  (** [d.add(n, unit)] *)
  dayjs_add : dayjs -> number -> TimeUnit -> dayjs;
  isSame : dayjs -> value number + dayjs -> bool;
  isAfter : dayjs -> value number + dayjs -> bool;
  isBefore : dayjs -> value number + dayjs -> bool;
  isSameOrBefore : dayjs -> value number + dayjs -> bool;
  isSameOrAfter : dayjs -> value number + dayjs -> bool;
  (** [d.isBetween(a, b, 'day')] *)
  isBetween : dayjs -> value number + dayjs -> value number + dayjs -> bool;
  (** [d.format(fmt).toString()] *)
  dayjs_format : dayjs -> string -> string;
  isDateMonthFormat : string -> bool
}.

Section Evaluator.
Context {number : Type} {RT : Runtime number} {DJ : Dayjs number}.
#[local] Abbreviation value := (value number).

(** A [Filter] with its column resolved and its children loaded
    ([filter.children || await filter.getChildren(context)]). *)
Inductive Filter : Type :=
  mkFilter (is_group : bool) (children : list Filter)
           (logical_op : option LogicalOp)
           (comparison_op : option ComparisonOp)
           (comparison_sub_op : option ComparisonSubOp)
           (filter_value : value) (column : Column).

Definition is_group (f : Filter) : bool :=
  let (g, _, _, _, _, _, _) := f in g.
Definition children (f : Filter) : list Filter :=
  let (_, c, _, _, _, _, _) := f in c.
Definition logical_op (f : Filter) : option LogicalOp :=
  let (_, _, l, _, _, _, _) := f in l.
Definition comparison_op (f : Filter) : option ComparisonOp :=
  let (_, _, _, c, _, _, _) := f in c.
Definition comparison_sub_op (f : Filter) : option ComparisonSubOp :=
  let (_, _, _, _, s, _, _) := f in s.
Definition filter_value (f : Filter) : value :=
  let (_, _, _, _, _, v, _) := f in v.
Definition column (f : Filter) : Column :=
  let (_, _, _, _, _, _, c) := f in c.

Definition is_date_family (t : UITypes) : bool :=
  match t with
  | Date | DateTime | CreatedTime | LastModifiedTime => true
  | _ => false
  end.

Definition is_user_family (t : UITypes) : bool :=
  match t with
  | User | CreatedBy | LastModifiedBy => true
  | _ => false
  end.

(** [['empty', 'blank', 'notempty', 'notblank'].includes(op)] *)
Definition is_emptiness_op (op : option ComparisonOp) : bool :=
  match op with
  | Some (cmp_empty | cmp_blank | cmp_notempty | cmp_notblank) => true
  | _ => false
  end.

(** ** The date-family comparator (lines 100-230) *)

(** The [switch (filter.comparison_sub_op)]: the comparison value the
    sub-operator resolves to, or [return;] for an offset sub-operator
    without a filter value. *)
Definition resolveSubOp (now : dayjs) (sub : option ComparisonSubOp)
    (filterVal : value) : completion value (value + dayjs) :=
  let plus n u := Normal (inr (dayjs_add now (num_of_Z n) u)) in
  match sub with
  | Some today => Normal (inr now)
  | Some tomorrow => plus 1%Z day
  | Some yesterday => plus (-1)%Z day
  | Some oneWeekAgo => plus (-1)%Z week
  | Some oneWeekFromNow => plus 1%Z week
  | Some oneMonthAgo => plus (-1)%Z month
  | Some oneMonthFromNow => plus 1%Z month
  | Some daysAgo =>
      if negb (truthy filterVal) then Return undefined
      else Normal (inr (dayjs_add now (num_neg (ToNumber filterVal)) day))
  | Some daysFromNow =>
      if negb (truthy filterVal) then Return undefined
      else Normal (inr (dayjs_add now (ToNumber filterVal) day))
  | Some exactDate =>
      if negb (truthy filterVal) then Return undefined
      else Normal (inl filterVal)
  | Some pastWeek => plus (-1)%Z week
  | Some pastMonth => plus (-1)%Z month
  | Some pastYear => plus (-1)%Z year
  | Some nextWeek => plus 1%Z week
  | Some nextMonth => plus 1%Z month
  | Some nextYear => plus 1%Z year
  | Some pastNumberOfDays =>
      if negb (truthy filterVal) then Return undefined
      else Normal (inr (dayjs_add now (num_neg (ToNumber filterVal)) day))
  | Some nextNumberOfDays =>
      if negb (truthy filterVal) then Return undefined
      else Normal (inr (dayjs_add now (ToNumber filterVal) day))
  | Some (sub_other _) | None => Normal (inl filterVal)
  end.

(** The [switch (filter.comparison_op)] under [if (dataVal)]; [res]
    is left as it was when no case assigns it. *)
Definition compareDate (client : option string) (col : Column)
    (op : option ComparisonOp) (sub : option ComparisonSubOp)
    (dataVal : value) (filterVal : value + dayjs) (res : value) : value :=
  let d := dayjs_of (inl dataVal) in
  match op with
  | Some cmp_eq => JBool (isSame d filterVal)
  | Some cmp_neq => JBool (negb (isSame d filterVal))
  | Some cmp_gt => JBool (isAfter d filterVal)
  | Some cmp_lt => JBool (isBefore d filterVal)
  | Some (cmp_lte | cmp_le) => JBool (isSameOrBefore d filterVal)
  | Some (cmp_gte | cmp_ge) => JBool (isSameOrAfter d filterVal)
  | Some (cmp_empty | cmp_blank) =>
      JBool (is_empty_string dataVal || is_null dataVal
             || is_undefined dataVal)
  | Some (cmp_notempty | cmp_notblank) =>
      JBool (negb (is_empty_string dataVal || is_null dataVal
                   || is_undefined dataVal))
  | Some cmp_isWithin =>
      let dateFormat :=
        match client with
        | Some "mysql2" => "YYYY-MM-DD HH:mm:ss"
        | _ => "YYYY-MM-DD HH:mm:ssZ"
        end in
      let now := dayjs_format dayjs_now dateFormat in
      let now :=
        match uidt col with
        | Date => String.substring 0 10 now
        | _ => now
        end in
      match sub with
      | Some (pastWeek | pastMonth | pastYear | pastNumberOfDays) =>
          JBool (isBetween d filterVal (inl (JStr now)))
      | Some (nextWeek | nextMonth | nextYear | nextNumberOfDays) =>
          JBool (isBetween d (inl (JStr now)) filterVal)
      | _ => res
      end
  | _ => res
  end.

(** Lines 100-230.  Under a month-only format [now] is reset to the
    first of the month; the assignment to [val] next to it is never
    read, the comparisons use [dataVal]. *)
Definition dateLeaf (client : option string) (f : Filter)
    (dataVal : value) : completion value value :=
  let col := column f in
  let now := dayjs_now in
  let filterVal := filter_value f in
  let now :=
    match date_format col with
    | Some fmt =>
        if negb (fmt =? "") && isDateMonthFormat fmt
        then dayjs_date1 (dayjs_of (inr now))
        else now
    | None => now
    end in
  let res :=
    if truthy filterVal
    then JBool (isSame (dayjs_of (inl filterVal)) (inl dataVal))
    else undefined in
  match resolveSubOp now (comparison_sub_op f) filterVal with
  | Return r => Return r
  | Throw e => Throw e
  | Normal filterVal =>
      if truthy dataVal
      then Normal (compareDate client col (comparison_op f)
                     (comparison_sub_op f) dataVal filterVal res)
      else Normal res
  end.

(** ** The user-reference comparator (lines 241-277) *)

(** [data[field].map((user) => user.id)] *)
Fixpoint map_id (users : list value) : result (list value) :=
  match users with
  | [] => Ok []
  | user :: rest =>
      bind (get user "id") (fun id =>
      bind (map_id rest) (fun ids => Ok (id :: ids)))
  end.

Definition userIds (d : value) : result (list value) :=
  match d with
  | JArr users => map_id users
  | _ =>
      let id := get_opt d "id" in
      if truthy id then Ok [id] else Ok []
  end.

(** [x?.split(',')]: [None] when [x] is null or undefined, a
    TypeError when [x] is any other value without a [split] method. *)
Definition split_opt (x : value) : result (option (list string)) :=
  match x with
  | undefined | null => Ok None
  | JStr s => Ok (Some (split comma s))
  | _ => Err (TypeError "split is not a function")
  end.

(** [filter.value?.split(',').map((v) => v.trim()) ?? []] *)
Definition filterValues (v : value) : result (list string) :=
  bind (split_opt v) (fun pieces =>
  Ok match pieces with
     | Some l => map trim l
     | None => []
     end).

Definition userLeaf (f : Filter) (d : value) : completion value value :=
  match userIds d with
  | Err e => Throw e
  | Ok userIds =>
      match filterValues (filter_value f) with
      | Err e => Throw e
      | Ok filterValues =>
          Normal
            match comparison_op f with
            | Some cmp_anyof =>
                JBool (existsb (includes_value filterValues) userIds)
            | Some cmp_nanyof =>
                JBool (negb (existsb (includes_value filterValues) userIds))
            | Some cmp_allof =>
                JBool (forallb (includes_string userIds) filterValues)
            | Some cmp_nallof =>
                JBool (negb (forallb (includes_string userIds) filterValues))
            | Some (cmp_empty | cmp_blank) =>
                JBool (Nat.eqb (length userIds) 0)
            | Some (cmp_notempty | cmp_notblank) =>
                JBool (Nat.ltb 0 (length userIds))
            | _ => JBool false
            end
      end
  end.

(** ** The comparator of every other column type (lines 279-361) *)

(** [d?.toString?.()?.toLowerCase()]: [None] when the chain stops at
    null or undefined.  An own [toString] entry of an object hides the
    inherited method: the call is skipped when the entry is null or
    undefined and is a TypeError otherwise. *)
Definition lowered (d : value) : result (option string) :=
  match d with
  | undefined | null => Ok None
  | JObj props =>
      match lookup "toString" props with
      | None => Ok (Some (toLowerCase (ToString d)))
      | Some m =>
          if is_nullish m then Ok None
          else Err (TypeError "toString is not a function")
      end
  | _ => Ok (Some (toLowerCase (ToString d)))
  end.

(** [filter.value?.toLowerCase()], then converted to the string
    [indexOf] searches for. *)
Definition needle (v : value) : result string :=
  match v with
  | undefined | null => Ok "undefined"
  | JStr s => Ok (toLowerCase s)
  | _ => Err (TypeError "toLowerCase is not a function")
  end.

(** [d?.toString?.()?.toLowerCase()?.indexOf(v?.toLowerCase())];
    the outer [None] is [undefined], the inner one is -1. *)
Definition likeIndex (d v : value) : result (option (option nat)) :=
  bind (lowered d) (fun hay =>
  match hay with
  | None => Ok None
  | Some h => bind (needle v) (fun n => Ok (Some (indexOf h n)))
  end).

(** [(filter.value?.split(',').map((item) => item.trim()) ?? [])
      .every/some((item) => (d?.split(',') ?? []).includes(item))];
    the callback, and with it [d?.split(',')], only runs when the
    first array has an element. *)
Definition ofList (quantifier : (string -> bool) -> list string -> bool)
    (d v : value) : result bool :=
  bind (filterValues v) (fun items =>
  match items with
  | [] => Ok (quantifier (fun _ => false) [])
  | _ =>
      bind (split_opt d) (fun pieces =>
      let stored := match pieces with Some l => l | None => [] end in
      Ok (quantifier (fun item => existsb (String.eqb item) stored) items))
  end).

Definition is_blank (d : value) : bool :=
  is_empty_string d || is_null d || is_undefined d.

Definition lift_bool (r : result bool) : completion value value :=
  match r with
  | Ok b => Normal (JBool b)
  | Err e => Throw e
  end.

Definition otherLeaf (f : Filter) (d val : value)
  : completion value value :=
  let v := filter_value f in
  match comparison_op f with
  | Some cmp_eq => Normal (JBool (looseEq val v))
  | Some cmp_neq => Normal (JBool (negb (looseEq val v)))
  | Some cmp_like =>
      lift_bool (bind (likeIndex d v) (fun i =>
        Ok match i with
           | Some (Some _) => true
           | _ => false
           end))
  | Some cmp_nlike =>
      lift_bool (bind (likeIndex d v) (fun i =>
        Ok match i with
           | Some None => true
           | _ => false
           end))
  | Some (cmp_empty | cmp_blank) => Normal (JBool (is_blank d))
  | Some (cmp_notempty | cmp_notblank) => Normal (JBool (negb (is_blank d)))
  | Some cmp_checked => Normal (JBool (truthy d))
  | Some cmp_notchecked => Normal (JBool (negb (truthy d)))
  | Some cmp_null => Normal (JBool (is_null d))
  | Some cmp_notnull => Normal (JBool (negb (is_null d)))
  | Some cmp_allof => lift_bool (ofList (@forallb string) d v)
  | Some cmp_anyof => lift_bool (ofList (@existsb string) d v)
  | Some cmp_nallof =>
      lift_bool (bind (ofList (@forallb string) d v) (fun b => Ok (negb b)))
  | Some cmp_nanyof =>
      lift_bool (bind (ofList (@existsb string) d v) (fun b => Ok (negb b)))
  | Some cmp_lt => Normal (JBool (num_ltb (ToNumber d) (ToNumber v)))
  | Some (cmp_lte | cmp_le) =>
      Normal (JBool (num_leb (ToNumber d) (ToNumber v)))
  | Some cmp_gt => Normal (JBool (num_ltb (ToNumber v) (ToNumber d)))
  | Some (cmp_gte | cmp_ge) =>
      Normal (JBool (num_leb (ToNumber v) (ToNumber d)))
  | _ => Normal undefined
  end.

(** ** One leaf: the [else] branch of [if (filter.is_group)] *)

Definition leafRes (client : option string) (data : value) (f : Filter)
  : completion value value :=
  let col := column f in
  let field := title col in
  match get data field with
  | Err e => Throw e
  | Ok d =>
      if is_date_family (uidt col)
         && negb (is_emptiness_op (comparison_op f))
      then dateLeaf client f d
      else
        let val :=
          match filter_value f with
          | JBool _ => JBool (truthy d)
          | JNum _ => JNum (ToNumber d)
          | _ => d
          end in
        if is_user_family (uidt col) then userLeaf f d
        else otherLeaf f d val
  end.

(** ** The loop over the siblings (lines 76-379) *)

(** [switch (filter.logical_op)] *)
Definition combine (op : option LogicalOp) (isValid res : value) : value :=
  match op with
  | Some op_or => js_or isValid (js_not (js_not res))
  | Some op_not => js_and isValid (js_not res)
  | Some op_and | None => js_and (coalesce isValid (JBool true)) res
  end.

Section Loop.
(** computes [res] for one filter *)
Variable filterRes : Filter -> completion value value.

(** [for (const _filter of filters) { ... } return isValid;] *)
Fixpoint forOf (filters : list Filter) (isValid : value)
  : result value :=
  match filters with
  | [] => Ok isValid
  | filter :: rest =>
      match filterRes filter with
      | Normal res => forOf rest (combine (logical_op filter) isValid res)
      | Return r => Ok r
      | Throw e => Err e
      end
  end.

Definition validateWith (filters : list Filter) : result value :=
  match filters with
  | [] => Ok (JBool true)
  | _ => forOf filters null
  end.
End Loop.

Fixpoint filterRes (client : option string) (data : value) (f : Filter)
  {struct f} : completion value value :=
  match f with
  | mkFilter true children _ _ _ _ _ =>
      match validateWith (filterRes client data) children with
      | Ok res => Normal res
      | Err e => Throw e
      end
  | mkFilter false _ _ _ _ _ _ => leafRes client data f
  end.

(** [validateCondition(context, filters, data, { client })] *)
Definition validateCondition (filters : list Filter) (data : value)
    (client : option string) : result value :=
  validateWith (filterRes client data) filters.

End Evaluator.

(** ** [parseBody] (lines 46-60) *)

(** The Handlebars engine: [Handlebars.compile(template, { noEscape:
    true })(context)], which renders or throws. *)
Class Handlebars (number : Type) : Type := {
  compile_and_render : string -> value number -> result string
}.

Section Templates.
Context {number : Type} {HB : Handlebars number}.
#[local] Abbreviation value := (value number).

Definition parseBody (template : string) (data : value) : result string :=
  if template =? "" then Ok template
  else
    try_catch
      (compile_and_render template
         (JObj [("data", data); ("event", data)]))
      (fun _ => Ok template).
End Templates.

(** ** [constructWebHookData] (lines 382-414) *)

(** The uuid library: [uuidv4()] draws from a source that moves on. *)
Class Uuid : Type := {
  uuid_source : Type;
  uuidv4 : uuid_source -> string * uuid_source
}.

(** What the helpers read of a hook, with its stored filters
    ([await hook.getFilters(context)]) and its notification, which is
    [JSON.parse]d when stored as text (an error when that fails). *)
Record Notification (number : Type) : Type := mkNotification {
  ntype : string;
  payload : value number
}.
Arguments mkNotification {number} ntype payload.
Arguments ntype {number} n.
Arguments payload {number} n.

Record Hook (number : Type) : Type := mkHook {
  hook_id : string;
  version : option string;
  event : string;
  operation : string;
  condition : bool;
  notification : result (option (Notification number));
  getFilters : list (@Filter number)
}.
Arguments mkHook {number}.
Arguments hook_id {number} h.
Arguments version {number} h.
Arguments event {number} h.
Arguments operation {number} h.
Arguments condition {number} h.
Arguments notification {number} h.
Arguments getFilters {number} h.

Record Model : Type := mkModel {
  id : string;
  model_title : string
}.

Section Envelope.
Context {number : Type} {RT : Runtime number} {U : Uuid}.
#[local] Abbreviation value := (value number).

(** [Array.isArray(x) ? x : [x]] *)
Definition as_array (x : value) : value :=
  if isArray x then x else JArr [x].

(** [...(c && { k: v })]: spreading a falsy condition adds nothing. *)
Definition spread_when (c : bool) (entry : string * value)
  : list (string * value) :=
  if c then [entry] else [].

Definition rows_inserted (newData : value) : value :=
  match newData with
  | JArr rows => JNum (num_of_Z (Z.of_nat (length rows)))
  | _ => JNum (num_of_Z (if truthy newData then 1 else 0))
  end.

Definition constructWebHookData (hook : Hook number) (model : Model)
    (prevData newData : value) (st : uuid_source)
  : value * uuid_source :=
  match version hook with
  | Some "v2" =>
      let scope := "records" in
      let (uuid, st') := uuidv4 st in
      (JObj
         [("type", JStr (scope ++ "." ++ event hook ++ "."
                         ++ operation hook));
          ("id", JStr uuid);
          ("data",
           JObj
             ([("table_id", JStr (id model));
               ("table_name", JStr (model_title model))]
              ++ spread_when (truthy prevData)
                   ("previous_rows", as_array prevData)
              ++ spread_when
                   (negb (operation hook =? "bulkInsert")
                    && truthy newData)
                   ("rows", as_array newData)
              ++ spread_when (operation hook =? "bulkInsert")
                   ("rows_inserted", rows_inserted newData)))],
       st')
  | _ => (newData, st)
  end.
End Envelope.

(** ** [parseHrtimeToMilliSeconds] (lines 968-971) *)

(** Numbers are binary64 doubles, added and divided as such. *)

(** The double of an integer: exact below 2^53 (the argument is taken
    from 0 to 2^63). *)
Definition double_of_Z (n : Z) : PrimFloat.float :=
  PrimFloat.of_uint63 (Uint63.of_Z n).

(** The real number that a finite double stands for. *)
Definition value_of_double (x : PrimFloat.float) : Q :=
  match FloatOps.Prim2SF x with
  | SpecFloat.S754_finite negative mantissa exponent =>
      ((if negative then - (1) else 1)
       * inject_Z (Zpos mantissa) * 2 ^ exponent)%Q
  | _ => 0%Q
  end.

(** [x.toFixed(3)] on the real number that [x] stands for: the integer
    [n] with [n / 1000] closest to it, the larger one on a tie, printed
    with three decimals ([0 <= x]). *)
Definition toFixed3 (x : Q) : string :=
  let n := Qfloor (x * 1000 + (1 # 2))%Q in
  Z_to_string (n / 1000)%Z ++ "."
    ++ digit (n / 100)%Z ++ digit (n / 10)%Z ++ digit n.

(** [hrtime] is the [[seconds, nanoseconds]] pair of [process.hrtime]. *)
Definition parseHrtimeToMilliSeconds (hrtime : Z * Z) : string :=
  let milliseconds :=
    toFixed3
      (value_of_double
         (PrimFloat.add (double_of_Z (fst hrtime))
            (PrimFloat.div (double_of_Z (snd hrtime))
               (double_of_Z 1000000)))) in
  milliseconds.

(** ** [invokeWebhook] (lines 604-880) *)

(** The record handed to [HookLog.insert]; [log_hook] stands for the
    spread [...hook], [conditions] for the serialized filters.  The
    payload and response of a failed delivery are serialized from the
    caught error and are not represented. *)
Record HookLogType (number : Type) : Type := mkHookLog {
  log_hook : Hook number;
  fk_hook_id : string;
  log_type : string;
  log_payload : option string;
  log_response : option string;
  log_error : option error;
  triggered_by : value number;
  conditions : option (list (@Filter number));
  execution_time : option string;
  test_call : bool
}.
Arguments mkHookLog {number}.
Arguments log_hook {number} h.
Arguments fk_hook_id {number} h.
Arguments log_payload {number} h.
Arguments log_response {number} h.
Arguments triggered_by {number} h.
Arguments conditions {number} h.
Arguments execution_time {number} h.
Arguments log_error {number} h.
Arguments test_call {number} h.
Arguments log_type {number} h.

(** The collaborators of one invocation: the environment, the edition
    flags, the source of the model, the delivery adapters with their
    payload templating (mail adapter, HTTP client, notification
    plugins), the clock, and what the filter objects carry when a
    failure is logged. *)
Class Deployment (number : Type) : Type := {
  NC_AUTOMATION_LOG_LEVEL : option string;
  isEE : bool;
  isOnPrem : bool;
  (** [(await Source.get(context, model.source_id))?.type] *)
  source_type : option string;
  (** the [switch (notification?.type)] branch: renders the payload and
      calls the adapter; yields the logged payload and response *)
  send : Notification number -> Hook number -> Model ->
         value number -> value number -> result (string * string);
  (** [process.hrtime(startTime)] as read in the [finally] block *)
  hrtime_elapsed : Z * Z;
  (** whether the object of a filter group carries its [children] array
      when the [catch] block runs: the array it came with, or the one
      line 81 sets on the [Filter] instances the evaluator visits *)
  carries_children : @Filter number -> bool
}.

Record Param (number : Type) : Type := mkParam {
  hook : Hook number;
  model : Model;
  prevData : value number;
  newData : value number;
  user_email : value number;
  testFilters : option (list (@Filter number));
  throwErrorOnFailure : bool;
  testHook : bool
}.
Arguments mkParam {number}.
Arguments hook {number} p.
Arguments model {number} p.
Arguments prevData {number} p.
Arguments newData {number} p.
Arguments user_email {number} p.
Arguments testFilters {number} p.
Arguments throwErrorOnFailure {number} p.
Arguments testHook {number} p.

(** What one invocation did: the data handed to the delivery adapter
    (if it was called), the error thrown to the caller (if any) and the
    record passed to [HookLog.insert] (if any). *)
Record Invocation (number : Type) : Type := mkInvocation {
  dispatched : option (value number);
  thrown : option error;
  inserted : option (HookLogType number)
}.
Arguments mkInvocation {number}.
Arguments dispatched {number} i.
Arguments thrown {number} i.
Arguments inserted {number} i.

Section Dispatch.
Context {number : Type} {RT : Runtime number} {DJ : Dayjs number}
        {D : Deployment number}.
#[local] Abbreviation value := (value number).
#[local] Abbreviation Filter := (@Filter number).

(** The decision of the condition block (lines 649-708). *)
Inductive Gate : Type :=
| Skip
| Proceed (newData : value).

(** The bulk loop (lines 653-680): the records the filters accept. *)
Fixpoint filteredData (filters : list Filter) (rows : list value)
  : result (list value) :=
  match rows with
  | [] => Ok []
  | data :: rest =>
      bind (validateCondition filters data source_type) (fun ok =>
      bind (filteredData filters rest) (fun kept =>
      Ok (if truthy ok then data :: kept else kept)))
  end.

Definition conditionGate (p : Param number) : result Gate :=
  if condition (hook p) && negb (testHook p) then
    let filters :=
      match testFilters p with
      | Some t => t
      | None => getFilters (hook p)
      end in
    match newData p with
    | JArr rows =>
        bind (filteredData filters rows) (fun kept =>
        match kept with
        | [] => Ok Skip
        | _ => Ok (Proceed (JArr kept))
        end)
    | _ =>
        bind
          (if truthy (prevData p) && negb (Nat.eqb (length filters) 0)
           then bind (validateCondition filters (prevData p) source_type)
                  (fun ok => Ok (truthy ok))
           else Ok false)
          (fun notified =>
        if notified then Ok Skip
        else
          bind (validateCondition filters (newData p) source_type)
            (fun ok =>
          if negb (truthy ok) then Ok Skip
          else Ok (Proceed (newData p))))
    end
  else Ok (Proceed (newData p)).

(** [process.env.NC_AUTOMATION_LOG_LEVEL === 'ALL' ||
     (isEE && !process.env.NC_AUTOMATION_LOG_LEVEL)] *)
Definition logs_success : bool :=
  match NC_AUTOMATION_LOG_LEVEL with
  | Some "ALL" => true
  | Some "" | None => isEE
  | Some _ => false
  end.

(** [['ERROR', 'ALL'].includes(process.env.NC_AUTOMATION_LOG_LEVEL)
     || isEE] *)
Definition logs_failure : bool :=
  match NC_AUTOMATION_LOG_LEVEL with
  | Some "ERROR" | Some "ALL" => true
  | _ => isEE
  end.

Definition applied_filters (p : Param number) : option (list Filter) :=
  if condition (hook p) && negb (testHook p)
  then Some match testFilters p with
            | Some t => t
            | None => getFilters (hook p)
            end
  else None.

(** The state the [try] block leaves behind: whether the adapter was
    called, with what, and the [hookLog] assigned so far. *)
Record TryState : Type := mkTry {
  try_dispatched : option value;
  try_hookLog : option (HookLogType number);
  try_error : option error
}.

(** The [try] block (lines 636-809). *)
Definition tryBlock (p : Param number) : TryState :=
  match notification (hook p) with
  | Err e => mkTry None None (Some e)
  | Ok notification =>
      let is_url :=
        match notification with
        | Some n => ntype n =? "URL"
        | None => false
        end in
      if isArray (newData p) && negb is_url then mkTry None None None
      else
        match conditionGate p with
        | Err e => mkTry None None (Some e)
        | Ok Skip => mkTry None None None
        | Ok (Proceed newData) =>
            match notification with
            | None =>
                mkTry None None
                  (Some (TypeError "Cannot read properties of undefined"))
            | Some n =>
                match send n (hook p) (model p) (prevData p) newData with
                | Err e => mkTry (Some newData) None (Some e)
                | Ok (payload, response) =>
                    mkTry (Some newData)
                      (if logs_success
                       then Some (mkHookLog (hook p) (hook_id (hook p))
                                    (ntype n) (Some payload) (Some response)
                                    None (user_email p) (applied_filters p)
                                    None false)
                       else None)
                      None
                end
            end
        end
  end.

(** [flattenFilter(filters)] (lines 579-602) returns: every group it
    reaches carries its [children]; on one that does not, the loop over
    [filter.children] throws a TypeError. *)
Fixpoint flattens (f : Filter) : bool :=
  match f with
  | mkFilter true children _ _ _ _ _ =>
      carries_children f && forallb flattens children
  | _ => true
  end.

(** The [catch] block (lines 810-867): the [hookLog] it assigns and
    the error it throws on.  The log is built field by field:
    [notification.type] is read first, and the conditions are
    serialized through [flattenFilter(filters)] when filters were
    applied; when either throws, no log is assigned and the TypeError
    leaves the block. *)
Definition catchBlock (p : Param number) (e : error)
  : option (HookLogType number) * option error :=
  let rethrown :=
    if throwErrorOnFailure p then
      match e with
      | AxiosError true _ =>
          Some (SecurityError
            ("Connection to a private network IP is blocked for security reasons."
             ++ (if negb isEE || isOnPrem
                 then "If this is intentional, set NC_ALLOW_LOCAL_HOOKS=true to allow local network webhooks."
                 else "")))
      | _ => Some e
      end
    else None in
  if logs_failure then
    match notification (hook p) with
    | Ok (Some n) =>
        if match applied_filters p with
           | Some filters => forallb flattens filters
           | None => true
           end
        then
          (Some (mkHookLog (hook p) (hook_id (hook p)) (ntype n)
                   None None (Some e) (user_email p) (applied_filters p)
                   None false),
           rethrown)
        else (None, Some (TypeError "filter.children is not iterable"))
    | _ => (None, Some (TypeError "Cannot read properties of undefined"))
    end
  else (None, rethrown).

(** The [finally] block (lines 868-879): what [HookLog.insert]
    receives. *)
Definition finallyBlock (p : Param number)
    (hookLog : option (HookLogType number))
  : option (HookLogType number) :=
  match hookLog with
  | Some l =>
      Some (mkHookLog (log_hook l) (fk_hook_id l) (log_type l)
              (log_payload l) (log_response l) (log_error l)
              (triggered_by l) (conditions l)
              (Some (parseHrtimeToMilliSeconds hrtime_elapsed))
              (testHook p))
  | None => None
  end.

Definition invokeWebhook (p : Param number) : Invocation number :=
  let t := tryBlock p in
  match try_error t with
  | None =>
      mkInvocation (try_dispatched t) None (finallyBlock p (try_hookLog t))
  | Some e =>
      let (hookLog, rethrown) := catchBlock p e in
      mkInvocation (try_dispatched t) rethrown (finallyBlock p hookLog)
  end.

End Dispatch.

(** ** [flattenFilter] (lines 579-602) *)

Module Flatten.

(** What [flattenFilter] reads and writes of a filter: [id] and
    [fk_parent_id] (a string, or not set), [is_group] and [children]
    (an array, or not set); [fields] stands for the rest of the
    object. *)
Inductive Filter (A : Type) : Type :=
  mkFilter (id : option string) (fk_parent_id : option string)
           (is_group : bool) (children : option (list (Filter A)))
           (fields : A).
Arguments mkFilter {A}.

Section Fields.
Context {A : Type}.

Definition id (f : Filter A) : option string :=
  let (i, _, _, _, _) := f in i.
Definition fk_parent_id (f : Filter A) : option string :=
  let (_, p, _, _, _) := f in p.
Definition is_group (f : Filter A) : bool :=
  let (_, _, g, _, _) := f in g.
Definition children (f : Filter A) : option (list (Filter A)) :=
  let (_, _, _, c, _) := f in c.
Definition fields (f : Filter A) : A :=
  let (_, _, _, _, x) := f in x.
End Fields.

(** An id that is set and not the empty string is truthy. *)
Definition truthy_id (i : option string) : bool :=
  match i with
  | Some s => negb (s =? "")
  | None => false
  end.

Section Flatten.
Context {U : Uuid} {A : Type}.

(** Computations that draw identifiers and may throw. *)
Definition F (X : Type) : Type := uuid_source -> result (X * uuid_source).

(** The array holds the filter objects themselves, which the loop
    writes to: a computation yields the objects as it leaves them and,
    in the order of the pushes, the entries it adds to the array. *)
Section Loop.
Variable body : Filter A -> F (Filter A * list (Filter A)).

(** [for (const filter of filters) { ... }] *)
Fixpoint forOf (filters : list (Filter A))
  : F (list (Filter A) * list (Filter A)) :=
  fun st =>
    match filters with
    | [] => Ok (([], []), st)
    | filter :: rest =>
        match body filter st with
        | Ok ((filter, pushed), st) =>
            match forOf rest st with
            | Ok ((rest, pushed_after), st) =>
                Ok ((filter :: rest, pushed ++ pushed_after), st)
            | Err e => Err e
            end
        | Err e => Err e
        end
    end.
End Loop.

(** The body of the loop (lines 585-599), with the recursive call on
    the children of a group. *)
Fixpoint visit (parentId : option string) (filter : Filter A)
    {struct filter} : F (Filter A * list (Filter A)) :=
  fun st =>
    match filter with
    | mkFilter id fk_parent_id is_group children fields =>
        let fk_parent_id :=
          if truthy_id parentId && negb (truthy_id fk_parent_id)
          then parentId else fk_parent_id in
        if is_group then
          let (id, st) :=
            if negb (truthy_id id)
            then let (fresh, st) := uuidv4 st in (Some fresh, st)
            else (id, st) in
          match children with
          | Some children =>
              match forOf (visit id) children st with
              | Ok ((children, pushed), st) =>
                  let filter :=
                    mkFilter id fk_parent_id is_group (Some children)
                      fields in
                  Ok ((filter, filter :: pushed), st)
              | Err e => Err e
              end
          | None => Err (TypeError "filter.children is not iterable")
          end
        else
          let filter :=
            mkFilter id fk_parent_id is_group children fields in
          Ok ((filter, [filter]), st)
    end.

(** The filters as the call leaves them, and the array it returns. *)
Definition flattenFilter (filters : list (Filter A))
    (flattenedFilters : list (Filter A)) (parentId : option string)
  : F (list (Filter A) * list (Filter A)) :=
  fun st =>
    match forOf (visit parentId) filters st with
    | Ok ((filters, pushed), st) =>
        Ok ((filters, flattenedFilters ++ pushed), st)
    | Err e => Err e
    end.

End Flatten.
End Flatten.

(** ** [populateAxiosReq] (lines 416-539) *)

(** An entry of [apiMeta.headers] or [apiMeta.parameters]: a name and a
    value template (strings, or not set) and the [enabled] mark. *)
Record Entry : Type := mkEntry {
  entry_name : option string;
  entry_enabled : bool;
  entry_value : option string
}.

(** What the function reads of [apiMeta], the payload of a URL
    notification. *)
Record ApiMeta (number : Type) : Type := mkApiMeta {
  api_headers : option (list Entry);
  api_parameters : option (list Entry);
  api_path : option string;
  api_method : value number;
  api_body : value number;
  api_auth : value number
}.
Arguments mkApiMeta {number}.
Arguments api_headers {number} a.
Arguments api_parameters {number} a.
Arguments api_path {number} a.
Arguments api_method {number} a.
Arguments api_body {number} a.
Arguments api_auth {number} a.

(** The JSON functions and the agents of [request-filtering-agent]. *)
Class Http (number : Type) : Type := {
  (** [JSON.stringify(v)] *)
  JSON_stringify : value number -> result string;
  (** [JSON.parse(text, (_key, value) => typeof value === 'string' ?
      f(value) : value)] *)
  JSON_parse : string -> (string -> result (value number)) ->
               result (value number);
  Agent : Type;
  (** [useAgent(url, { stopPortScanningByUrlRedirection: true })] *)
  useAgent : value number -> result Agent
}.

(** The request handed to axios. *)
Record ReqPayload (number : Type) {H : Http number} : Type := mkReq {
  req_params : list (string * value number);
  req_url : value number;
  req_method : value number;
  req_data : value number;
  req_headers : list (string * value number);
  withCredentials : bool;
  httpAgent : option Agent;
  httpsAgent : option Agent;
  timeout : Z
}.
Arguments mkReq {number H}.
Arguments req_params {number H} r.
Arguments req_url {number H} r.
Arguments req_method {number H} r.
Arguments req_data {number H} r.
Arguments req_headers {number H} r.
Arguments withCredentials {number H} r.
Arguments httpAgent {number H} r.
Arguments httpsAgent {number H} r.
Arguments timeout {number H} r.

Section Request.
Context {number : Type} {RT : Runtime number} {HB : Handlebars number}
        {U : Uuid} {H : Http number}.
#[local] Abbreviation value := (value number).

(** [process.env.NC_ALLOW_LOCAL_HOOKS] *)
Variable NC_ALLOW_LOCAL_HOOKS : option string.

(** [(header) => header.name?.toLowerCase() === 'content-type' &&
     header.enabled] *)
Definition is_content_type (header : Entry) : bool :=
  match entry_name header with
  | Some name => (toLowerCase name =? "content-type") && entry_enabled header
  | None => false
  end.

(** Lines 437-449: the headers, with the default content type pushed
    when none is found. *)
Definition headers_with_default (headers : option (list Entry))
  : list Entry :=
  let pushed := mkEntry (Some "Content-Type") true (Some "application/json") in
  match headers with
  | Some headers =>
      if existsb is_content_type headers then headers
      else headers ++ [pushed]
  | None => [pushed]
  end.

(** [parseBody(template, webhookData)] on a template that may not be
    set. *)
Definition rendered (template : option string) (webhookData : value)
  : result value :=
  match template with
  | Some template =>
      bind (parseBody template webhookData) (fun s => Ok (JStr s))
  | None => Ok undefined
  end.

(** Lines 465-481 and 483-498: the templating of [body] and of [auth].
    A value that is not a string goes through [JSON.stringify]; when
    the parsing fails, [parseBody] is applied, which returns what is
    not a string as it is. *)
Definition templated (v : value) (webhookData : value) : result value :=
  if truthy v then
    try_catch
      (bind match v with
            | JStr s => Ok s
            | _ => JSON_stringify v
            end (fun text =>
       JSON_parse text (fun s => rendered (Some s) webhookData)))
      (fun _ =>
         match v with
         | JStr s => rendered (Some s) webhookData
         | _ => Ok v
         end)
  else Ok v.

(** [entries.reduce((obj, entry) => { if (entry.name && entry.enabled)
     obj[entry.name] = parseBody(entry.value, webhookData); return obj },
     obj)] *)
Fixpoint reduce (webhookData : value) (entries : list Entry)
    (obj : list (string * value)) : result (list (string * value)) :=
  match entries with
  | [] => Ok obj
  | entry :: rest =>
      bind
        match entry_name entry with
        | Some name =>
            if negb (name =? "") && entry_enabled entry
            then bind (rendered (entry_value entry) webhookData)
                   (fun v => Ok (obj ++ [(name, v)]))
            else Ok obj
        | None => Ok obj
        end
        (fun obj => reduce webhookData rest obj)
  end.

Definition populateAxiosReq (apiMeta : option (ApiMeta number))
    (hook : Hook number) (model : Model) (prevData newData : value)
    (st : uuid_source) : result (ReqPayload number * uuid_source) :=
  let _apiMeta :=
    match apiMeta with
    | Some a => a
    | None => mkApiMeta None None None undefined undefined undefined
    end in
  let headers := headers_with_default (api_headers _apiMeta) in
  let (webhookData, st) :=
    constructWebHookData hook model prevData newData st in
  bind (templated (api_body _apiMeta) webhookData) (fun body =>
  bind (templated (api_auth _apiMeta) webhookData) (fun _ =>
  bind (rendered (api_path _apiMeta) webhookData) (fun url =>
  bind match api_parameters _apiMeta with
       | Some parameters => reduce webhookData parameters []
       | None => Ok []
       end (fun params =>
  bind (reduce webhookData headers []) (fun headers =>
  bind match NC_ALLOW_LOCAL_HOOKS with
       | Some "true" => Ok (None, None)
       | _ =>
           bind (useAgent url) (fun httpAgent =>
           bind (useAgent url) (fun httpsAgent =>
           Ok (Some httpAgent, Some httpsAgent)))
       end (fun agents =>
  Ok (mkReq params url (api_method _apiMeta) body headers true
        (fst agents) (snd agents) 30000%Z,
      st))))))).

End Request.

End Webhook.

(* ================================================================== *)
(** * generateLookupSelectQuery *)
(* ================================================================== *)

Module LookupSelect.
Import Js Sdk.

(** ** Schema metadata, as the asynchronous accessors resolve it

    The tenant contexts that the accessors are called with only select
    where the metadata is read from; the entities below are the ones
    they resolve to. *)

Record Model : Type := mkModel {
  model_id : string;
  table_name : string
}.

(** A child, parent or junction column: [column_name] and
    [getModel(...)]. *)
Record KeyColumn : Type := mkKey {
  key_column_name : string;
  key_model : Model
}.

(** [getMMModel], [getMMChildColumn], [getMMParentColumn] *)
Record Junction : Type := mkJunction {
  mmModel : Model;
  mmChildCol : KeyColumn;
  mmParentCol : KeyColumn
}.

(** [LinkToAnotherRecordColumn] *)
Record Relation : Type := mkRelation {
  rel_type : RelationTypes;
  childColumn : KeyColumn;
  parentColumn : KeyColumn;
  junction : option Junction
}.

Inductive Column : Type :=
  mkColumn (id : string) (column_name : string) (uidt : UITypes)
           (meta_bt : bool) (getModel : Model) (colOptions : ColOptions)
with ColOptions : Type :=
(** no options, or options that other builders read (rollup, formula) *)
| PlainOptions
(** [LookupColumn]: [getRelationColumn] and [getLookupColumn] *)
| LookupOptions (relationColumn : Column) (lookupColumn : Column)
(** a relation, with the display value of the related table
    ([getDisplayValueOfRefTable]) *)
| LinkOptions (relation : Relation) (displayValue : Column)
(** [BarcodeColumn] or [QrCodeColumn]: [getValueColumn] *)
| CodeOptions (valueColumn : Column).

Scheme Column_mutual := Induction for Column Sort Prop
  with ColOptions_mutual := Induction for ColOptions Sort Prop.

Definition id (c : Column) : string :=
  let (i, _, _, _, _, _) := c in i.
Definition column_name (c : Column) : string :=
  let (_, n, _, _, _, _) := c in n.
Definition uidt (c : Column) : UITypes :=
  let (_, _, u, _, _, _) := c in u.
Definition meta_bt (c : Column) : bool :=
  let (_, _, _, b, _, _) := c in b.
Definition getModel (c : Column) : Model :=
  let (_, _, _, _, m, _) := c in m.
Definition colOptions (c : Column) : ColOptions :=
  let (_, _, _, _, _, o) := c in o.

(** ** The query under construction (the knex builder) *)

(** A base model: the root one handed to the function, or the one
    [Model.getBaseModelSQL] yields for a model. *)
Inductive BaseRef : Type :=
| RootBase
| BaseOf (m : Model).

(** [base.getTnPath(tn, alias?)] *)
Record TablePath : Type := getTnPath {
  path_base : BaseRef;
  path_table : string;
  path_alias : option string
}.

(** The qualifier of a column reference: an alias or a table path. *)
Inductive Qualifier : Type :=
| ByAlias (alias : string)
| ByPath (path : TablePath).

(** [`${qualifier}.${column_name}`] *)
Record ColRef : Type := mkRef {
  ref_qualifier : Qualifier;
  ref_column : string
}.

Inductive TableExpr : Type :=
(** [knex.raw('?? as ??', [path, alias])] *)
| RawAs (path : TablePath) (alias : string)
(** a path that carries its alias *)
| Path (path : TablePath).

Record Join : Type := mkJoin {
  join_table : TableExpr;
  join_left : ColRef;
  join_right : ColRef
}.

Record Where : Type := mkWhere {
  where_left : ColRef;
  where_right : ColRef
}.

Inductive SelectItem : Type :=
(** [`${alias}.${column_name} as ${id}`] *)
| SelectColumn (ref : ColRef) (as_id : string)
(** [{ [id]: knex.raw(builder).wrap('(', ')') }] with the builder of
    [genRollupSelectv2] for the column and alias *)
| SelectRollup (col : Column) (alias : string)
(** [knex.raw('?? as ??', [builder, getAs(column)])] with the builder
    of [formulaQueryBuilderv2] *)
| SelectFormula (col : Column) (alias : string)
(** what [baseModelSqlv2.selectObject] adds for the column *)
| SelectObject (col : Column) (alias : string)
(** [knex.raw(sql, bindings)] *)
| SelectRaw (sql : string) (bindings : list string).

Inductive Query : Type :=
  mkQuery (from : FromClause) (joins : list Join) (wheres : list Where)
          (selects : list SelectItem)
with FromClause : Type :=
| FromTable (table : TableExpr)
(** [.from(sub.as(alias))] *)
| FromDerived (sub : Query) (alias : string).

Definition add_join (j : Join) (q : Query) : Query :=
  let (f, js, ws, ss) := q in mkQuery f (js ++ [j]) ws ss.
Definition add_where (w : Where) (q : Query) : Query :=
  let (f, js, ws, ss) := q in mkQuery f js (ws ++ [w]) ss.
Definition add_select (s : SelectItem) (q : Query) : Query :=
  let (f, js, ws, ss) := q in mkQuery f js ws (ss ++ [s]).

(** What the function reads of [baseModelSqlv2]. *)
Record BaseModel : Type := mkBase {
  isPg : bool;
  isMySQL : bool;
  isSqlite : bool
}.

Definition LOOKUP_VAL_SEPARATOR : string := "___".

(** ** Aliases *)

(** Modelled from the spec: [getAliasGenerator] of [~/utils] is not
    among the sources; it is a monotonic counter with a fixed prefix.
    The state is the counter. *)
Definition getAliasGenerator (prefix : string) (counter : nat)
  : string * nat :=
  ((prefix ++ Z_to_string (Z.of_nat counter))%string, S counter).

(** Computations that draw aliases and may throw. *)
Definition M (A : Type) : Type := nat -> result (A * nat).

Definition ret {A} (a : A) : M A := fun n => Ok (a, n).
Definition throw {A} (e : error) : M A := fun _ => Err e.
Definition mbind {A B} (m : M A) (k : A -> M B) : M B :=
  fun n =>
    match m n with
    | Ok (a, n') => k a n'
    | Err e => Err e
    end.

Declare Scope lookup_scope.
Delimit Scope lookup_scope with lookup.
Notation "x <- m ;; k" := (mbind m (fun x => k))
  (at level 61, m at next level, right associativity) : lookup_scope.
Notation "' p <- m ;; k" := (mbind m (fun p => k))
  (at level 61, p pattern, m at next level, right associativity)
  : lookup_scope.


Section Builder.
Open Scope lookup_scope.

(** the generator: [getAlias = getAliasGenerator('__lk_slt_')] unless
    the caller passes its own *)
Variable getAlias : nat -> string * nat.

Definition fresh : M string := fun n => Ok (getAlias n).

(** One-to-One is read as BelongsTo or HasMany by the [meta.bt]
    marker of the relation column (lines 93-99 and 237-243). *)
Definition relationType (relationCol : Column) (relation : Relation)
  : RelationTypes :=
  match rel_type relation with
  | ONE_TO_ONE => if meta_bt relationCol then BELONGS_TO else HAS_MANY
  | t => t
  end.

Definition getColOptions_link (relationCol : Column)
  : M (Relation * Column) :=
  match colOptions relationCol with
  | LinkOptions relation display => ret (relation, display)
  | _ => throw (TypeError "not a relation column")
  end.

Definition getJunction (relation : Relation) : M Junction :=
  match junction relation with
  | Some j => ret j
  | None => throw (TypeError "no junction table")
  end.

(** [`${a || baseModelSqlv2.getTnPath(tn)}`] *)
Definition alias_or_root (a : string) (tn : string) : Qualifier :=
  if a =? "" then ByPath (getTnPath RootBase tn None) else ByAlias a.

(** The first hop (lines 78-202): the root of the subquery and the
    flag it leaves. *)
Definition firstHop (rootAlias alias : string) (relationCol : Column)
    (relation : Relation) : M (Query * bool) :=
  let childColumn := childColumn relation in
  let parentColumn := parentColumn relation in
  let childModel := key_model childColumn in
  let parentModel := key_model parentColumn in
  match relationType relationCol relation with
  | BELONGS_TO =>
      ret (mkQuery
             (FromTable
                (RawAs (getTnPath (BaseOf parentModel)
                          (table_name parentModel) None) alias))
             []
             [mkWhere
                (mkRef (ByAlias alias) (key_column_name parentColumn))
                (mkRef (alias_or_root rootAlias (table_name childModel))
                   (key_column_name childColumn))]
             [],
           true)
  | HAS_MANY =>
      ret (mkQuery
             (FromTable
                (RawAs (getTnPath (BaseOf parentModel)
                          (table_name childModel) None) alias))
             []
             [mkWhere
                (mkRef (ByAlias alias) (key_column_name childColumn))
                (mkRef (alias_or_root rootAlias (table_name parentModel))
                   (key_column_name parentColumn))]
             [],
           false)
  | MANY_TO_MANY =>
      mmTableAlias <- fresh ;;
      mm <- getJunction relation ;;
      ret (mkQuery
             (FromTable
                (RawAs (getTnPath (BaseOf parentModel)
                          (table_name parentModel) None) alias))
             [mkJoin
                (Path (getTnPath (BaseOf (mmModel mm))
                         (table_name (mmModel mm)) (Some mmTableAlias)))
                (mkRef (ByAlias mmTableAlias)
                   (key_column_name (mmParentCol mm)))
                (mkRef (ByAlias alias) (key_column_name parentColumn))]
             [mkWhere
                (mkRef (ByAlias mmTableAlias)
                   (key_column_name (mmChildCol mm)))
                (mkRef (alias_or_root rootAlias (table_name childModel))
                   (key_column_name childColumn))]
             [],
           false)
  | ONE_TO_ONE => throw (TypeError "selectQb is undefined")
  end.

(** One turn of the [while] loop (lines 220-343): the join it adds
    and the flag after it. *)
Definition nestedHop (alias prevAlias nestedAlias : string)
    (relationCol : Column) (relation : Relation) (selectQb : Query)
    (isBtLookup : bool) : M (Query * bool) :=
  let childColumn := childColumn relation in
  let parentColumn := parentColumn relation in
  let childModel := key_model childColumn in
  let parentModel := key_model parentColumn in
  match relationType relationCol relation with
  | BELONGS_TO =>
      ret (add_join
             (mkJoin
                (RawAs (getTnPath (BaseOf parentModel)
                          (table_name parentModel) None) nestedAlias)
                (mkRef (ByAlias nestedAlias)
                   (key_column_name parentColumn))
                (mkRef (ByAlias prevAlias) (key_column_name childColumn)))
             selectQb,
           isBtLookup)
  | HAS_MANY =>
      ret (add_join
             (mkJoin
                (RawAs (getTnPath (BaseOf childModel)
                          (table_name childModel) None) nestedAlias)
                (mkRef (ByAlias nestedAlias) (key_column_name childColumn))
                (mkRef (ByAlias prevAlias)
                   (key_column_name parentColumn)))
             selectQb,
           false)
  | MANY_TO_MANY =>
      mmTableAlias <- fresh ;;
      mm <- getJunction relation ;;
      ret (add_where
             (mkWhere
                (mkRef (ByAlias mmTableAlias)
                   (key_column_name (mmChildCol mm)))
                (mkRef (alias_or_root alias (table_name childModel))
                   (key_column_name childColumn)))
          (add_join
             (mkJoin
                (RawAs (getTnPath (BaseOf parentModel)
                          (table_name parentModel) None) nestedAlias)
                (mkRef (ByAlias mmTableAlias)
                   (key_column_name (mmParentCol mm)))
                (mkRef (ByAlias nestedAlias)
                   (key_column_name parentColumn)))
          (add_join
             (mkJoin
                (Path (getTnPath (BaseOf (mmModel mm))
                         (table_name (mmModel mm)) (Some mmTableAlias)))
                (mkRef (ByAlias mmTableAlias)
                   (key_column_name (mmChildCol mm)))
                (mkRef (ByAlias prevAlias) (key_column_name childColumn)))
             selectQb)),
           false)
  | ONE_TO_ONE => ret (selectQb, isBtLookup)
  end.

(** What the [while] loop leaves. *)
Record Walk : Type := mkWalk {
  walk_selectQb : Query;
  walk_isBtLookup : bool;
  walk_prevAlias : string;
  walk_target : Column
}.

(** The [while (lookupColumn.uidt === Lookup || ... ===
    LinkToAnotherRecord)] loop (lines 216-354), by recursion on the
    column it advances to. *)
Fixpoint walk (alias : string) (lookupColumn : Column) (selectQb : Query)
    (isBtLookup : bool) (prevAlias : string) {struct lookupColumn}
  : M Walk :=
  match lookupColumn with
  | mkColumn _ _ Lookup _ _ opts =>
      nestedAlias <- fresh ;;
      match opts with
      | LookupOptions relationCol next =>
          ' (relation, _) <- getColOptions_link relationCol ;;
          ' (selectQb, isBtLookup) <-
              nestedHop alias prevAlias nestedAlias relationCol relation
                selectQb isBtLookup ;;
          walk alias next selectQb isBtLookup nestedAlias
      | _ => throw (TypeError "not a lookup column")
      end
  | mkColumn _ _ LinkToAnotherRecord _ _ opts =>
      nestedAlias <- fresh ;;
      match opts with
      | LinkOptions relation next =>
          ' (selectQb, isBtLookup) <-
              nestedHop alias prevAlias nestedAlias lookupColumn relation
                selectQb isBtLookup ;;
          walk alias next selectQb isBtLookup nestedAlias
      | _ => throw (TypeError "not a relation column")
      end
  | _ => ret (mkWalk selectQb isBtLookup prevAlias lookupColumn)
  end.

(** The [switch (lookupColumn.uidt)] that selects the value (lines
    364-430). *)
Definition selectTarget (isAggregation : bool) (lookupColumn : Column)
    (prevAlias : string) (selectQb : Query) : M Query :=
  let plain :=
    add_select
      (SelectColumn (mkRef (ByAlias prevAlias) (column_name lookupColumn))
         (id lookupColumn))
      selectQb in
  match uidt lookupColumn with
  | Links | Rollup =>
      ret (add_select (SelectRollup lookupColumn prevAlias) selectQb)
  | Formula =>
      ret (add_select (SelectFormula lookupColumn prevAlias) selectQb)
  | DateTime | LastModifiedTime | CreatedTime =>
      ret (add_select (SelectObject lookupColumn prevAlias) selectQb)
  | Attachment =>
      if negb isAggregation
      then throw (BadRequest
                    "Group by using attachment column is not supported")
      else ret plain
  | _ => ret plain
  end.

(** [knex.select(knex.raw(sql, bindings)).from(selectQb.as(alias))] *)
Definition aggregate (sql : string) (bindings : list string)
    (selectQb : Query) (subQueryAlias : string) : Query :=
  mkQuery (FromDerived selectQb subQueryAlias) [] []
    [SelectRaw sql bindings].

(** What has been built when the value is selected (line 431): the
    query, the flag and the column whose value it selects. *)
Record Built : Type := mkBuilt {
  built_selectQb : Query;
  built_isBtLookup : bool;
  built_lookupColumn : Column
}.

(** Lines 62-431: from the entry check to the selected value. *)
Definition buildSelectQb (column : Column) (rootAlias : string)
    (isAggregation : bool) : M Built :=
  alias <- fresh ;;
  lookupColOpt <-
    match uidt column with
    | Lookup =>
        match colOptions column with
        | LookupOptions relationCol lookupColumn =>
            ret (Some (relationCol, lookupColumn))
        | _ => throw (TypeError "not a lookup column")
        end
    | LinkToAnotherRecord => ret None
    | _ => throw (BadRequest "Invalid field type")
    end ;;
  let relationCol :=
    match lookupColOpt with
    | Some (relationCol, _) => relationCol
    | None => column
    end in
  ' (relation, display) <- getColOptions_link relationCol ;;
  ' (selectQb, isBtLookup) <-
      firstHop rootAlias alias relationCol relation ;;
  let lookupColumn :=
    match lookupColOpt with
    | Some (_, lookupColumn) => lookupColumn
    | None => display
    end in
  lookupColumn <-
    match uidt lookupColumn with
    | QrCode | Barcode =>
        match colOptions lookupColumn with
        | CodeOptions valueColumn => ret valueColumn
        | _ => throw (TypeError "not a code column")
        end
    | _ => ret lookupColumn
    end ;;
  w <- walk alias lookupColumn selectQb isBtLookup alias ;;
  let lookupColumn := walk_target w in
  selectQb <- selectTarget isAggregation lookupColumn (walk_prevAlias w)
                (walk_selectQb w) ;;
  ret (mkBuilt selectQb (walk_isBtLookup w) lookupColumn).

(** Lines 432-505: the query as built, or its aggregation. *)
Definition finish (baseModelSqlv2 : BaseModel) (b : Built) : M Query :=
  let selectQb := built_selectQb b in
  let lookupColumn := built_lookupColumn b in
  if built_isBtLookup b then ret selectQb
  else
    subQueryAlias <- fresh ;;
    if isPg baseModelSqlv2 then
      ret (aggregate "json_agg(??)::text" [id lookupColumn]
             selectQb subQueryAlias)
    else if isMySQL baseModelSqlv2 then
      ret (aggregate "cast(JSON_ARRAYAGG(??) as NCHAR)" [id lookupColumn]
             selectQb subQueryAlias)
    else if isSqlite baseModelSqlv2 then
      ret (aggregate "group_concat(??, ?)"
             [id lookupColumn; LOOKUP_VAL_SEPARATOR]
             selectQb subQueryAlias)
    else
      throw (NotImplemented
               "This operation on Lookup/LTAR for this database").

Definition generateLookupSelectQuery (column : Column)
    (baseModelSqlv2 : BaseModel) (rootAlias : string)
    (isAggregation : bool) : M Query :=
  b <- buildSelectQb column rootAlias isAggregation ;;
  finish baseModelSqlv2 b.

End Builder.

(** ** [getDisplayValueOfRefTable] (lines 25-34) *)

(** [cols] are the columns of the table the relation column leads to
    ([getColOptions], [getRelatedTable], [getColumns]), [pv] their
    primary-value mark: [cols.find((col) => col.pv) || cols[0]]. *)
Definition getDisplayValueOfRefTable {C : Type} (pv : C -> bool)
    (cols : list C) : option C :=
  match find pv cols with
  | Some col => Some col
  | None => nth_error cols 0
  end.

End LookupSelect.

(* ================================================================== *)
(** * The specification's vocabulary *)
(* ================================================================== *)

Module Spec.
Import Js Sdk.

Section Evaluate.
Context {number : Type} {RT : Runtime number}.
#[local] Abbreviation value := (value number).

(** Section 4.3: [or]: [acc || result]; [not]: [acc && !result];
    [and] or unset: [(acc ?? true) && result], on an accumulator that
    is null ([None]) until a verdict exists and on boolean results. *)
Definition step (acc : option bool)
    (sibling : option Webhook.LogicalOp * bool) : option bool :=
  let (op, result) := sibling in
  match op, acc with
  | Some Webhook.op_or, Some true => Some true
  | Some Webhook.op_or, _ => Some result
  | Some Webhook.op_not, Some true => Some (negb result)
  | Some Webhook.op_not, _ => acc
  | _, Some false => Some false
  | _, _ => Some result
  end.

(** The left-to-right fold over the siblings, from a null
    accumulator. *)
Definition fold_siblings (siblings : list (option Webhook.LogicalOp * bool))
  : option bool :=
  fold_left step siblings None.

Definition verdict (acc : option bool) : value :=
  match acc with
  | Some b => JBool b
  | None => null
  end.

(** The conjunction of results, as JavaScript's [&&] computes it. *)
Definition conjunction (results : list value) : value :=
  fold_left js_and results (JBool true).

Context {DJ : Webhook.Dayjs number}.
#[local] Abbreviation Filter := (@Webhook.Filter number).

(** The leaves of a filter tree, left to right. *)
Fixpoint leaves (f : Filter) : list Filter :=
  match f with
  | Webhook.mkFilter true children _ _ _ _ _ => flat_map leaves children
  | _ => [f]
  end.

Definition is_and (op : option Webhook.LogicalOp) : bool :=
  match op with
  | Some Webhook.op_and | None => true
  | _ => false
  end.

(** A tree with only [and] operators (or none). *)
Fixpoint and_only (f : Filter) : bool :=
  match f with
  | Webhook.mkFilter g children op _ _ _ _ =>
      is_and op && (if g then forallb and_only children else true)
  end.

(** The result of a sibling when it has one: [res] of the loop. *)
Definition result_of (client : option string) (data : value)
    (f : Filter) : value :=
  match Webhook.filterRes client data f with
  | Normal res => res
  | _ => undefined
  end.

(** The sibling has a boolean result. *)
Definition yields_boolean (client : option string) (data : value)
    (f : Filter) : Prop :=
  exists b, Webhook.filterRes client data f = Normal (JBool b).

(** A sibling as the fold reads it: its operator and its boolean
    result. *)
Definition sibling (client : option string) (data : value) (f : Filter)
  : option Webhook.LogicalOp * bool :=
  (Webhook.logical_op f,
   match Webhook.filterRes client data f with
   | Normal (JBool b) => b
   | _ => false
   end).
(** What an [and]-only tree with boolean leaves is to yield: the
    conjunction of its leaves. *)
Definition conjunction_of_leaves (client : option string) (data : value)
    (f : Filter) : Prop :=
  and_only f = true ->
  Forall (yields_boolean client data) (leaves f) ->
  Webhook.filterRes client data f
  = Normal (JBool (forallb (fun l => snd (sibling client data l))
                     (leaves f))).

(** Section 4.3, user-reference types: the ids of the stored value (an
    array of user objects, or a single one), the filter value read as a
    comma-separated list, and what each operator tests. *)
Definition user_ids (stored : value) : list value :=
  match stored with
  | JArr users => map (fun user => get_opt user "id") users
  | _ => let id := get_opt stored "id" in if truthy id then [id] else []
  end.

Definition filter_ids (v : value) : option (list string) :=
  match v with
  | undefined | null => Some []
  | JStr s => Some (map trim (split comma s))
  | _ => None
  end.

Definition user_test (op : option Webhook.ComparisonOp)
    (ids : list value) (wanted : list string) (res : bool) : Prop :=
  match op with
  | Some Webhook.cmp_anyof =>
      res = true <-> exists s, In (JStr s) ids /\ In s wanted
  | Some Webhook.cmp_nanyof =>
      res = true <-> ~ exists s, In (JStr s) ids /\ In s wanted
  | Some Webhook.cmp_allof =>
      res = true <-> forall s, In s wanted -> In (JStr s) ids
  | Some Webhook.cmp_nallof =>
      res = true <-> ~ forall s, In s wanted -> In (JStr s) ids
  | Some (Webhook.cmp_empty | Webhook.cmp_blank) =>
      res = true <-> ids = []
  | Some (Webhook.cmp_notempty | Webhook.cmp_notblank) =>
      res = true <-> ids <> []
  | _ => res = false
  end.

(** The stored value of a field of a row. *)
Definition field (row : list (string * value)) (name : string) : value :=
  match lookup name row with
  | Some v => v
  | None => undefined
  end.

(** No entry of a stored array is null or undefined. *)
Definition no_missing_user (stored : value) : Prop :=
  match stored with
  | JArr users => Forall (fun user => is_nullish user = false) users
  | _ => True
  end.
End Evaluate.

(** Section 4.4, step 3: the filters of an invocation (explicit test
    filters override the stored ones), a record they evaluate true
    against, and the "already notified" suppression. *)
Section Gate.
Context {number : Type} {RT : Runtime number} {DJ : Webhook.Dayjs number}
        {D : Webhook.Deployment number}.

Definition filters_of (p : Webhook.Param number)
  : list (@Webhook.Filter number) :=
  match Webhook.testFilters p with
  | Some t => t
  | None => Webhook.getFilters (Webhook.hook p)
  end.

Definition evaluates_true (p : Webhook.Param number)
    (data : value number) : Prop :=
  exists v,
    Webhook.validateCondition (filters_of p) data Webhook.source_type = Ok v
    /\ truthy v = true.

Definition already_notified (p : Webhook.Param number) : Prop :=
  truthy (Webhook.prevData p) = true
  /\ filters_of p <> []
  /\ evaluates_true p (Webhook.prevData p).
End Gate.

(** Section 4.4, step 7: the elapsed wall time in milliseconds of an
    hrtime pair of seconds and nanoseconds. *)
Definition elapsed_milliseconds (hrtime : Z * Z) : Q :=
  (inject_Z (fst hrtime) * 1000 + inject_Z (snd hrtime) / 1000000)%Q.

(** Section 7: [UnsupportedOperation] names the errors raised when a
    dialect or column type has no aggregation or serialization
    strategy. *)
Definition UnsupportedOperation (e : error) : Prop :=
  match e with
  | NotImplemented _ => True
  | BadRequest msg =>
      msg = "Group by using attachment column is not supported"
  | _ => False
  end.

(** Section 4.2, step 2: the relation hops of a lookup chain, each read
    through the marker of its relation column. *)
Section Hops.
Import LookupSelect.

(** Section 3: One-to-One is disambiguated into BelongsTo or HasMany by
    the [meta.bt] marker on the owning column; the other variants are
    what they are. *)
Definition is_one_to_one (t : RelationTypes) : bool :=
  match t with
  | ONE_TO_ONE => true
  | _ => false
  end.

Definition normalized (owner : Column) (relation : Relation)
  : RelationTypes :=
  if is_one_to_one (rel_type relation)
  then if meta_bt owner then BELONGS_TO else HAS_MANY
  else rel_type relation.

Definition hop_of (relationCol : Column) : list RelationTypes :=
  match colOptions relationCol with
  | LinkOptions relation _ => [normalized relationCol relation]
  | _ => []
  end.

Fixpoint nested_hops (lookupColumn : Column) : list RelationTypes :=
  match lookupColumn with
  | mkColumn _ _ Lookup _ _ (LookupOptions relationCol next) =>
      hop_of relationCol ++ nested_hops next
  | mkColumn _ _ LinkToAnotherRecord _ _ (LinkOptions relation next) =>
      normalized lookupColumn relation :: nested_hops next
  | _ => []
  end.

(** the column a QrCode or Barcode column encodes is looked through *)
Definition decoded (c : Column) : Column :=
  match uidt c, colOptions c with
  | (QrCode | Barcode), CodeOptions valueColumn => valueColumn
  | _, _ => c
  end.

Definition hops (column : Column) : list RelationTypes :=
  match uidt column, colOptions column with
  | Lookup, LookupOptions relationCol lookupColumn =>
      hop_of relationCol ++ nested_hops (decoded lookupColumn)
  | LinkToAnotherRecord, LinkOptions relation display =>
      normalized column relation :: nested_hops (decoded display)
  | _, _ => []
  end.

Definition is_belongs_to (t : RelationTypes) : bool :=
  match t with
  | BELONGS_TO => true
  | _ => false
  end.
End Hops.

End Spec.

(* ================================================================== *)
(** * Further vocabulary for the evaluator *)
(* ================================================================== *)

Module Terms.
Import Js Sdk.

Section Evaluate.
Context {number : Type} {RT : Runtime number} {DJ : Webhook.Dayjs number}.
#[local] Abbreviation value := (value number).
#[local] Abbreviation Filter := (@Webhook.Filter number).

(** The values a verdict can be: undefined, null, true or false. *)
Definition is_verdict (v : value) : bool :=
  match v with
  | undefined | null | JBool _ => true
  | _ => false
  end.

(** The same filter under another comparison operator. *)
Definition with_comparison_op (op : Webhook.ComparisonOp) (f : Filter)
  : Filter :=
  match f with
  | Webhook.mkFilter g children l _ sub v col =>
      Webhook.mkFilter g children l (Some op) sub v col
  end.

(** The same outcome with a boolean result negated. *)
Definition negated (c : completion value value) : completion value value :=
  match c with
  | Normal (JBool b) => Normal (JBool (negb b))
  | _ => c
  end.

(** Some leaf of the tree compares with [isWithin]. *)
Fixpoint mentions_isWithin (f : Filter) : bool :=
  match f with
  | Webhook.mkFilter true children _ _ _ _ _ =>
      existsb mentions_isWithin children
  | Webhook.mkFilter false _ _ (Some Webhook.cmp_isWithin) _ _ _ => true
  | _ => false
  end.

(** The character occurs in the string. *)
Fixpoint has_char (c : ascii) (s : string) : bool :=
  match s with
  | EmptyString => false
  | String a rest => Ascii.eqb a c || has_char c rest
  end.

(** The string neither starts nor ends with white space. *)
Definition trimmed (s : string) : Prop := trim s = s.

End Evaluate.

Section Gate.
Context {number : Type} {RT : Runtime number} {DJ : Webhook.Dayjs number}
        {D : Webhook.Deployment number}.

(** The filters of the invocation evaluate to a truthy value on the
    record. *)
Definition accepted (p : Webhook.Param number) (data : value number)
  : bool :=
  match Webhook.validateCondition (Spec.filters_of p) data
          Webhook.source_type with
  | Ok v => truthy v
  | Err _ => false
  end.

(** No filter group is applied: the serialization of the conditions
    of a failure through [flattenFilter] then reads no [children] and
    cannot throw. *)
Definition applies_no_group (p : Webhook.Param number) : bool :=
  match Webhook.applied_filters p with
  | Some filters => forallb (fun f => negb (Webhook.is_group f)) filters
  | None => true
  end.

End Gate.

(** On a whole number of milliseconds below one second the printed
    time is that number with three zero decimals, as the elapsed
    milliseconds print. *)
Definition whole_milliseconds (k : nat) : bool :=
  (Webhook.parseHrtimeToMilliSeconds (0, Z.of_nat k * 1000000)%Z
   =? Z_to_string (Z.of_nat k) ++ ".000")
  && (Webhook.toFixed3
        (Spec.elapsed_milliseconds (0, Z.of_nat k * 1000000)%Z)
      =? Z_to_string (Z.of_nat k) ++ ".000").

(** On a whole number of seconds the printed time is that number with
    three zero decimals, where the elapsed milliseconds print as a
    thousand times it. *)
Definition whole_seconds (s : nat) : bool :=
  (Webhook.parseHrtimeToMilliSeconds (Z.of_nat s, 0)%Z
   =? Z_to_string (Z.of_nat s) ++ ".000")
  && (Webhook.toFixed3 (Spec.elapsed_milliseconds (Z.of_nat s, 0)%Z)
      =? Z_to_string (1000 * Z.of_nat s) ++ ".000").

Section Flatten.
Import Webhook.Flatten.
Context {U : Webhook.Uuid} {A : Type}.

(** The filters of a tree, each group before its children. *)
Fixpoint nodes (f : Filter A) : list (Filter A) :=
  f :: match f with
       | mkFilter _ _ true (Some children) _ => flat_map nodes children
       | _ => []
       end.

(** Every group of the tree carries its children. *)
Fixpoint loaded (f : Filter A) : bool :=
  match f with
  | mkFilter _ _ true (Some children) _ => forallb loaded children
  | mkFilter _ _ true None _ => false
  | _ => true
  end.

(** A group without an id. *)
Definition unnamed_group (f : Filter A) : bool :=
  is_group f && negb (truthy_id (id f)).

(** The source of identifiers after [k] more of them. *)
Fixpoint after_uuids (k : nat) (st : Webhook.uuid_source)
  : Webhook.uuid_source :=
  match k with
  | O => st
  | S k' => after_uuids k' (snd (Webhook.uuidv4 st))
  end.

(** The children of a filter, none when they are not set. *)
Definition children_of (f : Filter A) : list (Filter A) :=
  match children f with
  | Some cs => cs
  | None => []
  end.

(** What a filter keeps: its other fields, [is_group], its [id] unless
    it is a group without one, and an [fk_parent_id] that is set. *)
Definition kept (f f' : Filter A) : Prop :=
  fields f' = fields f
  /\ is_group f' = is_group f
  /\ (unnamed_group f = false -> id f' = id f)
  /\ (truthy_id (fk_parent_id f) = true -> fk_parent_id f' = fk_parent_id f).

(** The parent id of a child: its own when it came with one, the id of
    its parent otherwise. *)
Definition adopted (parent child child' : Filter A) : Prop :=
  fk_parent_id child'
  = if truthy_id (fk_parent_id child) then fk_parent_id child
    else id parent.

(** A group with an id, whose children have been given their parent
    ids. *)
Definition linked (f f' : Filter A) : Prop :=
  is_group f' = true ->
  truthy_id (id f') = true
  /\ Forall2 (adopted f') (children_of f) (children_of f').
End Flatten.

Section Request.
Import Webhook.
Context {number : Type} {RT : Runtime number}
        {HB : Webhook.Handlebars number}.

(** The entry sets the key: it is enabled and named by it, the name not
    being empty. *)
Definition sets (k : string) (entry : Entry) : bool :=
  match entry_name entry with
  | Some name => (name =? k) && negb (name =? "") && entry_enabled entry
  | None => false
  end.

(** What the last entry that sets the key gives it. *)
Definition entry_for (webhookData : value number) (entries : list Entry)
    (k : string) : option (value number) :=
  match find (sets k) (rev entries) with
  | Some entry =>
      match rendered (entry_value entry) webhookData with
      | Ok v => Some v
      | Err _ => None
      end
  | None => None
  end.
End Request.

Section Lookup.
Import LookupSelect.

(** The parts of a query. *)
Definition from_of (q : Query) : FromClause :=
  let (f, _, _, _) := q in f.
Definition joins_of (q : Query) : list Join :=
  let (_, j, _, _) := q in j.
Definition wheres_of (q : Query) : list Where :=
  let (_, _, w, _) := q in w.
Definition selects_of (q : Query) : list SelectItem :=
  let (_, _, _, s) := q in s.

(** The hops of a chain that go through a junction table. *)
Definition junctions (ts : list RelationTypes) : nat :=
  length (filter (fun t => match t with
                           | MANY_TO_MANY => true
                           | _ => false
                           end) ts).

(** What is added to a query: [q] is [q0] with so many more joins and
    conditions. *)
Record Grown (q0 q : Query) (joins wheres : nat) : Prop := mkGrown {
  grown_from : from_of q = from_of q0;
  grown_selects : selects_of q = selects_of q0;
  grown_joins : length (joins_of q) = length (joins_of q0) + joins;
  grown_wheres : length (wheres_of q) = length (wheres_of q0) + wheres
}.

(** The state of the alias generator after [k] more aliases. *)
Fixpoint after_draws (getAlias : nat -> string * nat) (k n : nat) : nat :=
  match k with
  | O => n
  | S k' => after_draws getAlias k' (snd (getAlias n))
  end.
End Lookup.

End Terms.

(* ================================================================== *)
(** * A small engine to run the definitions on examples *)
(* ================================================================== *)

Module Example.
Import Js Sdk.

(** Integers for numbers; the conversions are total on the fragment the
    examples use (numbers, booleans, null, strings of no numeric
    meaning read as 0). *)
Definition to_number (v : value Z) : Z :=
  match v with
  | JNum n => n
  | JBool true => 1%Z
  | _ => 0%Z
  end.

Definition loose_eq (a b : value Z) : bool :=
  match a, b with
  | (undefined | null), (undefined | null) => true
  | JBool x, JBool y => Bool.eqb x y
  | JNum x, JNum y => Z.eqb x y
  | JStr x, JStr y => String.eqb x y
  | _, _ => false
  end.

Definition to_string (v : value Z) : string :=
  match v with
  | JStr s => s
  | JNum n => Z_to_string n
  | JBool true => "true"
  | JBool false => "false"
  | JArr _ => ""
  | JObj _ => "[object Object]"
  | undefined => "undefined"
  | null => "null"
  end.

Definition lower_char (c : ascii) : ascii :=
  let n := nat_of_ascii c in
  if Nat.leb 65 n && Nat.leb n 90 then ascii_of_nat (n + 32) else c.

Fixpoint lower (s : string) : string :=
  match s with
  | EmptyString => EmptyString
  | String c rest => String (lower_char c) (lower rest)
  end.

#[export] Instance runtime : Runtime Z := {|
  num_of_Z := fun n => n;
  num_neg := Z.opp;
  num_is_falsy := fun n => Z.eqb n 0;
  num_ltb := Z.ltb;
  num_leb := Z.leb;
  ToNumber := to_number;
  looseEq := loose_eq;
  ToString := to_string;
  toLowerCase := lower
|}.

(** Dates as day numbers; a week is 7 days, a month 30, a year 365. *)
Definition day_of (x : value Z + Z) : Z :=
  match x with
  | inl v => to_number v
  | inr d => d
  end.

Definition unit_days (u : Webhook.TimeUnit) : Z :=
  match u with
  | Webhook.day => 1
  | Webhook.week => 7
  | Webhook.month => 30
  | Webhook.year => 365
  end.

#[export] Instance calendar : Webhook.Dayjs Z := {|
  Webhook.dayjs := Z;
  Webhook.dayjs_now := 20000%Z;
  Webhook.dayjs_of := day_of;
  Webhook.dayjs_date1 := fun d => (d - d mod 30)%Z;
  Webhook.dayjs_add := fun d n u => (d + n * unit_days u)%Z;
  Webhook.isSame := fun d x => Z.eqb d (day_of x);
  Webhook.isAfter := fun d x => Z.ltb (day_of x) d;
  Webhook.isBefore := fun d x => Z.ltb d (day_of x);
  Webhook.isSameOrBefore := fun d x => Z.leb d (day_of x);
  Webhook.isSameOrAfter := fun d x => Z.leb (day_of x) d;
  Webhook.isBetween := fun d a b => Z.ltb (day_of a) d && Z.ltb d (day_of b);
  Webhook.dayjs_format := fun d _ => Z_to_string d;
  Webhook.isDateMonthFormat := fun fmt => String.eqb fmt "YYYY-MM"
|}.

(** A template engine for [{{a.b}}] paths: it fails on an unclosed
    [{{] and prints the value a path leads to. *)
Fixpoint resolve (v : value Z) (path : list string) : value Z :=
  match path with
  | [] => v
  | k :: rest => resolve (get_opt v k) rest
  end.

Fixpoint render (ctx : value Z) (inside : option string) (s : string)
  : result string :=
  match s, inside with
  | EmptyString, None => Ok EmptyString
  | EmptyString, Some _ => Err (TemplateError "Parse error")
  | String "{" (String "{" rest), None => render ctx (Some EmptyString) rest
  | String c rest, None =>
      bind (render ctx None rest) (fun out => Ok (String c out))
  | String "}" (String "}" rest), Some path =>
      bind (render ctx None rest) (fun out =>
      Ok (to_string (resolve ctx (split "."%char path)) ++ out)%string)
  | String c rest, Some path =>
      render ctx (Some (path ++ String c EmptyString)%string) rest
  end.

#[export] Instance engine : Webhook.Handlebars Z := {|
  Webhook.compile_and_render := fun template ctx => render ctx None template
|}.

(** Identifiers drawn from a counter. *)
#[export] Instance counter : Webhook.Uuid := {|
  Webhook.uuid_source := nat;
  Webhook.uuidv4 := fun n => (("uuid-" ++ Z_to_string (Z.of_nat n))%string, S n)
|}.

(** A community deployment that logs every call, whose adapters accept
    what they are given, and whose clock read 2.5 seconds. *)
#[export] Instance deployment : Webhook.Deployment Z := {|
  Webhook.NC_AUTOMATION_LOG_LEVEL := Some "ALL";
  Webhook.isEE := false;
  Webhook.isOnPrem := false;
  Webhook.source_type := Some "pg";
  Webhook.send := fun _ _ _ _ _ => Ok ("{}", "{}");
  Webhook.hrtime_elapsed := (2, 500000000)%Z;
  Webhook.carries_children := fun _ => true
|}.

(** ** Example data for the evaluator *)

Definition textColumn : Webhook.Column :=
  Webhook.mkColumn "Name" SingleLineText None.
Definition dateColumn : Webhook.Column :=
  Webhook.mkColumn "Due" Date None.
Definition userColumn : Webhook.Column :=
  Webhook.mkColumn "Owner" User None.

Definition leaf (op : option Webhook.LogicalOp)
    (cmp : option Webhook.ComparisonOp)
    (sub : option Webhook.ComparisonSubOp) (v : value Z)
    (col : Webhook.Column) : @Webhook.Filter Z :=
  Webhook.mkFilter false [] op cmp sub v col.

(** A task without a due date, owned by two users. *)
Definition task : list (string * value Z) :=
  [("Name", JStr "x");
   ("Due", null);
   ("Owner", JArr [JObj [("id", JStr "u1")]; JObj [("id", JStr "u2")]])].

Definition name_is (op : option Webhook.LogicalOp) (name : string)
  : @Webhook.Filter Z :=
  leaf op (Some Webhook.cmp_eq) None (JStr name) textColumn.

(** [eq] true, [or: eq] false, [not: eq] false *)
Definition three_siblings : list (@Webhook.Filter Z) :=
  [name_is None "x"; name_is (Some Webhook.op_or) "y";
   name_is (Some Webhook.op_not) "z"].

(** "Due is today" and "Name is x" *)
Definition due_today_and_name : list (@Webhook.Filter Z) :=
  [leaf None (Some Webhook.cmp_eq) (Some Webhook.today) null dateColumn;
   name_is (Some Webhook.op_and) "x"].

(** "Due is some days ago", with no number of days given *)
Definition days_ago (op : option Webhook.LogicalOp)
    (cmp : Webhook.ComparisonOp) : @Webhook.Filter Z :=
  leaf op (Some cmp) (Some Webhook.daysAgo) undefined dateColumn.

(** "Name is x" or "Due is some days ago" *)
Definition name_or_days_ago : list (@Webhook.Filter Z) :=
  [name_is None "x"; days_ago (Some Webhook.op_or) Webhook.cmp_eq].

Definition owner (cmp : Webhook.ComparisonOp) (v : value Z)
  : @Webhook.Filter Z :=
  leaf None (Some cmp) None v userColumn.

(** ** Example data for the dispatch engine *)

Definition bulk_hook : Webhook.Hook Z :=
  Webhook.mkHook "hk1" (Some "v2") "after" "bulkInsert" false
    (Ok (Some (Webhook.mkNotification "URL" (JObj [])))) [].

Definition tasks : Webhook.Model := Webhook.mkModel "md1" "Tasks".

Definition five_rows : list (value Z) :=
  [JObj task; JObj task; JObj task; JObj task; JObj task].

(** A hook gated on "Name is x". *)
Definition gated_hook : Webhook.Hook Z :=
  Webhook.mkHook "hk2" (Some "v2") "after" "update" true
    (Ok (Some (Webhook.mkNotification "URL" (JObj []))))
    [name_is None "x"].

(** An update that renames a task from y to x. *)
Definition rename_to_x : Webhook.Param Z :=
  Webhook.mkParam gated_hook tasks (JObj [("Name", JStr "y")])
    (JObj [("Name", JStr "x")]) (JStr "ann@example.com") None false false.

(** An update that leaves the name x as it was. *)
Definition still_x : Webhook.Param Z :=
  Webhook.mkParam gated_hook tasks (JObj [("Name", JStr "x")])
    (JObj [("Name", JStr "x")]) (JStr "ann@example.com") None false false.

(** ** Example schema for the lookup builder: customers have many
    orders, an order belongs to a customer, an item belongs to an
    order *)

Definition customers : LookupSelect.Model :=
  LookupSelect.mkModel "md_c" "customers".
Definition orders : LookupSelect.Model :=
  LookupSelect.mkModel "md_o" "orders".
Definition items : LookupSelect.Model :=
  LookupSelect.mkModel "md_i" "items".

Definition customer_name : LookupSelect.Column :=
  LookupSelect.mkColumn "c_name" "name" SingleLineText false customers
    LookupSelect.PlainOptions.
Definition order_title : LookupSelect.Column :=
  LookupSelect.mkColumn "o_title" "title" SingleLineText false orders
    LookupSelect.PlainOptions.

(** orders.customer_id references customers.id *)
Definition order_customer (t : RelationTypes) : LookupSelect.Relation :=
  LookupSelect.mkRelation t
    (LookupSelect.mkKey "customer_id" orders)
    (LookupSelect.mkKey "id" customers) None.

(** items.order_id references orders.id *)
Definition item_order : LookupSelect.Relation :=
  LookupSelect.mkRelation BELONGS_TO
    (LookupSelect.mkKey "order_id" items)
    (LookupSelect.mkKey "id" orders) None.

(** on orders: the customer of an order, and the name of that
    customer *)
Definition order_customer_link : LookupSelect.Column :=
  LookupSelect.mkColumn "o_cust" "customer" LinkToAnotherRecord false orders
    (LookupSelect.LinkOptions (order_customer BELONGS_TO) customer_name).
Definition order_customer_name : LookupSelect.Column :=
  LookupSelect.mkColumn "o_cname" "customer_name" Lookup false orders
    (LookupSelect.LookupOptions order_customer_link customer_name).

(** on items: the order of an item, and the name of the customer of
    that order (two belongs-to hops) *)
Definition item_order_link : LookupSelect.Column :=
  LookupSelect.mkColumn "i_ord" "order" LinkToAnotherRecord false items
    (LookupSelect.LinkOptions item_order order_title).
Definition item_customer_name : LookupSelect.Column :=
  LookupSelect.mkColumn "i_cname" "customer_name" Lookup false items
    (LookupSelect.LookupOptions item_order_link order_customer_name).

(** on customers: the orders of a customer, and their titles (one
    has-many hop) *)
Definition customer_orders_link : LookupSelect.Column :=
  LookupSelect.mkColumn "c_ord" "orders" LinkToAnotherRecord false customers
    (LookupSelect.LinkOptions (order_customer HAS_MANY) order_title).
Definition customer_order_titles : LookupSelect.Column :=
  LookupSelect.mkColumn "c_otitles" "order_titles" Lookup false customers
    (LookupSelect.LookupOptions customer_orders_link order_title).

(** an order and its invoice, one to one (orders.invoice_id references
    invoices.id): the column on orders, with the [meta.bt] marker or
    without it *)
Definition invoices : LookupSelect.Model :=
  LookupSelect.mkModel "md_v" "invoices".
Definition invoice_number : LookupSelect.Column :=
  LookupSelect.mkColumn "v_no" "number" SingleLineText false invoices
    LookupSelect.PlainOptions.
Definition order_invoice : LookupSelect.Relation :=
  LookupSelect.mkRelation ONE_TO_ONE
    (LookupSelect.mkKey "invoice_id" orders)
    (LookupSelect.mkKey "id" invoices) None.
Definition order_invoice_link (bt : bool) : LookupSelect.Column :=
  LookupSelect.mkColumn "o_inv" "invoice" LinkToAnotherRecord bt orders
    (LookupSelect.LinkOptions order_invoice invoice_number).

Definition lk_slt : nat -> string * nat :=
  LookupSelect.getAliasGenerator "__lk_slt_".

Definition postgres : LookupSelect.BaseModel :=
  LookupSelect.mkBase true false false.
Definition mysql : LookupSelect.BaseModel :=
  LookupSelect.mkBase false true false.
Definition sqlite : LookupSelect.BaseModel :=
  LookupSelect.mkBase false false true.
Definition mssql : LookupSelect.BaseModel :=
  LookupSelect.mkBase false false false.

(** ** Further example data *)

(** "not Name is z", "not Name is y" *)
Definition two_nots : list (@Webhook.Filter Z) :=
  [name_is (Some Webhook.op_not) "z"; name_is (Some Webhook.op_not) "y"].

(** A group of "Name is x", "Due is some days ago", "Name is x". *)
Definition group_with_days_ago : @Webhook.Filter Z :=
  Webhook.mkFilter true
    ([name_is None "x"]
     ++ days_ago (Some Webhook.op_and) Webhook.cmp_eq
     :: [name_is (Some Webhook.op_and) "x"])
    (Some Webhook.op_and) None None null textColumn.

(** "Name is one of a, b", with and without the list *)
Definition name_in (v : value Z) : @Webhook.Filter Z :=
  leaf None (Some Webhook.cmp_anyof) None v textColumn.


(** A task whose name is a number. *)
Definition numbered_task : list (string * value Z) :=
  [("Name", JNum 7%Z)].

(** A hook of the first payload version. *)
Definition legacy_hook : Webhook.Hook Z :=
  Webhook.mkHook "hk3" (Some "v1") "after" "insert" false
    (Ok (Some (Webhook.mkNotification "URL" (JObj [])))) [].

(** Five tasks inserted at once, on a hook without condition. *)
Definition five_inserted : Webhook.Param Z :=
  Webhook.mkParam bulk_hook tasks null (JArr five_rows)
    (JStr "ann@example.com") None false false.

(** Two tasks updated at once, named x and y, on the hook gated on
    "Name is x". *)
Definition two_updated : Webhook.Param Z :=
  Webhook.mkParam gated_hook tasks null
    (JArr [JObj [("Name", JStr "x")]; JObj [("Name", JStr "y")]])
    (JStr "ann@example.com") None false false.


(** A hook whose notification cannot be parsed. *)
Definition broken_hook : Webhook.Hook Z :=
  Webhook.mkHook "hk4" (Some "v2") "after" "update" false
    (Err (TypeError "Unexpected token")) [].

Definition broken_update : Webhook.Param Z :=
  Webhook.mkParam broken_hook tasks null (JObj [("Name", JStr "x")])
    (JStr "ann@example.com") None false false.


(** A community deployment that logs nothing and whose adapters
    fail. *)
Definition quiet : Webhook.Deployment Z := {|
  Webhook.NC_AUTOMATION_LOG_LEVEL := None;
  Webhook.isEE := false;
  Webhook.isOnPrem := false;
  Webhook.source_type := Some "pg";
  Webhook.send := fun _ _ _ _ _ => Err (AdapterError "connection refused");
  Webhook.hrtime_elapsed := (0, 3000000)%Z;
  Webhook.carries_children := fun _ => true
|}.

(** A filter tree to flatten: a condition, and a group without an id
    that holds a condition and a group of one condition. *)
Definition cond (label : string) : Webhook.Flatten.Filter string :=
  Webhook.Flatten.mkFilter (Some label) None false None label.
Definition grp (id : option string) (label : string)
    (children : list (Webhook.Flatten.Filter string))
  : Webhook.Flatten.Filter string :=
  Webhook.Flatten.mkFilter id None true (Some children) label.
Definition filter_tree : list (Webhook.Flatten.Filter string) :=
  [cond "f1"; grp None "g1" [cond "f2"; grp (Some "g2") "g2" [cond "f3"]]].

(** A condition and a group whose children have not been loaded. *)
Definition unloaded_tree : list (Webhook.Flatten.Filter string) :=
  [cond "f1"; Webhook.Flatten.mkFilter (Some "g1") None true None "g1"].

(** JSON reduced to the literals [null], [true] and [false], and agents
    that are there for every URL that is a string. *)
#[export] Instance http : Webhook.Http Z := {|
  Webhook.JSON_stringify := fun v => Ok (to_string v);
  Webhook.JSON_parse := fun text _ =>
    match text with
    | "null" => Ok null
    | "true" => Ok (JBool true)
    | "false" => Ok (JBool false)
    | _ => Err (TypeError "Unexpected token")
    end;
  Webhook.Agent := unit;
  Webhook.useAgent := fun url =>
    match url with
    | JStr _ => Ok tt
    | _ => Err (TypeError "Cannot read properties of undefined")
    end
|}.

(** A request with a disabled content type, an accept header given
    twice and a token that takes the name of the first row. *)
Definition notify_api : Webhook.ApiMeta Z :=
  Webhook.mkApiMeta
    (Some [Webhook.mkEntry (Some "content-type") false (Some "text/plain");
           Webhook.mkEntry (Some "Accept") true (Some "text/html");
           Webhook.mkEntry (Some "Accept") true (Some "*/*")])
    (Some [Webhook.mkEntry (Some "name") true (Some "{{data.Name}}");
           Webhook.mkEntry None true (Some "lost")])
    (Some "https://example.com/hook") (JStr "POST") undefined undefined.

(** Students and courses, many to many through enrolments. *)
Definition students : LookupSelect.Model :=
  LookupSelect.mkModel "md_s" "students".
Definition courses : LookupSelect.Model :=
  LookupSelect.mkModel "md_k" "courses".
Definition enrolments : LookupSelect.Model :=
  LookupSelect.mkModel "md_e" "enrolments".

Definition course_title : LookupSelect.Column :=
  LookupSelect.mkColumn "k_title" "title" SingleLineText false courses
    LookupSelect.PlainOptions.
Definition course_syllabus : LookupSelect.Column :=
  LookupSelect.mkColumn "k_syll" "syllabus" Attachment false courses
    LookupSelect.PlainOptions.

Definition student_courses : LookupSelect.Relation :=
  LookupSelect.mkRelation MANY_TO_MANY
    (LookupSelect.mkKey "id" students)
    (LookupSelect.mkKey "id" courses)
    (Some (LookupSelect.mkJunction enrolments
             (LookupSelect.mkKey "student_id" enrolments)
             (LookupSelect.mkKey "course_id" enrolments))).

(** on students: the courses of a student, their titles and their
    syllabuses *)
Definition student_courses_link : LookupSelect.Column :=
  LookupSelect.mkColumn "s_courses" "courses" LinkToAnotherRecord false
    students (LookupSelect.LinkOptions student_courses course_title).
Definition student_course_titles : LookupSelect.Column :=
  LookupSelect.mkColumn "s_ctitles" "course_titles" Lookup false students
    (LookupSelect.LookupOptions student_courses_link course_title).
Definition student_syllabuses : LookupSelect.Column :=
  LookupSelect.mkColumn "s_sylls" "syllabuses" Lookup false students
    (LookupSelect.LookupOptions student_courses_link course_syllabus).

End Example.

(* ================================================================== *)
(** * Properties of the condition evaluator *)
(* ================================================================== *)

Section EvaluatorProperties.
Import Js Sdk Webhook.
Context {number : Type} {RT : Runtime number} {DJ : Dayjs number}.
#[local] Abbreviation value := (value number).
#[local] Abbreviation Filter := (@Filter number).

Implicit Types (f : Filter) (filters : list Filter) (data : value)
               (client : option string).

(** An induction principle that reaches the children of a group. *)
Lemma Filter_tree_ind (P : Filter -> Prop) :
  (forall g children op cmp sub v col,
      Forall P children -> P (mkFilter g children op cmp sub v col)) ->
  forall f, P f.
Proof.
  intros step. fix IH 1. intros [g children op cmp sub v col].
  apply step. revert children. fix IHch 1. intros [|c children].
  - constructor.
  - constructor; [apply IH | apply IHch].
Qed.

Lemma validateCondition_cons client data f filters :
  validateCondition (f :: filters) data client
  = forOf (filterRes client data) (f :: filters) null.
Proof. reflexivity. Qed.

Lemma filterRes_group client data children op cmp sub v col :
  filterRes client data (mkFilter true children op cmp sub v col)
  = match validateCondition children data client with
    | Ok res => Normal res
    | Err e => Throw e
    end.
Proof. reflexivity. Qed.

Lemma filterRes_leaf client data f :
  is_group f = false -> filterRes client data f = leafRes client data f.
Proof. destruct f as [[] ? ? ? ? ? ?]; [discriminate | reflexivity]. Qed.

(** One turn of the loop on a boolean result is one step of the
    fold. *)
Lemma combine_step op (acc : option bool) (b : bool) :
  @combine number RT op (Spec.verdict acc) (JBool b)
  = Spec.verdict (Spec.step acc (op, b)).
Proof.
  destruct op as [[]|], acc as [[]|], b; reflexivity.
Qed.

Lemma forOf_fold client data filters : forall acc,
  Forall (Spec.yields_boolean client data) filters ->
  forOf (filterRes client data) filters (Spec.verdict acc)
  = Ok (Spec.verdict
          (fold_left Spec.step (map (Spec.sibling client data) filters) acc)).
Proof.
  induction filters as [|f filters IH]; intros acc Hall; [reflexivity|].
  inversion Hall as [|? ? [b Hb] Hrest]; subst.
  cbn [forOf map fold_left]. unfold Spec.sibling at 2. rewrite Hb.
  rewrite combine_step. apply IH, Hrest.
Qed.

(** The boolean a sibling contributes. *)
#[local] Abbreviation bres client data f :=
  (snd (Spec.sibling client data f)).

Lemma yields_boolean_bres client data f :
  Spec.yields_boolean client data f ->
  filterRes client data f = Normal (JBool (bres client data f)).
Proof.
  intros [b Hb]. unfold Spec.sibling. cbn [snd]. rewrite Hb. reflexivity.
Qed.

Lemma result_of_boolean client data f :
  Spec.yields_boolean client data f ->
  Spec.result_of client data f = JBool (bres client data f).
Proof.
  intros Hb. unfold Spec.result_of.
  now rewrite (yields_boolean_bres _ _ _ Hb).
Qed.

(** With only [and] operators the loop keeps a running conjunction. *)
Lemma forOf_and client data filters : forall a,
  Forall (fun f => Spec.is_and (logical_op f) = true
                   /\ Spec.yields_boolean client data f) filters ->
  forOf (filterRes client data) filters (JBool a)
  = Ok (JBool (a && forallb (fun f => bres client data f) filters)).
Proof.
  induction filters as [|f filters IH]; intros a Hall.
  - cbn. now rewrite andb_true_r.
  - inversion Hall as [|? ? [Hop Hb] Hrest]; subst.
    cbn [forOf forallb]. rewrite (yields_boolean_bres _ _ _ Hb).
    assert (Hc : combine (logical_op f) (JBool a)
                   (JBool (bres client data f))
                 = JBool (a && bres client data f)).
    { destruct (logical_op f) as [[]|]; try discriminate;
        destruct a; reflexivity. }
    rewrite Hc, IH by assumption. now rewrite andb_assoc.
Qed.

Lemma validateCondition_and client data filters :
  Forall (fun f => Spec.is_and (logical_op f) = true
                   /\ Spec.yields_boolean client data f) filters ->
  validateCondition filters data client
  = Ok (JBool (forallb (fun f => bres client data f) filters)).
Proof.
  destruct filters as [|f filters]; intros Hall; [reflexivity|].
  rewrite validateCondition_cons.
  inversion Hall as [|? ? [Hop Hb] Hrest]; subst.
  cbn [forOf forallb]. rewrite (yields_boolean_bres _ _ _ Hb).
  assert (Hc : combine (logical_op f) null (JBool (bres client data f))
               = JBool (bres client data f)).
  { destruct (logical_op f) as [[]|]; try discriminate; reflexivity. }
  rewrite Hc. now apply forOf_and.
Qed.

Lemma forallb_flat_map {A B} (p : B -> bool) (g : A -> list B) l :
  forallb p (flat_map g l) = forallb (fun a => forallb p (g a)) l.
Proof.
  induction l as [|a l IH]; [reflexivity|].
  cbn. now rewrite forallb_app, IH.
Qed.

Lemma and_only_siblings client data filters :
  Forall (Spec.conjunction_of_leaves client data) filters ->
  forallb Spec.and_only filters = true ->
  Forall (Spec.yields_boolean client data) (flat_map Spec.leaves filters) ->
  Forall (fun f => Spec.is_and (logical_op f) = true
                   /\ Spec.yields_boolean client data f) filters
  /\ forallb (fun f => bres client data f) filters
     = forallb (fun l => bres client data l) (flat_map Spec.leaves filters).
Proof.
  induction filters as [|c filters IHc]; intros IH Hch Hleaves.
  - split; [constructor | reflexivity].
  - cbn [forallb flat_map] in *. apply andb_prop in Hch as [Hc Hch].
    apply Forall_app in Hleaves as [Hlc Hlch].
    inversion IH as [|? ? IHhead IHtail]; subst.
    specialize (IHhead Hc Hlc).
    destruct (IHc IHtail Hch Hlch) as [Hforall Heq].
    split.
    + constructor; [|exact Hforall]. split.
      * destruct c as [? ? o ? ? ? ?]. cbn [Spec.and_only] in Hc.
        now apply andb_prop in Hc as [Ho _].
      * eexists. exact IHhead.
    + rewrite forallb_app, <- Heq. f_equal.
      unfold Spec.sibling. cbn [snd]. now rewrite IHhead.
Qed.

(** An [and]-only tree with boolean leaves evaluates to the conjunction
    of its leaves. *)
Lemma filterRes_and_only client data :
  forall f, Spec.conjunction_of_leaves client data f.
Proof.
  induction f as [g children op cmp sub v col IH] using Filter_tree_ind.
  intros Hand Hleaves. destruct g.
  - cbn [Spec.and_only] in Hand. apply andb_prop in Hand as [_ Hch].
    cbn [Spec.leaves] in *. rewrite filterRes_group.
    destruct (and_only_siblings _ _ _ IH Hch Hleaves) as [Hall Heq].
    rewrite (validateCondition_and _ _ _ Hall), Heq. reflexivity.
  - cbn [Spec.leaves] in *. inversion Hleaves as [|? ? Hb _]; subst.
    rewrite (yields_boolean_bres _ _ _ Hb). cbn [forallb].
    now rewrite andb_true_r.
Qed.

Lemma conjunction_booleans client data (ls : list Filter) :
  Forall (Spec.yields_boolean client data) ls ->
  Spec.conjunction (map (Spec.result_of client data) ls)
  = JBool (forallb (fun l => bres client data l) ls).
Proof.
  unfold Spec.conjunction.
  enough (H : forall a,
             Forall (Spec.yields_boolean client data) ls ->
             fold_left js_and (map (Spec.result_of client data) ls) (JBool a)
             = JBool (a && forallb (fun l => bres client data l) ls))
    by (intros Hall; now rewrite H).
  induction ls as [|l ls IH]; intros a Hall.
  - cbn. now rewrite andb_true_r.
  - inversion Hall as [|? ? Hb Hrest]; subst.
    cbn [map fold_left forallb]. rewrite (result_of_boolean _ _ _ Hb).
    replace (js_and (JBool a) (JBool (bres client data l)))
      with (@JBool number (a && bres client data l))
      by (destruct a; reflexivity).
    rewrite IH by assumption. now rewrite andb_assoc.
Qed.

(** C10: an empty filter sequence evaluates to [true], both at the top
    level and as the children of a nested group, where the fold alone
    would leave its null accumulator. *)
Theorem validateCondition_empty client data :
  validateCondition [] data client = Ok (JBool true)
  /\ (forall op cmp sub v col,
        filterRes client data (mkFilter true [] op cmp sub v col)
        = Normal (JBool true))
  /\ forOf (filterRes client data) [] null = Ok null
  /\ @Spec.verdict number (Spec.fold_siblings []) = null.
Proof. repeat split. Qed.

(** C1, amended: on a non-empty sequence whose siblings each yield a
    boolean (a leaf that computes true or false, a group whose own
    evaluation returns true or false), [validateCondition] returns the
    left-to-right fold from the null accumulator, each result combined
    by its own filter's operator; a tree with only [and] operators and
    boolean leaves evaluates to the conjunction of all its leaf
    results; three siblings with results true, false, false under the
    operators and, or, not fold to true. *)
Theorem validateCondition_left_fold :
  (forall client data filters,
      filters <> [] ->
      Forall (Spec.yields_boolean client data) filters ->
      validateCondition filters data client
      = Ok (Spec.verdict
              (Spec.fold_siblings (map (Spec.sibling client data) filters))))
  /\ (forall client data filters,
        forallb Spec.and_only filters = true ->
        Forall (Spec.yields_boolean client data)
          (flat_map Spec.leaves filters) ->
        validateCondition filters data client
        = Ok (Spec.conjunction
                (map (Spec.result_of client data)
                   (flat_map Spec.leaves filters))))
  /\ (forall client data f1 f2 f3,
        Spec.is_and (logical_op f1) = true ->
        logical_op f2 = Some op_or ->
        logical_op f3 = Some op_not ->
        filterRes client data f1 = Normal (JBool true) ->
        filterRes client data f2 = Normal (JBool false) ->
        filterRes client data f3 = Normal (JBool false) ->
        validateCondition [f1; f2; f3] data client = Ok (JBool true)).
Proof.
  split; [|split].
  - intros client data [|f filters] Hne Hall; [contradiction|].
    rewrite validateCondition_cons.
    exact (forOf_fold client data (f :: filters) None Hall).
  - intros client data filters Hand Hleaves.
    assert (IH : Forall (Spec.conjunction_of_leaves client data) filters)
      by (apply Forall_forall; intros f _; apply filterRes_and_only).
    destruct (and_only_siblings _ _ _ IH Hand Hleaves) as [Hall Heq].
    rewrite (validateCondition_and _ _ _ Hall), Heq.
    now rewrite conjunction_booleans.
  - intros client data f1 f2 f3 H1 H2 H3 R1 R2 R3.
    rewrite validateCondition_cons. cbn [forOf].
    rewrite R1, R2, R3, H2, H3.
    destruct (logical_op f1) as [[]|]; try discriminate; reflexivity.
Qed.

(** ** Leaving the loop early *)

Lemma lift_bool_no_return (r : result bool) (v : value) :
  lift_bool r <> Return v.
Proof. destruct r; discriminate. Qed.

Lemma otherLeaf_no_return f d val v : otherLeaf f d val <> Return v.
Proof.
  unfold otherLeaf.
  destruct (comparison_op f) as [[]|];
    first [discriminate | apply lift_bool_no_return].
Qed.

Lemma userLeaf_no_return f d v : userLeaf f d <> Return v.
Proof.
  unfold userLeaf. destruct (userIds d); [|discriminate].
  destruct (filterValues (filter_value f)); discriminate.
Qed.

Lemma resolveSubOp_return now sub fv v :
  resolveSubOp now sub fv = Return v -> v = undefined.
Proof.
  unfold resolveSubOp.
  destruct sub as [[]|]; try discriminate;
    destruct (truthy fv); cbn; congruence.
Qed.

Lemma dateLeaf_return client f d v :
  dateLeaf client f d = Return v -> v = undefined.
Proof.
  unfold dateLeaf.
  destruct (resolveSubOp _ (comparison_sub_op f) (filter_value f)) eqn:E.
  - destruct (truthy d); discriminate.
  - intros H. injection H as <-. eapply resolveSubOp_return, E.
  - discriminate.
Qed.

(** The only value the loop is left with early is [undefined]. *)
Lemma filterRes_return client data f v :
  filterRes client data f = Return v -> v = undefined.
Proof.
  destruct f as [[] children op cmp sub fv col].
  - rewrite filterRes_group.
    destruct (validateCondition children data client); discriminate.
  - cbn [filterRes]. unfold leafRes.
    destruct (get data _); [|discriminate].
    destruct (_ && _).
    + apply dateLeaf_return.
    + destruct (is_user_family _).
      * intros H. now apply userLeaf_no_return in H.
      * intros H. now apply otherLeaf_no_return in H.
Qed.

Lemma forOf_return client data f before after : forall acc,
  filterRes client data f = Return undefined ->
  Forall (fun g => forall e, filterRes client data g <> Throw e) before ->
  forOf (filterRes client data) (before ++ f :: after) acc = Ok undefined.
Proof.
  intros acc Hf. revert acc.
  induction before as [|g before IH]; intros acc Hno.
  - cbn. now rewrite Hf.
  - inversion Hno as [|? ? Hg Hrest]; subst. cbn.
    destruct (filterRes client data g) as [res|r|e] eqn:E.
    + now apply IH.
    + now rewrite (filterRes_return _ _ _ _ E).
    + now destruct (Hg e).
Qed.

(** C9, amended: on a record, a date-family leaf whose comparison
    operator is not one of empty, blank, notempty, notblank, with
    sub-operator [daysAgo] and no filter value, makes
    [validateCondition] return [undefined] (which is not [false])
    rather than throw, wherever it stands among siblings that do not
    throw before it. *)
Theorem validateCondition_daysAgo_without_value
    client (row : list (string * value)) f before after :
  is_group f = false ->
  is_date_family (uidt (column f)) = true ->
  is_emptiness_op (comparison_op f) = false ->
  comparison_sub_op f = Some daysAgo ->
  truthy (filter_value f) = false ->
  Forall (fun g => forall e, filterRes client (JObj row) g <> Throw e)
    before ->
  validateCondition (before ++ f :: after) (JObj row) client = Ok undefined
  /\ @undefined number <> JBool false.
Proof.
  intros Hleaf Hdate Hop Hsub Hval Hbefore. split; [|discriminate].
  assert (Hf : filterRes client (JObj row) f = Return undefined).
  { rewrite filterRes_leaf by assumption. unfold leafRes. cbn [get].
    rewrite Hdate, Hop. cbn [andb negb]. unfold dateLeaf.
    rewrite Hsub. cbn [resolveSubOp]. now rewrite Hval. }
  unfold validateCondition, validateWith.
  destruct (before ++ f :: after) eqn:E.
  - now destruct before.
  - rewrite <- E. now apply forOf_return.
Qed.

(** ** User-reference columns *)

Lemma map_id_get_opt (users : list value) :
  Forall (fun user => is_nullish user = false) users ->
  map_id users = Ok (map (fun user => get_opt user "id") users).
Proof.
  induction users as [|user users IH]; intros Hall; [reflexivity|].
  inversion Hall as [|? ? Hu Hrest]; subst.
  cbn [map_id map]. rewrite (IH Hrest).
  unfold get_opt. destruct user; try discriminate; reflexivity.
Qed.

Lemma userIds_user_ids (stored : value) :
  Spec.no_missing_user stored -> userIds stored = Ok (Spec.user_ids stored).
Proof.
  destruct stored; cbn [Spec.no_missing_user userIds Spec.user_ids];
    intros H; try (now destruct (truthy _)).
  now apply map_id_get_opt.
Qed.

Lemma filterValues_filter_ids (v : value) wanted :
  Spec.filter_ids v = Some wanted -> filterValues v = Ok wanted.
Proof.
  destruct v; cbn; intros H; try discriminate; now injection H as <-.
Qed.

Lemma some_id_wanted (ids : list value) (wanted : list string) :
  existsb (includes_value wanted) ids = true
  <-> exists s, In (JStr s) ids /\ In s wanted.
Proof.
  rewrite existsb_exists. split.
  - intros [x [Hin Hx]]. destruct x; try discriminate. cbn in Hx.
    apply existsb_exists in Hx as [t [Ht Heq]].
    apply String.eqb_eq in Heq; subst. now exists t.
  - intros [s [Hin Hs]]. exists (JStr s). split; [assumption|]. cbn.
    apply existsb_exists. exists s. split; [assumption|].
    apply String.eqb_refl.
Qed.

Lemma includes_string_In (ids : list value) (s : string) :
  includes_string ids s = true <-> In (JStr s) ids.
Proof.
  unfold includes_string. rewrite existsb_exists. split.
  - intros [x [Hin Hx]]. destruct x; try discriminate.
    apply String.eqb_eq in Hx; now subst.
  - intros Hin. exists (JStr s). split; [assumption|]. apply String.eqb_refl.
Qed.

Lemma every_wanted_id (ids : list value) (wanted : list string) :
  forallb (includes_string ids) wanted = true
  <-> forall s, In s wanted -> In (JStr s) ids.
Proof.
  rewrite forallb_forall. split; intros H s Hs;
    apply includes_string_In, H, Hs.
Qed.

Lemma userLeaf_user_test f (stored : value) wanted :
  Spec.filter_ids (filter_value f) = Some wanted ->
  Spec.no_missing_user stored ->
  exists res,
    userLeaf f stored = Normal (JBool res)
    /\ Spec.user_test (comparison_op f) (Spec.user_ids stored) wanted res.
Proof.
  intros Hwanted Hstored. unfold userLeaf.
  rewrite (userIds_user_ids _ Hstored).
  rewrite (filterValues_filter_ids _ _ Hwanted).
  set (ids := Spec.user_ids stored).
  destruct (comparison_op f) as [[]|]; cbn [Spec.user_test];
    eexists; (split; [reflexivity|]); try reflexivity.
  - destruct ids; cbn; split; congruence.
  - destruct ids; cbn; split; congruence.
  - destruct ids; cbn; split; congruence.
  - destruct ids; cbn; split; congruence.
  - apply some_id_wanted.
  - rewrite negb_true_iff, <- not_true_iff_false.
    now rewrite some_id_wanted.
  - apply every_wanted_id.
  - rewrite negb_true_iff, <- not_true_iff_false.
    now rewrite every_wanted_id.
Qed.

(** C6, amended: for a leaf filter on a User, CreatedBy or
    LastModifiedBy column whose filter value is a string or absent and
    whose stored value has no null or undefined array entry, the result
    is a boolean: [anyof] is true iff some stored id is in the
    comma-separated, trimmed filter list, [nanyof] is its negation,
    [allof] is true iff every filter id is among the stored ids,
    [nallof] is its negation, [empty]/[blank] test for no id,
    [notempty]/[notblank] for at least one, and any other comparison
    operator gives false; nothing is raised. *)
Theorem userLeaf_semantics
    client (row : list (string * value)) f wanted :
  is_group f = false ->
  is_user_family (uidt (column f)) = true ->
  Spec.filter_ids (filter_value f) = Some wanted ->
  Spec.no_missing_user (Spec.field row (title (column f))) ->
  exists res,
    filterRes client (JObj row) f = Normal (JBool res)
    /\ Spec.user_test (comparison_op f)
         (Spec.user_ids (Spec.field row (title (column f)))) wanted res
    /\ (logical_op f <> Some op_not ->
        validateCondition [f] (JObj row) client = Ok (JBool res)).
Proof.
  intros Hleaf Huser Hwanted Hstored.
  destruct (userLeaf_user_test f _ _ Hwanted Hstored) as [res [Hres Htest]].
  assert (Hf : filterRes client (JObj row) f = Normal (JBool res)).
  { rewrite filterRes_leaf by assumption. unfold leafRes. cbn [get].
    fold (Spec.field row (title (column f))).
    assert (Hnd : is_date_family (uidt (column f)) = false)
      by (destruct (uidt (column f)); try discriminate; reflexivity).
    rewrite Hnd, Huser. cbn [andb]. exact Hres. }
  exists res. repeat split; try assumption; try apply Htest.
  intros Hop. rewrite validateCondition_cons. cbn [forOf]. rewrite Hf.
  destruct (logical_op f) as [[]|]; try contradiction;
    destruct res; reflexivity.
Qed.

End EvaluatorProperties.

(* ================================================================== *)
(** * The evaluator on examples *)
(* ================================================================== *)

Section EvaluatorExamples.
Import Js Sdk Webhook Example.

(** The three-sibling example of C1 folds to true. *)
Lemma validateCondition_left_fold_witness :
  three_siblings <> []
  /\ Forall (Spec.yields_boolean None (JObj task)) three_siblings
  /\ validateCondition three_siblings (JObj task) None = Ok (JBool true).
Proof.
  assert (H1 : three_siblings <> []) by discriminate.
  assert (H2 : Forall (Spec.yields_boolean None (JObj task)) three_siblings)
    by (repeat constructor; eexists; reflexivity).
  split; [exact H1 | split; [exact H2 |]].
  exact (proj1 validateCondition_left_fold None (JObj task)
           three_siblings H1 H2).
Defined.

(** C1 as stated fails.  With only [and] operators, "Due is today and
    Name is x" holds of a task without a due date although its first
    leaf has no true result: the result left undefined makes the next
    [and] start over from true.  And a leaf that leaves the loop
    discards the verdict reached before it: "Name is x or Due is some
    days ago" is undefined although the fold is true whatever the
    second result is. *)
Lemma validateCondition_not_conjunction :
  (forallb Spec.and_only due_today_and_name = true
   /\ map (Spec.result_of None (JObj task))
        (flat_map Spec.leaves due_today_and_name)
      = [undefined; JBool true]
   /\ validateCondition due_today_and_name (JObj task) None
      = Ok (JBool true)
   /\ validateCondition due_today_and_name (JObj task) None
      <> Ok (Spec.conjunction
               (map (Spec.result_of None (JObj task))
                  (flat_map Spec.leaves due_today_and_name))))
  /\ (validateCondition name_or_days_ago (JObj task) None = Ok undefined
      /\ forall b,
          validateCondition name_or_days_ago (JObj task) None
          <> Ok (Spec.verdict
                   (Spec.fold_siblings
                      [(None, true); (Some op_or, b)]))).
Proof.
  repeat split; try reflexivity; discriminate.
Qed.

(** The leaf of C9 after a sibling that does not throw. *)
Lemma validateCondition_daysAgo_without_value_witness :
  is_group (days_ago None cmp_eq) = false
  /\ is_date_family (uidt (column (days_ago None cmp_eq))) = true
  /\ is_emptiness_op (comparison_op (days_ago None cmp_eq)) = false
  /\ comparison_sub_op (days_ago None cmp_eq) = Some daysAgo
  /\ truthy (filter_value (days_ago None cmp_eq)) = false
  /\ validateCondition
       ([name_is None "x"] ++ days_ago None cmp_eq :: [name_is None "y"])
       (JObj task) None
     = Ok undefined
  /\ @undefined Z <> JBool false.
Proof.
  repeat (split; [reflexivity|]).
  apply (validateCondition_daysAgo_without_value None task
           (days_ago None cmp_eq) [name_is None "x"] [name_is None "y"]);
    try reflexivity.
  constructor; [intros e; discriminate | constructor].
Defined.

(** C9 as stated fails: under the comparison operator [blank] the same
    leaf is not a date comparison and evaluates to a boolean. *)
Lemma daysAgo_blank_is_boolean :
  is_group (days_ago None cmp_blank) = false
  /\ is_date_family (uidt (column (days_ago None cmp_blank))) = true
  /\ comparison_sub_op (days_ago None cmp_blank) = Some daysAgo
  /\ filter_value (days_ago None cmp_blank) = undefined
  /\ validateCondition [days_ago None cmp_blank] (JObj task) None
     = Ok (JBool true)
  /\ validateCondition [days_ago None cmp_blank] (JObj task) None
     <> Ok undefined.
Proof. repeat split; try reflexivity; discriminate. Qed.

(** The example of C6: stored ids u1 and u2 against "u2, u3". *)
Lemma userLeaf_semantics_witness :
  (is_group (owner cmp_anyof (JStr "u2, u3")) = false
   /\ is_user_family (uidt (column (owner cmp_anyof (JStr "u2, u3")))) = true
   /\ Spec.filter_ids (JStr "u2, u3" : value Z) = Some ["u2"; "u3"]
   /\ Spec.user_ids (Spec.field task "Owner") = [JStr "u1"; JStr "u2"])
  /\ validateCondition [owner cmp_anyof (JStr "u2, u3")] (JObj task) None
     = Ok (JBool true)
  /\ validateCondition [owner cmp_allof (JStr "u2, u3")] (JObj task) None
     = Ok (JBool false).
Proof.
  split; [repeat split|].
  assert (Hstored : Spec.no_missing_user (Spec.field task "Owner"))
    by (repeat constructor).
  split.
  - destruct (userLeaf_semantics None task (owner cmp_anyof (JStr "u2, u3"))
                ["u2"; "u3"] eq_refl eq_refl eq_refl Hstored)
      as [res [_ [Htest Hres]]].
    rewrite Hres by discriminate. f_equal. f_equal.
    apply Htest. exists "u2". split; cbn; auto.
  - destruct (userLeaf_semantics None task (owner cmp_allof (JStr "u2, u3"))
                ["u2"; "u3"] eq_refl eq_refl eq_refl Hstored)
      as [res [_ [Htest Hres]]].
    rewrite Hres by discriminate. f_equal. f_equal.
    destruct res; [|reflexivity]. exfalso.
    assert (Hin : In (JStr "u3") (Spec.user_ids (Spec.field task "Owner")))
      by (apply Htest; [reflexivity | cbn; auto]).
    cbn in Hin. destruct Hin as [H|[H|[]]]; discriminate.
Defined.

(** C6 as stated fails: a filter value that is a number cannot be split,
    and the leaf raises a TypeError instead of evaluating to false. *)
Lemma userLeaf_number_raises :
  is_group (owner cmp_eq (JNum 5%Z)) = false
  /\ is_user_family (uidt (column (owner cmp_eq (JNum 5%Z)))) = true
  /\ validateCondition [owner cmp_eq (JNum 5%Z)] (JObj task) None
     = Err (TypeError "split is not a function").
Proof. repeat split. Qed.

End EvaluatorExamples.

(* ================================================================== *)
(** * Properties of templating, envelopes and execution time *)
(* ================================================================== *)

Section TemplateProperties.
Import Js Webhook.
Context {number : Type} {HB : Handlebars number}.

(** C7: [parseBody] always returns; when the engine fails to compile or
    render, it returns the template unmodified; when the engine renders
    a non-empty template, it returns the rendering, so a template the
    engine renders as "Hello Ann" comes back as "Hello Ann". *)
Theorem parseBody_never_throws (template : string) (data : value number) :
  (exists s, parseBody template data = Ok s)
  /\ (forall e,
        compile_and_render template (JObj [("data", data); ("event", data)])
        = Err e ->
        parseBody template data = Ok template)
  /\ (forall rendered,
        template <> "" ->
        compile_and_render template (JObj [("data", data); ("event", data)])
        = Ok rendered ->
        parseBody template data = Ok rendered).
Proof.
  unfold parseBody. destruct (template =? "") eqn:E.
  - split; [now eexists | split; [reflexivity |]].
    intros r Hne. now apply String.eqb_eq in E.
  - destruct (compile_and_render _ _) as [r|e]; cbn.
    + split; [now eexists | split; [discriminate | congruence]].
    + split; [now eexists | split; [reflexivity | discriminate]].
Qed.

End TemplateProperties.

Section EnvelopeProperties.
Import Js Webhook.
Context {number : Type} {RT : Runtime number} {U : Uuid}.

(** C5: for a v2 hook with operation bulkInsert and an array of N new
    records, the envelope has type "records.<event>.bulkInsert", the
    identifier drawn from the uuid source by this call (which moves
    on), and a data object with table_id, table_name and rows_inserted
    equal to N, and without a rows key. *)
Theorem constructWebHookData_bulkInsert
    (hook : Hook number) (model : Model) (prevData : value number)
    (rows : list (value number)) (st : uuid_source) :
  version hook = Some "v2" ->
  operation hook = "bulkInsert" ->
  exists data,
    constructWebHookData hook model prevData (JArr rows) st
    = (JObj [("type", JStr ("records." ++ event hook ++ ".bulkInsert"));
             ("id", JStr (fst (uuidv4 st)));
             ("data", JObj data)],
       snd (uuidv4 st))
    /\ lookup "table_id" data = Some (JStr (id model))
    /\ lookup "table_name" data = Some (JStr (model_title model))
    /\ lookup "rows_inserted" data
       = Some (JNum (num_of_Z (Z.of_nat (length rows))))
    /\ lookup "rows" data = None.
Proof.
  intros Hv Hop. unfold constructWebHookData. rewrite Hv, Hop.
  destruct (uuidv4 st) as [uuid st'].
  eexists. split; [reflexivity|].
  destruct (truthy prevData); repeat split.
Qed.

End EnvelopeProperties.

Section TemplateExamples.
Import Js Webhook Example.

(** The examples of C7 under the example engine. *)
Lemma parseBody_never_throws_witness :
  "Hello {{data.name}}" <> ""
  /\ compile_and_render "Hello {{data.name}}"
       (JObj [("data", JObj [("name", JStr "Ann")]);
              ("event", JObj [("name", JStr "Ann")])])
     = Ok "Hello Ann"
  /\ parseBody "Hello {{data.name}}" (JObj [("name", JStr "Ann")])
     = Ok "Hello Ann"
  /\ parseBody "Hello {{data.name" (JObj [("name", JStr "Ann")])
     = Ok "Hello {{data.name".
Proof.
  assert (H1 : "Hello {{data.name}}" <> "") by discriminate.
  split; [exact H1 | split; [reflexivity | split]].
  - exact (proj2 (proj2 (parseBody_never_throws "Hello {{data.name}}"
                           (JObj [("name", JStr "Ann")])))
             "Hello Ann" H1 eq_refl).
  - exact (proj1 (proj2 (parseBody_never_throws "Hello {{data.name"
                           (JObj [("name", JStr "Ann")])))
             (TemplateError "Parse error") eq_refl).
Defined.

(** The example of C5: five rows on a v2 hook. *)
Lemma constructWebHookData_bulkInsert_witness :
  version bulk_hook = Some "v2"
  /\ operation bulk_hook = "bulkInsert"
  /\ exists data,
       constructWebHookData bulk_hook tasks null (JArr five_rows) 7%nat
       = (JObj [("type", JStr "records.after.bulkInsert");
                ("id", JStr "uuid-7");
                ("data", JObj data)],
          8%nat)
       /\ lookup "table_id" data = Some (JStr "md1")
       /\ lookup "table_name" data = Some (JStr "Tasks")
       /\ lookup "rows_inserted" data = Some (JNum 5%Z)
       /\ lookup "rows" data = None.
Proof.
  split; [reflexivity | split; [reflexivity |]].
  exact (@constructWebHookData_bulkInsert Z runtime counter bulk_hook
           tasks null five_rows 7%nat eq_refl eq_refl).
Defined.

End TemplateExamples.

(* ================================================================== *)
(** * Properties of the dispatch engine *)
(* ================================================================== *)

Section DispatchProperties.
Import Js Webhook.
Context {number : Type} {RT : Runtime number} {DJ : Dayjs number}
        {D : Deployment number}.
Implicit Types (p : Param number).

Lemma dispatched_tryBlock p :
  dispatched (invokeWebhook p) = try_dispatched (tryBlock p).
Proof.
  unfold invokeWebhook. destruct (try_error (tryBlock p)); [|reflexivity].
  now destruct (catchBlock p e).
Qed.

(** The adapter is called exactly when the notification is there and
    the condition block lets the record through. *)
Lemma dispatched_iff_gate p d :
  isArray (newData p) = false ->
  dispatched (invokeWebhook p) = Some d
  <-> (exists n, notification (hook p) = Ok (Some n))
      /\ conditionGate p = Ok (Proceed d).
Proof.
  intros Hsingle. rewrite dispatched_tryBlock. unfold tryBlock.
  rewrite Hsingle. cbn [andb].
  destruct (notification (hook p)) as [[n|]|e]; cbn.
  - destruct (conditionGate p) as [[|d']|e]; cbn.
    + split; [discriminate | intros [_ H]; discriminate].
    + destruct (send n (hook p) (model p) (prevData p) d') as [[? ?]|?];
        cbn; (split; [intros H; injection H as <-; split; eauto
                     | intros [_ H]; now injection H as <-]).
    + split; [discriminate | intros [_ H]; discriminate].
  - destruct (conditionGate p) as [[|d']|e]; cbn;
      (split; [discriminate | intros [[n Hn] _]; discriminate]).
  - split; [discriminate | intros [[n Hn] _]; discriminate].
Qed.

(** The condition block on a single record (lines 685-707). *)
Lemma conditionGate_single_eq p :
  condition (hook p) = true ->
  testHook p = false ->
  isArray (newData p) = false ->
  conditionGate p
  = bind
      (if truthy (prevData p)
          && negb (Nat.eqb (length (Spec.filters_of p)) 0)
       then bind (validateCondition (Spec.filters_of p) (prevData p)
                    source_type)
              (fun ok => Ok (truthy ok))
       else Ok false)
      (fun notified =>
         if notified then Ok Skip
         else bind (validateCondition (Spec.filters_of p) (newData p)
                      source_type)
                (fun ok => if negb (truthy ok) then Ok Skip
                           else Ok (Proceed (newData p)))).
Proof.
  intros Hc Ht Hsingle. unfold conditionGate. rewrite Hc, Ht. cbn [andb negb].
  destruct (newData p); try discriminate; reflexivity.
Qed.

Lemma suppression_check p :
  (if truthy (prevData p)
      && negb (Nat.eqb (length (Spec.filters_of p)) 0)
   then bind (validateCondition (Spec.filters_of p) (prevData p)
                source_type)
          (fun ok => Ok (truthy ok))
   else Ok false) = Ok true
  <-> Spec.already_notified p.
Proof.
  unfold Spec.already_notified, Spec.evaluates_true.
  destruct (truthy (prevData p)); cbn [andb].
  - destruct (Spec.filters_of p) as [|f fs] eqn:Ef; cbn [length Nat.eqb negb].
    + split; [discriminate | intros [_ [H _]]; contradiction].
    + destruct (validateCondition (f :: fs) (prevData p) source_type)
        as [v|e]; cbn [bind].
      * split.
        -- intros H. injection H as H. repeat split; [discriminate|].
           now exists v.
        -- intros [_ [_ [w [Hw Htw]]]]. injection Hw as <-. now rewrite Htw.
      * split; [discriminate | intros [_ [_ [w [Hw _]]]]; discriminate].
  - split; [discriminate | intros [H _]; discriminate].
Qed.

Lemma conditionGate_proceeds p d :
  condition (hook p) = true ->
  testHook p = false ->
  isArray (newData p) = false ->
  conditionGate p = Ok (Proceed d) ->
  d = newData p
  /\ ~ Spec.already_notified p
  /\ Spec.evaluates_true p (newData p).
Proof.
  intros Hc Ht Hsingle. rewrite (conditionGate_single_eq p Hc Ht Hsingle).
  rewrite <- suppression_check.
  match goal with
  | |- bind ?c _ = _ -> _ => destruct c as [[|]|e]
  end; cbn [bind]; try discriminate.
  unfold Spec.evaluates_true.
  destruct (validateCondition (Spec.filters_of p) (newData p) source_type)
    as [w|e]; cbn [bind]; [|discriminate].
  destruct (truthy w) eqn:Etw; cbn [negb]; [|discriminate].
  intros H. injection H as <-.
  repeat split; [discriminate | now exists w].
Qed.

Lemma conditionGate_skips_notified p :
  condition (hook p) = true ->
  testHook p = false ->
  isArray (newData p) = false ->
  Spec.already_notified p ->
  conditionGate p = Ok Skip.
Proof.
  intros Hc Ht Hsingle Hn. rewrite (conditionGate_single_eq p Hc Ht Hsingle).
  apply suppression_check in Hn. now rewrite Hn.
Qed.

(** With the adapter's notification in place and no error while the
    previous record is checked, a record that passes is handed over. *)
Lemma conditionGate_lets_through p :
  condition (hook p) = true ->
  testHook p = false ->
  isArray (newData p) = false ->
  (forall e, validateCondition (Spec.filters_of p) (prevData p) source_type
             <> Err e) ->
  ~ Spec.already_notified p ->
  Spec.evaluates_true p (newData p) ->
  conditionGate p = Ok (Proceed (newData p)).
Proof.
  intros Hc Ht Hsingle Hok Hnot [w [Hw Htw]].
  rewrite (conditionGate_single_eq p Hc Ht Hsingle).
  rewrite <- suppression_check in Hnot.
  destruct (truthy (prevData p)
            && negb (Nat.eqb (length (Spec.filters_of p)) 0)).
  - destruct (validateCondition (Spec.filters_of p) (prevData p) source_type)
      as [v|e]; [|now destruct (Hok e)].
    cbn [bind] in *. destruct (truthy v); [now destruct Hnot|].
    rewrite Hw. cbn [bind]. now rewrite Htw.
  - cbn [bind]. rewrite Hw. cbn [bind]. now rewrite Htw.
Qed.

(** C4: on a single record, with [hook.condition] set and outside a test
    invocation, the adapter is not called when the previous record is
    present, the filter list is non-empty and the filters evaluate true
    against the previous record (and the function then simply returns);
    otherwise it is not called when the filters do not evaluate true
    against the new record; it is called only with the new record,
    when the previous record did not already match and the new one
    matches, and then it is called. *)
Theorem invokeWebhook_condition_gate p :
  condition (hook p) = true ->
  testHook p = false ->
  isArray (newData p) = false ->
  (Spec.already_notified p -> dispatched (invokeWebhook p) = None)
  /\ (Spec.already_notified p ->
      forall n, notification (hook p) = Ok n ->
      invokeWebhook p = mkInvocation None None None)
  /\ (~ Spec.already_notified p ->
      ~ Spec.evaluates_true p (newData p) ->
      dispatched (invokeWebhook p) = None)
  /\ (forall d,
        dispatched (invokeWebhook p) = Some d ->
        d = newData p
        /\ ~ Spec.already_notified p
        /\ Spec.evaluates_true p (newData p))
  /\ (forall n,
        notification (hook p) = Ok (Some n) ->
        (forall e,
            validateCondition (Spec.filters_of p) (prevData p) source_type
            <> Err e) ->
        ~ Spec.already_notified p ->
        Spec.evaluates_true p (newData p) ->
        dispatched (invokeWebhook p) = Some (newData p)).
Proof.
  intros Hc Ht Hsingle.
  assert (Honly : forall d,
             dispatched (invokeWebhook p) = Some d ->
             d = newData p
             /\ ~ Spec.already_notified p
             /\ Spec.evaluates_true p (newData p)).
  { intros d Hd. apply (dispatched_iff_gate p d Hsingle) in Hd as [_ Hg].
    now apply conditionGate_proceeds. }
  split; [|split; [|split; [|split]]].
  - intros Hn. destruct (dispatched (invokeWebhook p)) as [d|] eqn:Ed;
      [|reflexivity].
    now destruct (Honly d eq_refl) as [_ [Hno _]].
  - intros Hn n Hnotif. unfold invokeWebhook, tryBlock.
    rewrite Hnotif, Hsingle, (conditionGate_skips_notified p Hc Ht Hsingle Hn).
    reflexivity.
  - intros Hno Hnew. destruct (dispatched (invokeWebhook p)) as [d|] eqn:Ed;
      [|reflexivity].
    now destruct (Honly d eq_refl) as [_ [_ Hyes]].
  - exact Honly.
  - intros n Hnotif Hok Hno Hnew.
    apply (dispatched_iff_gate p (newData p) Hsingle). split; [now exists n|].
    now apply conditionGate_lets_through.
Qed.

(** Every record handed to [HookLog.insert] carries the execution
    time that [parseHrtimeToMilliSeconds] computes. *)
Lemma inserted_execution_time p log :
  inserted (invokeWebhook p) = Some log ->
  execution_time log = Some (parseHrtimeToMilliSeconds hrtime_elapsed).
Proof.
  unfold invokeWebhook.
  destruct (try_error (tryBlock p)) as [e|].
  - destruct (catchBlock p e) as [[l|] rethrown]; cbn; [|discriminate].
    intros H. now injection H as <-.
  - destruct (try_hookLog (tryBlock p)) as [l|]; cbn; [|discriminate].
    intros H. now injection H as <-.
Qed.

End DispatchProperties.

Lemma whole_milliseconds_checked :
  forallb Terms.whole_milliseconds (seq 0 1000) = true.
Proof. vm_compute. reflexivity. Qed.

Lemma whole_seconds_checked :
  forallb Terms.whole_seconds (seq 0 30) = true.
Proof. vm_compute. reflexivity. Qed.

(** X17: a whole number [k] of milliseconds below one second is printed
    as it is, with three zero decimals, which is the elapsed time in
    milliseconds; a whole number [s] of seconds below the 30 seconds of
    the HTTP timeout is printed as [s] with three zero decimals, where
    the elapsed time in milliseconds prints as [1000 s]. *)
Theorem parseHrtimeToMilliSeconds_whole_milliseconds (s k : Z) :
  (0 <= s < 30)%Z ->
  (0 <= k < 1000)%Z ->
  (Webhook.parseHrtimeToMilliSeconds (0, k * 1000000)%Z
   = (Js.Z_to_string k ++ ".000")%string
   /\ Webhook.toFixed3 (Spec.elapsed_milliseconds (0, k * 1000000)%Z)
      = (Js.Z_to_string k ++ ".000")%string)
  /\ (Webhook.parseHrtimeToMilliSeconds (s, 0)%Z
      = (Js.Z_to_string s ++ ".000")%string
      /\ Webhook.toFixed3 (Spec.elapsed_milliseconds (s, 0)%Z)
         = (Js.Z_to_string (1000 * s) ++ ".000")%string).
Proof.
  intros Hs Hk. split.
  - pose proof whole_milliseconds_checked as H.
    rewrite forallb_forall in H.
    specialize (H (Z.to_nat k) ltac:(apply in_seq; lia)).
    unfold Terms.whole_milliseconds in H.
    rewrite !Z2Nat.id in H by lia.
    apply andb_prop in H as [H1 H2].
    now apply String.eqb_eq in H1, H2.
  - pose proof whole_seconds_checked as H.
    rewrite forallb_forall in H.
    specialize (H (Z.to_nat s) ltac:(apply in_seq; lia)).
    unfold Terms.whole_seconds in H.
    rewrite !Z2Nat.id in H by lia.
    apply andb_prop in H as [H1 H2].
    now apply String.eqb_eq in H1, H2.
Qed.

Section DispatchExamples.
Import Js Webhook Example.

(** C4 on two updates of a hook gated on "Name is x": renaming a task
    from y to x is delivered; an update that leaves the name x is
    skipped. *)
Lemma invokeWebhook_condition_gate_witness :
  (condition (hook rename_to_x) = true
   /\ testHook rename_to_x = false
   /\ isArray (newData rename_to_x) = false)
  /\ dispatched (invokeWebhook rename_to_x) = Some (newData rename_to_x)
  /\ invokeWebhook still_x = mkInvocation None None None.
Proof.
  split; [repeat split|]. split.
  - apply (proj2 (proj2 (proj2 (proj2
             (invokeWebhook_condition_gate rename_to_x
                eq_refl eq_refl eq_refl))))
             (mkNotification "URL" (JObj []))).
    + reflexivity.
    + intros e. discriminate.
    + intros [_ [_ [v [Hv Htv]]]]. vm_compute in Hv.
      injection Hv as <-. discriminate.
    + exists (JBool true). split; reflexivity.
  - apply (proj1 (proj2 (invokeWebhook_condition_gate still_x
                           eq_refl eq_refl eq_refl))
             ltac:(repeat split; [discriminate | now exists (JBool true)])
             (Some (mkNotification "URL" (JObj [])))).
    reflexivity.
Defined.

(** C8 at an invocation that took 2.5 seconds: the logged execution
    time is "502.000", the seconds having been added unscaled, while
    the elapsed time in milliseconds prints as "2500.000". *)
Theorem execution_time_of_two_and_a_half_seconds :
  hrtime_elapsed = (2, 500000000)%Z
  /\ (exists log,
        inserted (invokeWebhook rename_to_x) = Some log
        /\ execution_time log = Some "502.000")
  /\ parseHrtimeToMilliSeconds (2, 500000000)%Z = "502.000"
  /\ toFixed3 (Spec.elapsed_milliseconds (2, 500000000)%Z) = "2500.000".
Proof.
  split; [reflexivity | split; [| split; reflexivity]].
  eexists. split; reflexivity.
Qed.

(** X17 at half a second and at two seconds. *)
Lemma parseHrtimeToMilliSeconds_whole_milliseconds_witness :
  (parseHrtimeToMilliSeconds (0, 500 * 1000000)%Z = "500.000"
   /\ toFixed3 (Spec.elapsed_milliseconds (0, 500 * 1000000)%Z)
      = "500.000")
  /\ (parseHrtimeToMilliSeconds (2, 0)%Z = "2.000"
      /\ toFixed3 (Spec.elapsed_milliseconds (2, 0)%Z) = "2000.000").
Proof.
  apply (parseHrtimeToMilliSeconds_whole_milliseconds 2 500); lia.
Defined.

End DispatchExamples.

(* ================================================================== *)
(** * Properties of the lookup query builder *)
(* ================================================================== *)

Section LookupProperties.
Import Js Sdk LookupSelect.
Variable getAlias : nat -> string * nat.

Lemma relationType_normal relationCol relation :
  relationType relationCol relation <> ONE_TO_ONE.
Proof.
  unfold relationType.
  destruct (rel_type relation); try discriminate.
  destruct (meta_bt relationCol); discriminate.
Qed.

(** The code reads a relation as the normalization says. *)
Lemma relationType_normalized relationCol relation :
  Spec.normalized relationCol relation = relationType relationCol relation.
Proof.
  unfold Spec.normalized, relationType.
  destruct (rel_type relation), (meta_bt relationCol); reflexivity.
Qed.

(** The first hop sets the flag by its relation type. *)
Lemma firstHop_flag rootAlias alias relationCol relation n q flag n' :
  firstHop getAlias rootAlias alias relationCol relation n
  = Ok ((q, flag), n') ->
  flag = Spec.is_belongs_to (relationType relationCol relation).
Proof.
  unfold firstHop.
  destruct (relationType relationCol relation); cbn.
  - intros H. now injection H as _ <- _.
  - intros H. now injection H as _ <- _.
  - unfold mbind, fresh. destruct (getAlias n) as [a n1].
    unfold getJunction. destruct (junction relation); cbn; [|discriminate].
    intros H. now injection H as _ <- _.
  - discriminate.
Qed.

(** A turn of the loop keeps the flag on a belongs-to hop and clears it
    on any other. *)
Lemma nestedHop_flag alias prev nested relationCol relation sq flag
    n q flag' n' :
  nestedHop getAlias alias prev nested relationCol relation sq flag n
  = Ok ((q, flag'), n') ->
  flag' = flag && Spec.is_belongs_to (relationType relationCol relation).
Proof.
  unfold nestedHop.
  pose proof (relationType_normal relationCol relation) as Hn.
  destruct (relationType relationCol relation); cbn.
  - intros H. injection H as _ <- _. now rewrite andb_false_r.
  - intros H. injection H as _ <- _. now rewrite andb_true_r.
  - unfold mbind, fresh. destruct (getAlias n) as [a n1].
    unfold getJunction. destruct (junction relation); cbn; [|discriminate].
    intros H. injection H as _ <- _. now rewrite andb_false_r.
  - contradiction.
Qed.

(** The loop leaves the flag set exactly when it was set and every hop
    it met is belongs-to. *)
Lemma walk_flag alias : forall lookupColumn sq flag prev n w n',
  walk getAlias alias lookupColumn sq flag prev n = Ok (w, n') ->
  walk_isBtLookup w
  = flag && forallb Spec.is_belongs_to (Spec.nested_hops lookupColumn).
Proof.
  intros lookupColumn.
  induction lookupColumn as [i cn u bt m o IH | | r IHr l IHl | rel d IHd | v IHv]
    using Column_mutual
    with (P0 := fun o =>
            match o with
            | LookupOptions _ l | LinkOptions _ l =>
                forall sq flag prev n w n',
                  walk getAlias alias l sq flag prev n = Ok (w, n') ->
                  walk_isBtLookup w
                  = flag && forallb Spec.is_belongs_to (Spec.nested_hops l)
            | _ => True
            end);
    try exact I; try assumption.
  intros sq flag prev n w n'.
  destruct u;
    try (cbn; intros H; injection H as <- _; cbn;
         now rewrite andb_true_r).
  - (* LinkToAnotherRecord *)
    cbn [walk]. unfold mbind at 1, fresh. destruct (getAlias n) as [a n1].
    destruct o as [| | relation next |]; try discriminate.
    unfold mbind at 1.
    destruct (nestedHop _ _ _ _ _ _ _ _ _) as [[[q flag'] n2]|e] eqn:Eh;
      [|discriminate].
    intros Hw. apply IH in Hw. apply nestedHop_flag in Eh. subst flag'.
    rewrite Hw. cbn [Spec.nested_hops forallb].
    now rewrite relationType_normalized, andb_assoc.
  - (* Lookup *)
    cbn [walk]. unfold mbind at 1, fresh. destruct (getAlias n) as [a n1].
    destruct o as [| relationCol next | |]; try discriminate.
    unfold mbind at 1, getColOptions_link.
    cbn [Spec.nested_hops]. unfold Spec.hop_of.
    destruct (colOptions relationCol) as [| | relation display |];
      try discriminate.
    cbn [ret]. unfold mbind at 1.
    destruct (nestedHop _ _ _ _ _ _ _ _ _) as [[[q flag'] n2]|e] eqn:Eh;
      [|discriminate].
    intros Hw. apply IH in Hw. apply nestedHop_flag in Eh. subst flag'.
    rewrite Hw. cbn [app forallb].
    now rewrite relationType_normalized, andb_assoc.
Qed.

(** A QrCode or Barcode target is replaced by the column it encodes. *)
Lemma decode_step (lookupColumn : Column) n x n' :
  match uidt lookupColumn with
  | QrCode | Barcode =>
      match colOptions lookupColumn with
      | CodeOptions valueColumn => ret valueColumn
      | _ => throw (TypeError "not a code column")
      end
  | _ => ret lookupColumn
  end n = Ok (x, n') ->
  x = Spec.decoded lookupColumn /\ n' = n.
Proof.
  unfold Spec.decoded.
  destruct (uidt lookupColumn); cbn;
    try (intros H; injection H as <- <-; now split);
    destruct (colOptions lookupColumn); cbn; try discriminate;
    intros H; injection H as <- <-; now split.
Qed.

(** When the value has been selected, the flag is set exactly when
    every hop of the chain is belongs-to. *)
Lemma buildSelectQb_flag column rootAlias isAggregation n b n' :
  buildSelectQb getAlias column rootAlias isAggregation n = Ok (b, n') ->
  built_isBtLookup b = forallb Spec.is_belongs_to (Spec.hops column).
Proof.
  unfold buildSelectQb, Spec.hops.
  unfold mbind at 1, fresh. destruct (getAlias n) as [alias n1].
  unfold mbind at 1.
  destruct (uidt column); cbn [throw]; try discriminate.
  - (* LinkToAnotherRecord *)
    cbn [ret]. unfold mbind at 1, getColOptions_link.
    destruct (colOptions column) as [| | relation display |];
      cbn [throw ret]; try discriminate.
    unfold mbind at 1.
    destruct (firstHop _ _ _ _ _ _) as [[[q0 flag0] n2]|e] eqn:E1;
      [|discriminate].
    apply firstHop_flag in E1. unfold mbind at 1.
    match goal with
    | |- match ?c with _ => _ end = _ -> _ =>
        destruct c as [[x n3]|e] eqn:E2; [|discriminate]
    end.
    apply decode_step in E2 as [-> ->]. unfold mbind at 1.
    destruct (walk _ _ _ _ _ _ _) as [[w n4]|e] eqn:E3; [|discriminate].
    apply walk_flag in E3. unfold mbind at 1.
    destruct (selectTarget _ _ _ _ _) as [[q5 n5]|e]; [|discriminate].
    cbn [ret]. intros H. injection H as <- <-. cbn [built_isBtLookup forallb].
    now rewrite E3, E1, relationType_normalized.
  - (* Lookup *)
    destruct (colOptions column) as [| relationCol lookupColumn | |];
      cbn [throw ret]; try discriminate.
    unfold mbind at 1, getColOptions_link. unfold Spec.hop_of.
    destruct (colOptions relationCol) as [| | relation display |];
      cbn [throw ret]; try discriminate.
    unfold mbind at 1.
    destruct (firstHop _ _ _ _ _ _) as [[[q0 flag0] n2]|e] eqn:E1;
      [|discriminate].
    apply firstHop_flag in E1. unfold mbind at 1.
    match goal with
    | |- match ?c with _ => _ end = _ -> _ =>
        destruct c as [[x n3]|e] eqn:E2; [|discriminate]
    end.
    apply decode_step in E2 as [-> ->]. unfold mbind at 1.
    destruct (walk _ _ _ _ _ _ _) as [[w n4]|e] eqn:E3; [|discriminate].
    apply walk_flag in E3. unfold mbind at 1.
    destruct (selectTarget _ _ _ _ _) as [[q5 n5]|e]; [|discriminate].
    cbn [ret]. intros H. injection H as <- <-.
    cbn [built_isBtLookup app forallb].
    now rewrite E3, E1, relationType_normalized.
Qed.

Lemma belongs_to_only (ts : list RelationTypes) :
  Forall (fun t => t = BELONGS_TO) ts ->
  forallb Spec.is_belongs_to ts = true.
Proof.
  induction 1 as [|t ts -> _ IH]; [reflexivity|]. cbn. exact IH.
Qed.

Lemma some_fan_out (ts : list RelationTypes) :
  Exists (fun t => t = HAS_MANY \/ t = MANY_TO_MANY) ts ->
  forallb Spec.is_belongs_to ts = false.
Proof.
  induction 1 as [t ts [-> | ->] | t ts _ IH]; cbn; try reflexivity.
  rewrite IH. apply andb_false_r.
Qed.

Lemma generate_after_build column base rootAlias isAggregation n b n1 :
  buildSelectQb getAlias column rootAlias isAggregation n = Ok (b, n1) ->
  generateLookupSelectQuery getAlias column base rootAlias isAggregation n
  = finish getAlias base b n1.
Proof.
  intros Hb. unfold generateLookupSelectQuery, mbind. now rewrite Hb.
Qed.

(** C2: once the chain has been built, when every relation hop (One-to-
    One read through the [meta.bt] marker) is BelongsTo the flag is
    still set and the function returns the built query itself; when
    some hop is HasMany or ManyToMany the flag is cleared, every query
    the function returns selects one raw aggregation from the built
    query as a derived subquery under a fresh alias, and one is
    returned on Postgres, MySQL and SQLite. *)
Theorem lookup_aggregates_only_on_fan_out
    column base rootAlias isAggregation n b n1 :
  buildSelectQb getAlias column rootAlias isAggregation n = Ok (b, n1) ->
  (Forall (fun t => t = BELONGS_TO) (Spec.hops column) ->
   built_isBtLookup b = true
   /\ generateLookupSelectQuery getAlias column base rootAlias
        isAggregation n
      = Ok (built_selectQb b, n1))
  /\ (Exists (fun t => t = HAS_MANY \/ t = MANY_TO_MANY) (Spec.hops column) ->
      built_isBtLookup b = false
      /\ (forall q n2,
            generateLookupSelectQuery getAlias column base rootAlias
              isAggregation n
            = Ok (q, n2) ->
            exists sql bindings,
              q = mkQuery
                    (FromDerived (built_selectQb b) (fst (getAlias n1)))
                    [] [] [SelectRaw sql bindings]
              /\ n2 = snd (getAlias n1))
      /\ (isPg base || isMySQL base || isSqlite base = true ->
          exists q,
            generateLookupSelectQuery getAlias column base rootAlias
              isAggregation n
            = Ok (q, snd (getAlias n1)))).
Proof.
  intros Hb. pose proof (buildSelectQb_flag _ _ _ _ _ _ Hb) as Hflag.
  rewrite (generate_after_build _ base _ _ _ _ _ Hb). unfold finish.
  split.
  - intros Hbt. rewrite (belongs_to_only _ Hbt) in Hflag.
    rewrite Hflag. now split.
  - intros Hfan. rewrite (some_fan_out _ Hfan) in Hflag.
    rewrite Hflag. split; [reflexivity|].
    unfold mbind, fresh. destruct (getAlias n1) as [a n2]. cbn [fst snd].
    unfold aggregate.
    destruct (isPg base), (isMySQL base), (isSqlite base); cbn;
      (split;
       [ intros q m H; try discriminate; injection H as <- <-;
         now eexists _, _
       | intros H; try discriminate; now eexists ]).
Qed.

(** C3: once the chain has been built with some HasMany or ManyToMany
    hop, the function returns a query that selects one raw aggregation
    of the selected column from the built query as a derived subquery:
    [json_agg(col)::text] on Postgres, [cast(JSON_ARRAYAGG(col) as
    NCHAR)] on MySQL, [group_concat(col, '___')] on SQLite; on any
    other dialect it fails with an UnsupportedOperation error. *)
Theorem lookup_aggregation_by_dialect
    column base rootAlias isAggregation n b n1 :
  buildSelectQb getAlias column rootAlias isAggregation n = Ok (b, n1) ->
  Exists (fun t => t = HAS_MANY \/ t = MANY_TO_MANY) (Spec.hops column) ->
  let call :=
    generateLookupSelectQuery getAlias column base rootAlias
      isAggregation n in
  let derived sql bindings :=
    Ok (mkQuery (FromDerived (built_selectQb b) (fst (getAlias n1)))
          [] [] [SelectRaw sql bindings],
        snd (getAlias n1)) in
  let col := id (built_lookupColumn b) in
  (isPg base = true -> call = derived "json_agg(??)::text" [col])
  /\ (isPg base = false -> isMySQL base = true ->
      call = derived "cast(JSON_ARRAYAGG(??) as NCHAR)" [col])
  /\ (isPg base = false -> isMySQL base = false -> isSqlite base = true ->
      call = derived "group_concat(??, ?)" [col; "___"])
  /\ (isPg base = false -> isMySQL base = false -> isSqlite base = false ->
      exists e, call = Err e /\ Spec.UnsupportedOperation e).
Proof.
  intros Hb Hfan call derived col. subst call derived col.
  pose proof (buildSelectQb_flag _ _ _ _ _ _ Hb) as Hflag.
  rewrite (some_fan_out _ Hfan) in Hflag.
  rewrite (generate_after_build _ base _ _ _ _ _ Hb). unfold finish.
  rewrite Hflag. unfold mbind, fresh, aggregate, LOOKUP_VAL_SEPARATOR.
  destruct (getAlias n1) as [a n2]. cbn [fst snd].
  repeat split.
  - now intros ->.
  - now intros -> ->.
  - now intros -> -> ->.
  - intros -> -> ->. eexists. split; [reflexivity | exact I].
Qed.

End LookupProperties.

Section LookupExamples.
Import Js Sdk LookupSelect Example.

(** C2 on four chains.  The name of the customer of the order of an
    item: two belongs-to hops, and the built join query is returned as
    it is.  The titles of the orders of a customer: one has-many hop,
    and the built query comes back as a derived subquery under one raw
    aggregation.  The invoice of an order, one to one: belongs-to and
    returned as it is from the column that carries the [meta.bt]
    marker, has-many and aggregated from the column that does not. *)
Lemma lookup_aggregates_only_on_fan_out_witness :
  (exists b,
      buildSelectQb lk_slt item_customer_name "" false 0 = Ok (b, 2)
      /\ Spec.hops item_customer_name = [BELONGS_TO; BELONGS_TO]
      /\ built_isBtLookup b = true
      /\ generateLookupSelectQuery lk_slt item_customer_name postgres ""
           false 0
         = Ok (built_selectQb b, 2))
  /\ (exists b,
        buildSelectQb lk_slt customer_order_titles "" false 0 = Ok (b, 1)
        /\ Spec.hops customer_order_titles = [HAS_MANY]
        /\ built_isBtLookup b = false
        /\ exists sql bindings,
             generateLookupSelectQuery lk_slt customer_order_titles
               postgres "" false 0
             = Ok (mkQuery (FromDerived (built_selectQb b) "__lk_slt_1")
                     [] [] [SelectRaw sql bindings], 2))
  /\ (exists b,
        buildSelectQb lk_slt (order_invoice_link true) "" false 0
        = Ok (b, 1)
        /\ Spec.hops (order_invoice_link true) = [BELONGS_TO]
        /\ generateLookupSelectQuery lk_slt (order_invoice_link true)
             postgres "" false 0
           = Ok (built_selectQb b, 1))
  /\ (exists b,
        buildSelectQb lk_slt (order_invoice_link false) "" false 0
        = Ok (b, 1)
        /\ Spec.hops (order_invoice_link false) = [HAS_MANY]
        /\ exists sql bindings,
             generateLookupSelectQuery lk_slt (order_invoice_link false)
               postgres "" false 0
             = Ok (mkQuery (FromDerived (built_selectQb b) "__lk_slt_1")
                     [] [] [SelectRaw sql bindings], 2)).
Proof.
  split; [|split; [|split]].
  - eexists. split; [lazy; reflexivity|]. split; [reflexivity|].
    apply (proj1 (lookup_aggregates_only_on_fan_out lk_slt
                    item_customer_name postgres "" false 0 _ 2 eq_refl)).
    repeat constructor.
  - eexists. split; [lazy; reflexivity|]. split; [reflexivity|].
    destruct (proj2 (lookup_aggregates_only_on_fan_out lk_slt
                       customer_order_titles postgres "" false 0 _ 1
                       eq_refl))
      as (Hflag & Hwrap & Hsome); [constructor; now left|].
    split; [exact Hflag|].
    destruct (Hsome eq_refl) as [q Hq].
    destruct (Hwrap q _ Hq) as (sql & bindings & -> & _).
    exists sql, bindings. exact Hq.
  - eexists. split; [lazy; reflexivity|]. split; [reflexivity|].
    apply (proj1 (lookup_aggregates_only_on_fan_out lk_slt
                    (order_invoice_link true) postgres "" false 0 _ 1
                    eq_refl)).
    repeat constructor.
  - eexists. split; [lazy; reflexivity|]. split; [reflexivity|].
    destruct (proj2 (lookup_aggregates_only_on_fan_out lk_slt
                       (order_invoice_link false) postgres "" false 0 _ 1
                       eq_refl))
      as (Hflag & Hwrap & Hsome); [constructor; now left|].
    destruct (Hsome eq_refl) as [q Hq].
    destruct (Hwrap q _ Hq) as (sql & bindings & -> & _).
    exists sql, bindings. exact Hq.
Defined.

(** C3 on the titles of the orders of a customer: one has-many hop,
    aggregated over the derived subquery with [json_agg] on Postgres,
    [JSON_ARRAYAGG] on MySQL and [group_concat] with the separator on
    SQLite, and refused on a dialect that is none of the three. *)
Lemma lookup_aggregation_by_dialect_witness :
  exists b,
    buildSelectQb lk_slt customer_order_titles "" false 0 = Ok (b, 1)
    /\ Exists (fun t => t = HAS_MANY \/ t = MANY_TO_MANY)
         (Spec.hops customer_order_titles)
    /\ generateLookupSelectQuery lk_slt customer_order_titles postgres ""
         false 0
       = Ok (mkQuery (FromDerived (built_selectQb b) "__lk_slt_1") [] []
               [SelectRaw "json_agg(??)::text" ["o_title"]], 2)
    /\ generateLookupSelectQuery lk_slt customer_order_titles mysql ""
         false 0
       = Ok (mkQuery (FromDerived (built_selectQb b) "__lk_slt_1") [] []
               [SelectRaw "cast(JSON_ARRAYAGG(??) as NCHAR)" ["o_title"]],
             2)
    /\ generateLookupSelectQuery lk_slt customer_order_titles sqlite ""
         false 0
       = Ok (mkQuery (FromDerived (built_selectQb b) "__lk_slt_1") [] []
               [SelectRaw "group_concat(??, ?)" ["o_title"; "___"]], 2)
    /\ exists e,
         generateLookupSelectQuery lk_slt customer_order_titles mssql ""
           false 0 = Err e
         /\ Spec.UnsupportedOperation e.
Proof.
  eexists. split; [lazy; reflexivity|].
  assert (H : Exists (fun t => t = HAS_MANY \/ t = MANY_TO_MANY)
                (Spec.hops customer_order_titles))
    by (constructor; now left).
  split; [exact H|]. split; [|split; [|split]].
  - exact (proj1 (lookup_aggregation_by_dialect lk_slt customer_order_titles
                    postgres "" false 0 _ 1 eq_refl H) eq_refl).
  - exact (proj1 (proj2
             (lookup_aggregation_by_dialect lk_slt customer_order_titles
                mysql "" false 0 _ 1 eq_refl H)) eq_refl eq_refl).
  - exact (proj1 (proj2 (proj2
             (lookup_aggregation_by_dialect lk_slt customer_order_titles
                sqlite "" false 0 _ 1 eq_refl H))) eq_refl eq_refl eq_refl).
  - exact (proj2 (proj2 (proj2
             (lookup_aggregation_by_dialect lk_slt customer_order_titles
                mssql "" false 0 _ 1 eq_refl H))) eq_refl eq_refl eq_refl).
Defined.

End LookupExamples.

(* ================================================================== *)
(** * Further properties of the condition evaluator *)
(* ================================================================== *)

Section EvaluatorInvariants.
Import Js Sdk Webhook.
Context {number : Type} {RT : Runtime number} {DJ : Dayjs number}.
#[local] Abbreviation value := (value number).
#[local] Abbreviation Filter := (@Filter number).
Implicit Types (f : Filter) (filters : list Filter) (data : value)
               (client : option string).

Lemma compareDate_verdict client col op sub d fv (res : value) :
  Terms.is_verdict res = true ->
  Terms.is_verdict (compareDate client col op sub d fv res) = true.
Proof.
  intros Hres. unfold compareDate.
  destruct op as [[]|]; try reflexivity; try assumption.
  destruct sub as [[]|]; try reflexivity; assumption.
Qed.

Lemma dateLeaf_verdict client f d (r : value) :
  dateLeaf client f d = Normal r -> Terms.is_verdict r = true.
Proof.
  unfold dateLeaf.
  destruct (resolveSubOp _ _ _); try discriminate.
  assert (Hres : @Terms.is_verdict number
                   (if truthy (filter_value f)
                    then JBool (isSame (dayjs_of (inl (filter_value f)))
                                  (inl d))
                    else undefined) = true)
    by (destruct (truthy (filter_value f)); reflexivity).
  destruct (truthy d); intros H; injection H as <-;
    [now apply compareDate_verdict | assumption].
Qed.

Lemma userLeaf_verdict f d (r : value) :
  userLeaf f d = Normal r -> Terms.is_verdict r = true.
Proof.
  unfold userLeaf. destruct (userIds d); [|discriminate].
  destruct (filterValues _); [|discriminate].
  intros H. injection H as <-.
  destruct (comparison_op f) as [[]|]; reflexivity.
Qed.

Lemma lift_bool_verdict (b : result bool) (r : value) :
  lift_bool b = Normal r -> Terms.is_verdict r = true.
Proof. destruct b; [|discriminate]. intros H. now injection H as <-. Qed.

Lemma otherLeaf_verdict f d val (r : value) :
  otherLeaf f d val = Normal r -> Terms.is_verdict r = true.
Proof.
  unfold otherLeaf.
  destruct (comparison_op f) as [[]|];
    first [ apply lift_bool_verdict
          | intros H; now injection H as <- ].
Qed.

Lemma leafRes_verdict client data f (r : value) :
  leafRes client data f = Normal r -> Terms.is_verdict r = true.
Proof.
  unfold leafRes. destruct (get data _); [|discriminate].
  destruct (_ && _); [apply dateLeaf_verdict|].
  destruct (is_user_family _);
    [apply userLeaf_verdict | apply otherLeaf_verdict].
Qed.

Lemma combine_verdict op (acc res : value) :
  Terms.is_verdict acc = true ->
  Terms.is_verdict res = true ->
  Terms.is_verdict (combine op acc res) = true.
Proof.
  destruct acc as [| |[]| | | |]; try discriminate;
    destruct res as [| |[]| | | |]; try discriminate;
    destruct op as [[]|]; reflexivity.
Qed.

Lemma forOf_verdict (R : Filter -> completion value value) filters :
  forall acc v,
  Forall (fun f => forall r, R f = Normal r -> Terms.is_verdict r = true)
    filters ->
  Forall (fun f => forall r, R f = Return r -> r = undefined) filters ->
  Terms.is_verdict acc = true ->
  forOf R filters acc = Ok v ->
  Terms.is_verdict v = true.
Proof.
  induction filters as [|f filters IH]; intros acc v Hn Hr Hacc; cbn.
  - intros H. now injection H as <-.
  - inversion Hn as [|? ? Hf Hn']; inversion Hr as [|? ? Hrf Hr']; subst.
    destruct (R f) as [res|r|e] eqn:E.
    + apply IH; try assumption. apply combine_verdict; [assumption|].
      now apply Hf.
    + intros H. injection H as <-. now rewrite (Hrf r eq_refl).
    + discriminate.
Qed.

Lemma filterRes_verdict client data :
  forall f r, filterRes client data f = Normal r ->
              Terms.is_verdict r = true.
Proof.
  induction f as [g children op cmp sub v col IH] using Filter_tree_ind.
  intros r. destruct g.
  - rewrite filterRes_group.
    destruct (validateCondition children data client) as [res|e] eqn:E;
      [|discriminate].
    intros H. injection H as <-.
    unfold validateCondition, validateWith in E.
    destruct children as [|c children]; [now injection E as <-|].
    apply (forOf_verdict (filterRes client data) (c :: children) null res);
      [exact IH | | reflexivity | exact E].
    apply Forall_forall. intros x _ r. apply filterRes_return.
  - cbn [filterRes]. apply leafRes_verdict.
Qed.

(** X1: whatever the filters and the record, a call that returns yields
    undefined, null, true or false, so its value is truthy exactly when
    it is [true]. *)
Theorem validateCondition_verdict client data filters (v : value) :
  validateCondition filters data client = Ok v ->
  Terms.is_verdict v = true /\ (truthy v = true <-> v = JBool true).
Proof.
  intros H.
  assert (Hv : Terms.is_verdict v = true).
  { unfold validateCondition, validateWith in H.
    destruct filters as [|f filters]; [now injection H as <-|].
    apply (forOf_verdict (filterRes client data) (f :: filters) null v);
      [ | | reflexivity | exact H];
      apply Forall_forall; intros x _ r;
      [apply filterRes_verdict | apply filterRes_return]. }
  split; [exact Hv|].
  destruct v as [| |[]| | | |]; try discriminate; cbn;
    split; congruence.
Qed.

Lemma forOf_leading_not client data nots rest :
  Forall (fun f => logical_op f = Some op_not
                   /\ exists r, filterRes client data f = Normal r) nots ->
  forOf (filterRes client data) (nots ++ rest) null
  = forOf (filterRes client data) rest null.
Proof.
  induction 1 as [|f nots [Hop [r Hr]] _ IH]; [reflexivity|].
  cbn. now rewrite Hr, Hop.
Qed.

(** X2: siblings joined by [not] at the head of a sequence are ignored:
    as long as the accumulator is null, [isValid && !res] leaves it
    null.  A sequence made of [not] siblings only evaluates to null,
    and one that continues evaluates as its remainder alone. *)
Theorem leading_not_is_ignored client data nots rest :
  nots <> [] ->
  Forall (fun f => logical_op f = Some op_not
                   /\ exists r, filterRes client data f = Normal r) nots ->
  validateCondition (nots ++ rest) data client
  = match rest with
    | [] => Ok null
    | _ => validateCondition rest data client
    end.
Proof.
  intros Hne Hall. unfold validateCondition, validateWith.
  destruct (nots ++ rest) as [|x xs] eqn:E.
  - destruct nots; [contradiction | discriminate].
  - rewrite <- E, (forOf_leading_not _ _ _ _ Hall).
    now destruct rest.
Qed.

(** X3: a leaf that leaves the evaluation inside a group ends that
    group only: the group's result is undefined and the enclosing loop
    goes on with its next sibling. *)
Theorem early_exit_stays_in_group
    client data before f after op cmp sub v col (r : value) :
  filterRes client data f = Return r ->
  Forall (fun g => forall e, filterRes client data g <> Throw e) before ->
  let group := mkFilter true (before ++ f :: after) op cmp sub v col in
  filterRes client data group = Normal undefined
  /\ forall rest acc,
       forOf (filterRes client data) (group :: rest) acc
       = forOf (filterRes client data) rest (combine op acc undefined).
Proof.
  intros Hf Hbefore group.
  assert (Hg : filterRes client data group = Normal undefined).
  { subst group. rewrite filterRes_group.
    rewrite (filterRes_return _ _ _ _ Hf) in Hf.
    unfold validateCondition, validateWith.
    destruct (before ++ f :: after) eqn:E; [now destruct before|].
    rewrite <- E. now rewrite (forOf_return _ _ _ _ _ null Hf Hbefore). }
  split; [exact Hg|]. intros rest acc. cbn [forOf]. now rewrite Hg.
Qed.

Lemma forOf_ext (R1 R2 : Filter -> completion value value) filters :
  Forall (fun f => R1 f = R2 f) filters ->
  forall acc, forOf R1 filters acc = forOf R2 filters acc.
Proof.
  induction 1 as [|f filters Hf _ IH]; intros acc; [reflexivity|].
  cbn. rewrite Hf. destruct (R2 f); auto.
Qed.

Lemma validateWith_ext (R1 R2 : Filter -> completion value value) filters :
  Forall (fun f => R1 f = R2 f) filters ->
  validateWith R1 filters = validateWith R2 filters.
Proof.
  intros H. destruct filters; [reflexivity|]. now apply forOf_ext.
Qed.

Lemma compareDate_without_isWithin c1 c2 col op sub d fv (res : value) :
  op <> Some cmp_isWithin ->
  compareDate c1 col op sub d fv res = compareDate c2 col op sub d fv res.
Proof.
  intros Hop. unfold compareDate.
  destruct op as [[]|]; try reflexivity. now destruct Hop.
Qed.

Lemma filterRes_without_isWithin c1 c2 data :
  forall f, Terms.mentions_isWithin f = false ->
            filterRes c1 data f = filterRes c2 data f.
Proof.
  induction f as [g children op cmp sub v col IH] using Filter_tree_ind.
  intros Hno. destruct g.
  - rewrite !filterRes_group. unfold validateCondition.
    cbn [Terms.mentions_isWithin] in Hno.
    rewrite (validateWith_ext (filterRes c1 data) (filterRes c2 data));
      [reflexivity|].
    clear op cmp sub v col. induction children as [|c children IHc];
      constructor.
    + inversion IH as [|? ? Hc _]; subst. apply Hc.
      cbn in Hno. now apply orb_false_elim in Hno as [Hc' _].
    + inversion IH as [|? ? _ Hrest]; subst. apply IHc; [assumption|].
      cbn in Hno. now apply orb_false_elim in Hno as [_ Hrest'].
  - cbn [filterRes]. unfold leafRes. cbn [column comparison_op].
    destruct (get data (title col)) as [d|]; [|reflexivity].
    destruct (_ && _); [|reflexivity].
    unfold dateLeaf. cbn [column comparison_op comparison_sub_op filter_value].
    destruct (resolveSubOp _ sub v); try reflexivity.
    destruct (truthy d); [|reflexivity].
    rewrite (compareDate_without_isWithin c1 c2); [reflexivity|].
    intros ->. discriminate.
Qed.

(** X4: the dialect matters to [isWithin] alone: a filter tree without
    an [isWithin] leaf evaluates to the same outcome under any two
    clients. *)
Theorem validateCondition_dialect_independent c1 c2 data filters :
  existsb Terms.mentions_isWithin filters = false ->
  validateCondition filters data c1 = validateCondition filters data c2.
Proof.
  intros Hno. unfold validateCondition. apply validateWith_ext.
  induction filters as [|f filters IH]; constructor.
  - apply filterRes_without_isWithin.
    cbn in Hno. now apply orb_false_elim in Hno as [Hf _].
  - apply IH. cbn in Hno. now apply orb_false_elim in Hno as [_ Hr].
Qed.

(** ** Single comparators *)





(** X7: on such a column the list tests with no filter value never look
    at the stored value: [allof] and [nanyof] are true, [anyof] and
    [nallof] false.  With a filter value that is a string, a stored
    value that is neither a string nor null or undefined makes all four
    raise a TypeError. *)
Theorem list_tests client (row : list (string * value)) f :
  is_group f = false ->
  is_date_family (uidt (column f)) = false ->
  is_user_family (uidt (column f)) = false ->
  let d := Spec.field row (title (column f)) in
  let test op :=
    filterRes client (JObj row) (Terms.with_comparison_op op f) in
  (is_nullish (filter_value f) = true ->
   test cmp_allof = Normal (JBool true)
   /\ test cmp_anyof = Normal (JBool false)
   /\ test cmp_nallof = Normal (JBool false)
   /\ test cmp_nanyof = Normal (JBool true))
  /\ (forall s,
        filter_value f = JStr s ->
        is_nullish d = false ->
        (forall t, d <> JStr t) ->
        test cmp_allof = Throw (TypeError "split is not a function")
        /\ test cmp_anyof = Throw (TypeError "split is not a function")
        /\ test cmp_nallof = Throw (TypeError "split is not a function")
        /\ test cmp_nanyof = Throw (TypeError "split is not a function")).
Proof.
  intros Hleaf Hdate Huser d test. subst d test. cbv beta.
  destruct f as [g children l c sub v col].
  cbn [is_group column filter_value] in *. subst g.
  cbn [Terms.with_comparison_op filterRes]. unfold leafRes.
  cbn [column comparison_op filter_value get].
  fold (Spec.field row (title col)). rewrite Hdate, Huser. cbn [andb].
  unfold otherLeaf, ofList. cbn [comparison_op filter_value].
  split.
  - intros Hv. destruct v; try discriminate; repeat split.
  - intros s -> Hd Hs. unfold filterValues. cbn [split_opt bind].
    assert (Hne : map trim (split comma s) <> [])
      by (destruct s as [|a s]; cbn; [discriminate|];
          destruct (Ascii.eqb a comma); [discriminate|];
          destruct (split comma s); discriminate).
    destruct (map trim (split comma s)) as [|p ps]; [contradiction|].
    destruct (Spec.field row (title col)); try discriminate;
      try (now destruct (Hs s0)); repeat split.
Qed.

End EvaluatorInvariants.

(* ================================================================== *)
(** * Splitting and trimming a filter value *)
(* ================================================================== *)

Section FilterValueProperties.
Import Js Webhook.

Lemma split_not_nil sep s : split sep s <> [].
Proof.
  destruct s as [|c s]; cbn; [discriminate|].
  destruct (Ascii.eqb c sep); [discriminate|].
  destruct (split sep s); discriminate.
Qed.

Lemma split_without_separator sep s :
  Forall (fun piece => Terms.has_char sep piece = false) (split sep s).
Proof.
  induction s as [|c s IH]; cbn.
  - now constructor.
  - destruct (Ascii.eqb c sep) eqn:E.
    + now constructor.
    + destruct (split sep s) as [|piece pieces].
      * constructor; [|constructor]. cbn. now rewrite E.
      * inversion IH as [|? ? Hp Hps]; subst.
        constructor; [|assumption]. cbn. now rewrite E.
Qed.

Lemma concat_split sep s :
  String.concat (String sep EmptyString) (split sep s) = s.
Proof.
  induction s as [|c s IH]; [reflexivity|]. cbn [split].
  pose proof (split_not_nil sep s) as Hne.
  destruct (Ascii.eqb c sep) eqn:E.
  - apply Ascii.eqb_eq in E. subst c.
    destruct (split sep s) as [|piece pieces]; [contradiction|].
    change (String.concat (String sep "") ("" :: piece :: pieces))
      with ("" ++ String sep ""
            ++ String.concat (String sep "") (piece :: pieces))%string.
    now rewrite IH.
  - destruct (split sep s) as [|piece pieces]; [contradiction|].
    destruct pieces as [|q pieces].
    + cbn in *. now rewrite IH.
    + change (String.concat (String sep "") (String c piece :: q :: pieces))
        with (String c (piece ++ String sep ""
                        ++ String.concat (String sep "") (q :: pieces)))%string.
      change (String.concat (String sep "") (piece :: q :: pieces))
        with (piece ++ String sep ""
              ++ String.concat (String sep "") (q :: pieces))%string in IH.
      now rewrite IH.
Qed.

Lemma trimStart_without c s :
  Terms.has_char c s = false -> Terms.has_char c (trimStart s) = false.
Proof.
  induction s as [|a s IH]; [reflexivity|]. cbn [trimStart].
  destruct (is_white_space a); [|auto]. cbn.
  intros H. apply orb_false_elim in H as [_ H]. auto.
Qed.

Lemma trimEnd_without c s :
  Terms.has_char c s = false -> Terms.has_char c (trimEnd s) = false.
Proof.
  induction s as [|a s IH]; [reflexivity|]. cbn [trimEnd].
  cbn [Terms.has_char]. intros H. apply orb_false_elim in H as [Ha Hs].
  destruct (is_white_space a && (trimEnd s =? "")); [reflexivity|].
  cbn. rewrite Ha. now apply IH.
Qed.

Lemma trimEnd_idempotent s : trimEnd (trimEnd s) = trimEnd s.
Proof.
  induction s as [|a s IH]; [reflexivity|]. cbn [trimEnd].
  destruct (is_white_space a && (trimEnd s =? "")) eqn:E; [reflexivity|].
  cbn [trimEnd]. now rewrite IH, E.
Qed.

Lemma trimStart_head s :
  match trimStart s with
  | EmptyString => True
  | String c _ => is_white_space c = false
  end.
Proof.
  induction s as [|a s IH]; [exact I|]. cbn [trimStart].
  destruct (is_white_space a) eqn:E; [exact IH | exact E].
Qed.

Lemma trim_idempotent s : trim (trim s) = trim s.
Proof.
  unfold trim. pose proof (trimStart_head s) as Hh.
  destruct (trimStart s) as [|c r]; [reflexivity|].
  cbn [trimEnd]. rewrite Hh. cbn [andb].
  cbn [trimStart]. rewrite Hh.
  cbn [trimEnd]. rewrite Hh. cbn [andb].
  now rewrite trimEnd_idempotent.
Qed.

(** X8: a filter value that is a string is read as at least one id,
    each free of commas and of surrounding white space; joining the
    pieces it was split into by commas gives the value back. *)
Theorem filterValues_of_string {number : Type} (s : string) :
  exists ids,
    @filterValues number (JStr s) = Ok ids
    /\ ids <> []
    /\ length ids = length (split comma s)
    /\ Forall (fun id => Terms.trimmed id
                         /\ Terms.has_char comma id = false) ids
    /\ String.concat "," (split comma s) = s.
Proof.
  exists (map trim (split comma s)). split; [reflexivity|].
  split; [|split; [|split]].
  - pose proof (split_not_nil comma s).
    now destruct (split comma s).
  - apply length_map.
  - apply Forall_map.
    eapply Forall_impl; [|apply (split_without_separator comma s)].
    intros piece Hp. split; [apply trim_idempotent|].
    unfold trim. now apply trimEnd_without, trimStart_without.
  - apply concat_split.
Qed.

End FilterValueProperties.

(* ================================================================== *)
(** * Further properties of the envelope *)
(* ================================================================== *)

Section EnvelopeMore.
Import Js Webhook.
Context {number : Type} {RT : Runtime number} {U : Uuid}.

(** X9: for a hook of any version other than v2 (or of none), the
    payload is the new data as it is, and no identifier is drawn. *)
Theorem constructWebHookData_legacy
    (hook : Hook number) (model : Model) (prevData newData : value number)
    (st : uuid_source) :
  version hook <> Some "v2" ->
  constructWebHookData hook model prevData newData st = (newData, st).
Proof.
  intros Hv. unfold constructWebHookData.
  destruct (version hook) as [s|]; [|reflexivity].
  repeat match goal with
         | |- context [match ?x with _ => _ end] =>
             is_var x; destruct x; try reflexivity
         end.
  now destruct Hv.
Qed.

Lemma as_array_isArray (x : value number) : isArray (as_array x) = true.
Proof. unfold as_array. destruct (isArray x) eqn:E; [exact E | reflexivity]. Qed.

(** X10: the data of a v2 envelope.  [previous_rows] is there exactly
    when the previous data is truthy, [rows] exactly when the operation
    is not bulkInsert and the new data is truthy, [rows_inserted]
    exactly when the operation is bulkInsert, so never beside [rows];
    [previous_rows] and [rows] are arrays, a single record being
    wrapped into an array of one. *)
Theorem constructWebHookData_v2
    (hook : Hook number) (model : Model) (prevData newData : value number)
    (st : uuid_source) :
  version hook = Some "v2" ->
  exists data,
    constructWebHookData hook model prevData newData st
    = (JObj [("type", JStr ("records." ++ event hook ++ "."
                            ++ operation hook));
             ("id", JStr (fst (uuidv4 st)));
             ("data", JObj data)],
       snd (uuidv4 st))
    /\ lookup "previous_rows" data
       = (if truthy prevData then Some (as_array prevData) else None)
    /\ lookup "rows" data
       = (if negb (operation hook =? "bulkInsert") && truthy newData
          then Some (as_array newData) else None)
    /\ lookup "rows_inserted" data
       = (if operation hook =? "bulkInsert"
          then Some (rows_inserted newData) else None)
    /\ (lookup "rows" data = None \/ lookup "rows_inserted" data = None)
    /\ (forall k rows,
          k = "rows" \/ k = "previous_rows" ->
          lookup k data = Some rows ->
          isArray rows = true
          /\ (isArray newData = false -> k = "rows" -> rows = JArr [newData])).
Proof.
  intros Hv. unfold constructWebHookData. rewrite Hv.
  destruct (uuidv4 st) as [uuid st']. cbn [fst snd].
  eexists. split; [reflexivity|].
  destruct (truthy prevData), (operation hook =? "bulkInsert"),
    (truthy newData); cbn;
    (split; [reflexivity | split; [reflexivity | split; [reflexivity|]]]);
    (split; [auto|]);
    intros k rows [-> | ->] H; cbn in H; try discriminate;
    injection H as <-;
    (split; [apply as_array_isArray|]);
    try discriminate;
    intros Ha _; unfold as_array; now rewrite Ha.
Qed.

End EnvelopeMore.

(* ================================================================== *)
(** * Further properties of the dispatch engine *)
(* ================================================================== *)

Section DispatchMore.
Import Js Webhook.
Context {number : Type} {RT : Runtime number} {DJ : Dayjs number}
        {D : Deployment number}.
Implicit Types (p : Param number).

(** X11: an invocation that is skipped leaves no trace.  A batch on a
    hook whose notification is not of type URL, and an invocation the
    condition block stops, deliver nothing, throw nothing and log
    nothing. *)
Theorem invokeWebhook_skip_is_silent p n :
  notification (hook p) = Ok n ->
  (isArray (newData p) = true /\ (forall x, n = Some x -> ntype x <> "URL"))
  \/ conditionGate p = Ok Skip ->
  invokeWebhook p = mkInvocation None None None.
Proof.
  intros Hn Hskip. unfold invokeWebhook, tryBlock. rewrite Hn.
  destruct Hskip as [[Harr Hurl] | Hgate].
  - rewrite Harr. destruct n as [x|]; cbn [andb negb]; [|reflexivity].
    destruct (ntype x =? "URL") eqn:E; [|reflexivity].
    apply String.eqb_eq in E. now destruct (Hurl x eq_refl).
  - rewrite Hgate. now destruct (isArray (newData p) && _).
Qed.

(** X12: without [hook.condition], or on a test invocation, the filters
    are not consulted: the new data goes to the adapter as it is (a
    batch only on a URL hook). *)
Theorem invokeWebhook_without_condition p n :
  notification (hook p) = Ok (Some n) ->
  condition (hook p) = false \/ testHook p = true ->
  isArray (newData p) = false \/ ntype n = "URL" ->
  dispatched (invokeWebhook p) = Some (newData p).
Proof.
  intros Hn Hc Hu. rewrite dispatched_tryBlock. unfold tryBlock. rewrite Hn.
  assert (Hgate : conditionGate p = Ok (Proceed (newData p))).
  { unfold conditionGate.
    destruct Hc as [-> | ->]; [reflexivity|].
    now rewrite andb_false_r. }
  rewrite Hgate.
  assert (Hb : isArray (newData p) && negb (ntype n =? "URL") = false).
  { destruct Hu as [-> | ->]; [reflexivity|].
    rewrite String.eqb_refl. apply andb_false_r. }
  rewrite Hb. now destruct (send _ _ _ _ _) as [[? ?]|?].
Qed.

Lemma filteredData_filter p (rows : list (value number)) :
  Forall (fun data =>
            forall e, validateCondition (Spec.filters_of p) data source_type
                      <> Err e) rows ->
  filteredData (Spec.filters_of p) rows = Ok (filter (Terms.accepted p) rows).
Proof.
  induction 1 as [|data rows Hd _ IH]; [reflexivity|].
  cbn [filteredData filter]. unfold Terms.accepted at 1.
  destruct (validateCondition _ data _) as [v|e]; [|now destruct (Hd e)].
  cbn [bind]. rewrite IH. reflexivity.
Qed.

Lemma filteredData_error p (rows : list (value number)) :
  Exists (fun data =>
            exists e, validateCondition (Spec.filters_of p) data source_type
                      = Err e) rows ->
  exists e, filteredData (Spec.filters_of p) rows = Err e.
Proof.
  induction 1 as [data rows [e He] | data rows _ [e IH]];
    cbn [filteredData].
  - rewrite He. now exists e.
  - destruct (validateCondition _ data _) as [v|e']; cbn [bind];
      [|now exists e'].
    rewrite IH. now exists e.
Qed.

(** X13: on a batch, with [hook.condition] set on a URL hook, the
    adapter receives the records the filters accept, in their order,
    and is not called when there is none; the previous data plays no
    part.  When the filters raise on some record, nothing is
    delivered. *)
Theorem invokeWebhook_bulk_filter p n (rows : list (value number)) :
  notification (hook p) = Ok (Some n) ->
  ntype n = "URL" ->
  condition (hook p) = true ->
  testHook p = false ->
  newData p = JArr rows ->
  (Forall (fun data =>
             forall e, validateCondition (Spec.filters_of p) data source_type
                       <> Err e) rows ->
   dispatched (invokeWebhook p)
   = match filter (Terms.accepted p) rows with
     | [] => None
     | kept => Some (JArr kept)
     end)
  /\ (Exists (fun data =>
                exists e,
                  validateCondition (Spec.filters_of p) data source_type
                  = Err e) rows ->
      dispatched (invokeWebhook p) = None).
Proof.
  intros Hn Hurl Hc Ht Hrows.
  rewrite dispatched_tryBlock. unfold tryBlock.
  rewrite Hn, Hurl, String.eqb_refl, andb_false_r.
  unfold conditionGate. rewrite Hc, Ht, Hrows. cbn [andb negb].
  fold (Spec.filters_of p). split.
  - intros Hok. rewrite (filteredData_filter p rows Hok). cbn [bind].
    destruct (filter (Terms.accepted p) rows) as [|k kept]; [reflexivity|].
    now destruct (send _ _ _ _ _) as [[? ?]|?].
  - intros Herr. destruct (filteredData_error p rows Herr) as [e He].
    now rewrite He.
Qed.

Lemma tryBlock_dispatched p n d :
  notification (hook p) = Ok (Some n) ->
  dispatched (invokeWebhook p) = Some d ->
  tryBlock p
  = match send n (hook p) (model p) (prevData p) d with
    | Err e => mkTry (Some d) None (Some e)
    | Ok (payload, response) =>
        mkTry (Some d)
          (if logs_success
           then Some (mkHookLog (hook p) (hook_id (hook p)) (ntype n)
                        (Some payload) (Some response) None (user_email p)
                        (applied_filters p) None false)
           else None)
          None
    end.
Proof.
  intros Hn. rewrite dispatched_tryBlock. unfold tryBlock. rewrite Hn.
  destruct (isArray (newData p) && _); [discriminate|].
  destruct (conditionGate p) as [[|d']|e]; try discriminate.
  destruct (send n (hook p) (model p) (prevData p) d') as [[pl rs]|e] eqn:E;
    cbn; intros H; injection H as <-; now rewrite E.
Qed.

(** X14: what reaches the caller as an exception.  With failure
    logging off and [throwErrorOnFailure] unset, nothing is thrown,
    whatever fails.  But when the notification cannot be parsed and
    failure logging is on, the catch block reads [notification.type]
    and itself throws a TypeError, whatever [throwErrorOnFailure] says,
    and nothing is delivered or logged. *)
Theorem invokeWebhook_thrown p :
  (throwErrorOnFailure p = false ->
   logs_failure = false ->
   thrown (invokeWebhook p) = None)
  /\ (forall e,
        notification (hook p) = Err e ->
        logs_failure = true ->
        thrown (invokeWebhook p)
        = Some (TypeError "Cannot read properties of undefined")
        /\ inserted (invokeWebhook p) = None
        /\ dispatched (invokeWebhook p) = None).
Proof.
  split.
  - intros Ht Hl. unfold invokeWebhook.
    destruct (try_error (tryBlock p)) as [e|]; [|reflexivity].
    unfold catchBlock. now rewrite Ht, Hl.
  - intros e He Hl. unfold invokeWebhook, tryBlock. rewrite He.
    cbn. unfold catchBlock. rewrite He, Hl. now repeat split.
Qed.

(** Filters without a group are flattened without a throw. *)
Lemma no_group_flattens p :
  Terms.applies_no_group p = true ->
  match applied_filters p with
  | Some filters => forallb flattens filters
  | None => true
  end = true.
Proof.
  unfold Terms.applies_no_group.
  destruct (applied_filters p) as [filters|]; [|reflexivity].
  induction filters as [|f filters IH]; [reflexivity|].
  cbn [forallb]. intros H. apply andb_prop in H as [Hf Hrest].
  rewrite (IH Hrest), andb_true_r.
  destruct f as [[] children op cmp sub v col]; [discriminate|reflexivity].
Qed.

(** X15: what is logged once the adapter has been called.  A delivery
    that succeeds throws nothing and is logged exactly when success
    logging is on (level ALL, or no level on the enterprise edition),
    with its payload and response and no error; a delivery that fails
    is not logged when failure logging is off and, when no filter group
    is applied, is logged when failure logging is on (level ERROR or
    ALL, or the enterprise edition), with the error.  Every record
    carries the [testHook] flag, the hook id and the notification
    type. *)
Theorem invokeWebhook_logging p n d :
  notification (hook p) = Ok (Some n) ->
  dispatched (invokeWebhook p) = Some d ->
  match send n (hook p) (model p) (prevData p) d with
  | Ok (payload, response) =>
      thrown (invokeWebhook p) = None
      /\ (logs_success = false -> inserted (invokeWebhook p) = None)
      /\ (logs_success = true ->
          exists log,
            inserted (invokeWebhook p) = Some log
            /\ log_error log = None
            /\ log_payload log = Some payload
            /\ log_response log = Some response
            /\ log_type log = ntype n
            /\ fk_hook_id log = hook_id (hook p)
            /\ test_call log = testHook p)
  | Err e =>
      (logs_failure = false -> inserted (invokeWebhook p) = None)
      /\ (logs_failure = true ->
          Terms.applies_no_group p = true ->
          exists log,
            inserted (invokeWebhook p) = Some log
            /\ log_error log = Some e
            /\ log_type log = ntype n
            /\ fk_hook_id log = hook_id (hook p)
            /\ test_call log = testHook p)
  end.
Proof.
  intros Hn Hd. pose proof (tryBlock_dispatched p n d Hn Hd) as Ht.
  unfold invokeWebhook. rewrite Ht.
  destruct (send n (hook p) (model p) (prevData p) d) as [[pl rs]|e]; cbn.
  - split; [reflexivity|]. split; intros Hl; rewrite Hl; cbn;
      [reflexivity|]. eexists. now repeat split.
  - unfold catchBlock. rewrite Hn.
    split; intros Hl; rewrite Hl; cbn; [reflexivity|].
    intros Hg. rewrite (no_group_flattens p Hg). cbn.
    eexists. now repeat split.
Qed.


End DispatchMore.

(* ================================================================== *)
(** * Further properties of the lookup query builder *)
(* ================================================================== *)

Section LookupMore.
Import Js Sdk LookupSelect.
Variable getAlias : nat -> string * nat.

(** X18: a column that is neither a Lookup nor a LinkToAnotherRecord
    (a Links column included) is refused with "Invalid field type"
    before anything is built. *)
Theorem generateLookupSelectQuery_invalid_field
    column base rootAlias isAggregation n :
  uidt column <> Lookup ->
  uidt column <> LinkToAnotherRecord ->
  generateLookupSelectQuery getAlias column base rootAlias isAggregation n
  = Err (BadRequest "Invalid field type").
Proof.
  intros H1 H2.
  unfold generateLookupSelectQuery, buildSelectQb, mbind, fresh.
  destruct (getAlias n) as [alias n1].
  destruct (uidt column); try reflexivity; contradiction.
Qed.

Lemma after_draws_add k1 k2 n :
  Terms.after_draws getAlias (k1 + k2) n
  = Terms.after_draws getAlias k2 (Terms.after_draws getAlias k1 n).
Proof.
  revert n. induction k1 as [|k1 IH]; intros n; [reflexivity|].
  cbn. apply IH.
Qed.

Lemma nestedHop_grows alias prev nested relationCol relation sq flag
    n q flag' n' :
  nestedHop getAlias alias prev nested relationCol relation sq flag n
  = Ok ((q, flag'), n') ->
  let j := Terms.junctions [relationType relationCol relation] in
  Terms.Grown sq q (1 + j) j /\ n' = Terms.after_draws getAlias j n.
Proof.
  unfold nestedHop.
  pose proof (relationType_normal relationCol relation) as Hn.
  destruct (relationType relationCol relation); cbn.
  - intros H. injection H as <- _ <-. destruct sq.
    split; [|reflexivity]. constructor; cbn; try reflexivity;
      rewrite ?length_app; cbn; lia.
  - intros H. injection H as <- _ <-. destruct sq.
    split; [|reflexivity]. constructor; cbn; try reflexivity;
      rewrite ?length_app; cbn; lia.
  - unfold mbind, fresh. destruct (getAlias n) as [a n1] eqn:Ea.
    unfold getJunction. destruct (junction relation); cbn; [|discriminate].
    intros H. injection H as <- _ <-. destruct sq.
    split; [|cbn; rewrite ?Ea; reflexivity]. constructor; cbn; try reflexivity;
      rewrite ?length_app; cbn; lia.
  - contradiction.
Qed.

Lemma walk_grows alias : forall lookupColumn sq flag prev n w n',
  walk getAlias alias lookupColumn sq flag prev n = Ok (w, n') ->
  let ts := Spec.nested_hops lookupColumn in
  Terms.Grown sq (walk_selectQb w) (length ts + Terms.junctions ts)
    (Terms.junctions ts)
  /\ n' = Terms.after_draws getAlias (length ts + Terms.junctions ts) n.
Proof.
  intros lookupColumn.
  induction lookupColumn
    as [i cn u bt m o IH | | r IHr l IHl | rel d IHd | v IHv]
    using Column_mutual
    with (P0 := fun o =>
            match o with
            | LookupOptions _ l | LinkOptions _ l =>
                forall sq flag prev n w n',
                  walk getAlias alias l sq flag prev n = Ok (w, n') ->
                  let ts := Spec.nested_hops l in
                  Terms.Grown sq (walk_selectQb w)
                    (length ts + Terms.junctions ts) (Terms.junctions ts)
                  /\ n' = Terms.after_draws getAlias
                            (length ts + Terms.junctions ts) n
            | _ => True
            end);
    try exact I; try assumption.
  intros sq flag prev n w n'.
  assert (Hstop : forall c : Column,
             Spec.nested_hops c = [] ->
             ret (mkWalk sq flag prev c) n = Ok (w, n') ->
             let ts := Spec.nested_hops c in
             Terms.Grown sq (walk_selectQb w) (length ts + Terms.junctions ts)
               (Terms.junctions ts)
             /\ n' = Terms.after_draws getAlias
                       (length ts + Terms.junctions ts) n).
  { intros c Hc H. injection H as <- <-. rewrite Hc. cbn.
    split; [|reflexivity]. constructor; cbn; try reflexivity; lia. }
  destruct u; try (apply Hstop; reflexivity).
  - (* LinkToAnotherRecord *)
    cbn [walk]. unfold mbind at 1, fresh.
    destruct (getAlias n) as [a n1] eqn:Ea.
    destruct o as [| | relation next |]; try discriminate.
    unfold mbind at 1.
    destruct (nestedHop _ _ _ _ _ _ _ _ _) as [[[q flag'] n2]|e] eqn:Eh;
      [|discriminate].
    intros Hw. apply IH in Hw. apply nestedHop_grows in Eh.
    cbn zeta in *. destruct Hw as [[Hf Hs Hj Hwh] Hn'].
    destruct Eh as [[Hf0 Hs0 Hj0 Hwh0] Hn2].
    cbn [Spec.nested_hops].
    rewrite !relationType_normalized.
    set (t := relationType _ relation) in *.
    set (ts := Spec.nested_hops next) in *.
    assert (Hjs : Terms.junctions (t :: ts)
                  = Terms.junctions [t] + Terms.junctions ts)
      by (unfold Terms.junctions; cbn; destruct t; cbn; lia).
    split.
    + constructor; try congruence; rewrite ?Hj, ?Hwh, ?Hj0, ?Hwh0, Hjs;
        cbn [length]; lia.
    + rewrite Hn', Hn2, Hjs. cbn [length].
      replace (S (length ts) + (Terms.junctions [t] + Terms.junctions ts))
        with (1 + (Terms.junctions [t] + (length ts + Terms.junctions ts)))
        by lia.
      rewrite !after_draws_add. cbn [Terms.after_draws]. now rewrite Ea.
  - (* Lookup *)
    cbn [walk]. unfold mbind at 1, fresh.
    destruct (getAlias n) as [a n1] eqn:Ea.
    destruct o as [| relationCol next | |]; try discriminate.
    unfold mbind at 1, getColOptions_link.
    cbn [Spec.nested_hops]. unfold Spec.hop_of.
    destruct (colOptions relationCol) as [| | relation display |];
      try discriminate.
    cbn [ret]. unfold mbind at 1.
    destruct (nestedHop _ _ _ _ _ _ _ _ _) as [[[q flag'] n2]|e] eqn:Eh;
      [|discriminate].
    intros Hw. apply IH in Hw. apply nestedHop_grows in Eh.
    cbn zeta in *. destruct Hw as [[Hf Hs Hj Hwh] Hn'].
    destruct Eh as [[Hf0 Hs0 Hj0 Hwh0] Hn2].
    cbn [app].
    rewrite !relationType_normalized.
    set (t := relationType _ relation) in *.
    set (ts := Spec.nested_hops next) in *.
    assert (Hjs : Terms.junctions (t :: ts)
                  = Terms.junctions [t] + Terms.junctions ts)
      by (unfold Terms.junctions; cbn; destruct t; cbn; lia).
    split.
    + constructor; try congruence; rewrite ?Hj, ?Hwh, ?Hj0, ?Hwh0, Hjs;
        cbn [length]; lia.
    + rewrite Hn', Hn2, Hjs. cbn [length].
      replace (S (length ts) + (Terms.junctions [t] + Terms.junctions ts))
        with (1 + (Terms.junctions [t] + (length ts + Terms.junctions ts)))
        by lia.
      rewrite !after_draws_add. cbn [Terms.after_draws]. now rewrite Ea.
Qed.

Lemma firstHop_shape rootAlias alias relationCol relation n q flag n' :
  firstHop getAlias rootAlias alias relationCol relation n
  = Ok ((q, flag), n') ->
  let j := Terms.junctions [relationType relationCol relation] in
  (exists path, Terms.from_of q = FromTable (RawAs path alias))
  /\ Terms.selects_of q = []
  /\ length (Terms.joins_of q) = j
  /\ length (Terms.wheres_of q) = 1
  /\ n' = Terms.after_draws getAlias j n.
Proof.
  unfold firstHop.
  destruct (relationType relationCol relation); cbn.
  - intros H. injection H as <- _ <-. cbn. eauto 6.
  - intros H. injection H as <- _ <-. cbn. eauto 6.
  - unfold mbind, fresh. destruct (getAlias n) as [a n1] eqn:Ea.
    unfold getJunction. destruct (junction relation); cbn; [|discriminate].
    intros H. injection H as <- _ <-. cbn. eauto 6.
  - discriminate.
Qed.

Lemma selectTarget_shape isAggregation lookupColumn prev sq n q n' :
  selectTarget isAggregation lookupColumn prev sq n = Ok (q, n') ->
  Terms.from_of q = Terms.from_of sq
  /\ Terms.joins_of q = Terms.joins_of sq
  /\ Terms.wheres_of q = Terms.wheres_of sq
  /\ length (Terms.selects_of q) = S (length (Terms.selects_of sq))
  /\ n' = n.
Proof.
  unfold selectTarget. destruct sq as [f js ws ss].
  destruct (uidt lookupColumn); try destruct isAggregation; cbn;
    try discriminate;
    intros H; injection H as <- <-; cbn; rewrite length_app; cbn;
    repeat split; lia.
Qed.

(** The stages of a successful build: the first hop, the loop over the
    rest of the chain, and the selection of the value. *)
Lemma buildSelectQb_stages column rootAlias isAggregation n b n' :
  buildSelectQb getAlias column rootAlias isAggregation n = Ok (b, n') ->
  exists t ts q0 n1 w,
    Spec.hops column = t :: ts
    /\ Terms.junctions [t] <= 1
    /\ (let j := Terms.junctions [t] in
        (exists path,
            Terms.from_of q0 = FromTable (RawAs path (fst (getAlias n))))
        /\ Terms.selects_of q0 = []
        /\ length (Terms.joins_of q0) = j
        /\ length (Terms.wheres_of q0) = 1
        /\ n1 = Terms.after_draws getAlias j (snd (getAlias n)))
    /\ (Terms.Grown q0 (walk_selectQb w) (length ts + Terms.junctions ts)
          (Terms.junctions ts)
        /\ n' = Terms.after_draws getAlias
                  (length ts + Terms.junctions ts) n1)
    /\ selectTarget isAggregation (walk_target w) (walk_prevAlias w)
         (walk_selectQb w) n' = Ok (built_selectQb b, n').
Proof.
  unfold buildSelectQb, Spec.hops.
  unfold mbind at 1, fresh. destruct (getAlias n) as [alias n0].
  unfold mbind at 1.
  destruct (uidt column); cbn [throw]; try discriminate.
  - (* LinkToAnotherRecord *)
    cbn [ret]. unfold mbind at 1, getColOptions_link.
    destruct (colOptions column) as [| | relation display |];
      cbn [throw ret]; try discriminate.
    unfold mbind at 1.
    destruct (firstHop _ _ _ _ _ _) as [[[q0 flag0] n2]|e] eqn:E1;
      [|discriminate].
    apply firstHop_shape in E1. unfold mbind at 1.
    match goal with
    | |- match ?c with _ => _ end = _ -> _ =>
        destruct c as [[x n3]|e] eqn:E2; [|discriminate]
    end.
    apply decode_step in E2 as [-> ->]. unfold mbind at 1.
    destruct (walk _ _ _ _ _ _ _) as [[w n4]|e] eqn:E3; [|discriminate].
    apply walk_grows in E3. unfold mbind at 1.
    destruct (selectTarget _ _ _ _ _) as [[q5 n5]|e] eqn:E4; [|discriminate].
    cbn [ret]. intros H. injection H as <- <-. cbn [built_selectQb].
    pose proof (selectTarget_shape _ _ _ _ _ _ _ E4) as (_ & _ & _ & _ & ->).
    rewrite relationType_normalized.
    exists (relationType column relation),
      (Spec.nested_hops (Spec.decoded display)), q0, n2, w.
    repeat split; try apply E1; try apply E3; try assumption.
    unfold Terms.junctions. cbn.
    destruct (relationType column relation); cbn; lia.
  - (* Lookup *)
    destruct (colOptions column) as [| relationCol lookupColumn | |];
      cbn [throw ret]; try discriminate.
    unfold mbind at 1, getColOptions_link. unfold Spec.hop_of.
    destruct (colOptions relationCol) as [| | relation display |];
      cbn [throw ret]; try discriminate.
    unfold mbind at 1.
    destruct (firstHop _ _ _ _ _ _) as [[[q0 flag0] n2]|e] eqn:E1;
      [|discriminate].
    apply firstHop_shape in E1. unfold mbind at 1.
    match goal with
    | |- match ?c with _ => _ end = _ -> _ =>
        destruct c as [[x n3]|e] eqn:E2; [|discriminate]
    end.
    apply decode_step in E2 as [-> ->]. unfold mbind at 1.
    destruct (walk _ _ _ _ _ _ _) as [[w n4]|e] eqn:E3; [|discriminate].
    apply walk_grows in E3. unfold mbind at 1.
    destruct (selectTarget _ _ _ _ _) as [[q5 n5]|e] eqn:E4; [|discriminate].
    cbn [ret]. intros H. injection H as <- <-. cbn [built_selectQb app].
    pose proof (selectTarget_shape _ _ _ _ _ _ _ E4) as (_ & _ & _ & _ & ->).
    rewrite relationType_normalized.
    exists (relationType relationCol relation),
      (Spec.nested_hops (Spec.decoded lookupColumn)), q0, n2, w.
    repeat split; try apply E1; try apply E3; try assumption.
    unfold Terms.junctions. cbn.
    destruct (relationType relationCol relation); cbn; lia.
Qed.

(** X19: the subquery that is built selects from the table of the first
    hop under the first alias drawn, selects exactly one value, has one
    join for every further hop and one more for every junction table,
    and one correlation condition plus one for every junction table
    after the first hop. *)
Theorem buildSelectQb_shape column rootAlias isAggregation n b n' :
  buildSelectQb getAlias column rootAlias isAggregation n = Ok (b, n') ->
  let q := built_selectQb b in
  let ts := Spec.hops column in
  (exists path, Terms.from_of q = FromTable (RawAs path (fst (getAlias n))))
  /\ length (Terms.selects_of q) = 1
  /\ length (Terms.joins_of q) = length ts - 1 + Terms.junctions ts
  /\ length (Terms.wheres_of q) = 1 + Terms.junctions (tl ts).
Proof.
  intros Hb q ts. subst q ts.
  apply buildSelectQb_stages in Hb
    as (t & ts & q0 & n1 & w & -> & Ht & H0 & [Hg _] & Hs).
  cbn zeta in H0. destruct H0 as ([path Hf] & Hs0 & Hj0 & Hw0 & _).
  destruct Hg as [Gf Gs Gj Gw].
  apply selectTarget_shape in Hs as (Sf & Sj & Sw & Ss & _).
  assert (Hjs : Terms.junctions (t :: ts)
                = Terms.junctions [t] + Terms.junctions ts)
    by (unfold Terms.junctions; cbn; destruct t; cbn; lia).
  repeat split.
  - exists path. congruence.
  - rewrite Ss, Gs, Hs0. reflexivity.
  - rewrite Sj, Gj, Hj0, Hjs. cbn [length]. lia.
  - rewrite Sw, Gw, Hw0. cbn [tl]. lia.
Qed.

(** X20: a successful call draws one alias for every hop of the chain,
    one more for every junction table, and one more for the aggregate
    when some hop is not belongs-to. *)
Theorem generateLookupSelectQuery_aliases column base rootAlias
    isAggregation n q n' :
  generateLookupSelectQuery getAlias column base rootAlias isAggregation n
  = Ok (q, n') ->
  let ts := Spec.hops column in
  n' = Terms.after_draws getAlias
         (length ts + Terms.junctions ts
          + (if forallb Spec.is_belongs_to ts then 0 else 1)) n.
Proof.
  intros Hg ts. subst ts.
  destruct (buildSelectQb getAlias column rootAlias isAggregation n)
    as [[b n1]|e] eqn:Hb.
  2:{ unfold generateLookupSelectQuery, mbind in Hg. rewrite Hb in Hg.
      discriminate. }
  rewrite (generate_after_build getAlias _ base _ _ _ _ _ Hb) in Hg.
  pose proof (buildSelectQb_flag getAlias _ _ _ _ _ _ Hb) as Hflag.
  apply buildSelectQb_stages in Hb
    as (t & ts & q0 & n2 & w & Hh & Ht & H0 & [_ Hn1] & _).
  cbn zeta in H0. destruct H0 as (_ & _ & _ & _ & Hn2).
  rewrite Hh in *.
  assert (Hjs : Terms.junctions (t :: ts)
                = Terms.junctions [t] + Terms.junctions ts)
    by (unfold Terms.junctions; cbn; destruct t; cbn; lia).
  assert (Hbuilt : n1 = Terms.after_draws getAlias
                          (length (t :: ts) + Terms.junctions (t :: ts)) n).
  { rewrite Hn1, Hn2, Hjs. cbn [length].
    replace (S (length ts) + (Terms.junctions [t] + Terms.junctions ts))
      with (1 + (Terms.junctions [t] + (length ts + Terms.junctions ts)))
      by lia.
    rewrite !after_draws_add. reflexivity. }
  rewrite after_draws_add, <- Hbuilt.
  unfold finish in Hg. rewrite Hflag in Hg.
  destruct (forallb Spec.is_belongs_to (t :: ts)).
  - injection Hg as _ <-. reflexivity.
  - unfold mbind, fresh in Hg. cbn [Terms.after_draws].
    destruct (getAlias n1) as [a n3]. cbn [snd].
    destruct (isPg base); [injection Hg as _ <-; reflexivity|].
    destruct (isMySQL base); [injection Hg as _ <-; reflexivity|].
    destruct (isSqlite base); [injection Hg as _ <-; reflexivity|].
    discriminate.
Qed.

Lemma buildSelectQb_isAggregation column rootAlias n :
  buildSelectQb getAlias column rootAlias false n
  = match buildSelectQb getAlias column rootAlias true n with
    | Ok (b, n') =>
        match uidt (built_lookupColumn b) with
        | Attachment =>
            Err (BadRequest
                   "Group by using attachment column is not supported")
        | _ => Ok (b, n')
        end
    | Err e => Err e
    end.
Proof.
  unfold buildSelectQb, mbind, fresh.
  destruct (getAlias n) as [alias n0].
  destruct (uidt column); cbn [throw ret]; try reflexivity.
  - unfold getColOptions_link.
    destruct (colOptions column) as [| | relation display |];
      cbn [throw ret]; try reflexivity.
    destruct (firstHop _ _ _ _ _ _) as [[[q0 flag0] n2]|e]; [|reflexivity].
    match goal with
    | |- match ?c with _ => _ end = _ =>
        destruct c as [[x n3]|e]; [|reflexivity]
    end.
    destruct (walk _ _ _ _ _ _ _) as [[w n4]|e]; [|reflexivity].
    unfold selectTarget.
    destruct (uidt (walk_target w)) eqn:E; cbn; rewrite ?E; reflexivity.
  - destruct (colOptions column) as [| relationCol lookupColumn | |];
      cbn [throw ret]; try reflexivity.
    unfold getColOptions_link.
    destruct (colOptions relationCol) as [| | relation display |];
      cbn [throw ret]; try reflexivity.
    destruct (firstHop _ _ _ _ _ _) as [[[q0 flag0] n2]|e]; [|reflexivity].
    match goal with
    | |- match ?c with _ => _ end = _ =>
        destruct c as [[x n3]|e]; [|reflexivity]
    end.
    destruct (walk _ _ _ _ _ _ _) as [[w n4]|e]; [|reflexivity].
    unfold selectTarget.
    destruct (uidt (walk_target w)) eqn:E; cbn; rewrite ?E; reflexivity.
Qed.

(** X21: the [isAggregation] argument matters only when the value
    looked up is an attachment: without it the call is refused with
    "Group by using attachment column is not supported", and for every
    other value, and whenever the chain cannot be built, the call does
    what it does with the argument set. *)
Theorem isAggregation_guards_attachments column base rootAlias n :
  generateLookupSelectQuery getAlias column base rootAlias false n
  = match buildSelectQb getAlias column rootAlias true n with
    | Ok (b, _) =>
        match uidt (built_lookupColumn b) with
        | Attachment =>
            Err (BadRequest
                   "Group by using attachment column is not supported")
        | _ =>
            generateLookupSelectQuery getAlias column base rootAlias true n
        end
    | Err e => Err e
    end.
Proof.
  unfold generateLookupSelectQuery, mbind.
  rewrite buildSelectQb_isAggregation.
  destruct (buildSelectQb getAlias column rootAlias true n)
    as [[b n1]|e]; [|reflexivity].
  destruct (uidt (built_lookupColumn b)); reflexivity.
Qed.

End LookupMore.

(* ================================================================== *)
(** * The further properties on examples *)
(* ================================================================== *)

Section EvaluatorInvariantsExamples.
Import Js Sdk Webhook Example.

(** X1 on the three siblings: their verdict is a boolean. *)
Lemma validateCondition_verdict_witness :
  validateCondition three_siblings (JObj task) None = Ok (JBool true)
  /\ Terms.is_verdict (JBool true : value Z) = true
  /\ (truthy (JBool true : value Z) = true
      <-> (JBool true : value Z) = JBool true).
Proof.
  split; [reflexivity|].
  exact (validateCondition_verdict None (JObj task) three_siblings
           (JBool true) eq_refl).
Defined.

(** X2 on "not Name is z", "not Name is y", "Name is x": the two
    leading [not] siblings are ignored. *)
Lemma leading_not_is_ignored_witness :
  validateCondition (two_nots ++ [name_is None "x"]) (JObj task) None
  = validateCondition [name_is None "x"] (JObj task) None.
Proof.
  apply (leading_not_is_ignored None (JObj task) two_nots
           [name_is None "x"]).
  - discriminate.
  - constructor; [split; [reflexivity | eexists; reflexivity]|].
    constructor; [split; [reflexivity | eexists; reflexivity]|].
    constructor.
Defined.

(** X3 on a group whose second leaf is "Due is some days ago" with no
    number of days. *)
Lemma early_exit_stays_in_group_witness :
  filterRes None (JObj task) group_with_days_ago = Normal undefined.
Proof.
  apply (early_exit_stays_in_group None (JObj task) [name_is None "x"]
           (days_ago (Some op_and) cmp_eq) [name_is (Some op_and) "x"]
           (Some op_and) None None null textColumn undefined).
  - reflexivity.
  - constructor; [|constructor]. intros e. discriminate.
Defined.

(** X4 on the three siblings, under Postgres and MySQL. *)
Lemma validateCondition_dialect_independent_witness :
  validateCondition three_siblings (JObj task) (Some "pg")
  = validateCondition three_siblings (JObj task) (Some "mysql2").
Proof.
  apply validateCondition_dialect_independent. reflexivity.
Defined.



(** X7 on "Name is one of" with no list, and with a list on a task
    whose name is a number. *)
Lemma list_tests_witness :
  filterRes None (JObj task)
    (Terms.with_comparison_op cmp_anyof (name_in undefined))
  = Normal (JBool false)
  /\ filterRes None (JObj numbered_task)
       (Terms.with_comparison_op cmp_anyof (name_in (JStr "a,b")))
     = Throw (TypeError "split is not a function").
Proof.
  split.
  - exact (proj1 (proj2 (proj1 (list_tests None task (name_in undefined)
                                  eq_refl eq_refl eq_refl) eq_refl))).
  - refine (proj1 (proj2 (proj2 (list_tests None numbered_task
                                   (name_in (JStr "a,b"))
                                   eq_refl eq_refl eq_refl)
                            "a,b"%string eq_refl eq_refl _))).
    intros t. discriminate.
Defined.

End EvaluatorInvariantsExamples.

Section EnvelopeMoreExamples.
Import Js Webhook Example.

(** X9 on a v1 hook: the record goes out as it is. *)
Lemma constructWebHookData_legacy_witness :
  constructWebHookData legacy_hook tasks null (JObj task) 7%nat
  = (JObj task, 7%nat).
Proof.
  apply (@constructWebHookData_legacy Z runtime counter legacy_hook tasks
           null (JObj task) 7%nat).
  discriminate.
Defined.

(** X10 on the gated v2 hook and one updated record: [rows] is an array
    of that record, and there is no [rows_inserted]. *)
Lemma constructWebHookData_v2_witness :
  exists data,
    constructWebHookData gated_hook tasks (JObj task) (JObj task) 7%nat
    = (JObj [("type", JStr "records.after.update");
             ("id", JStr "uuid-7");
             ("data", JObj data)], 8%nat)
    /\ lookup "rows" data = Some (JArr [JObj task])
    /\ lookup "rows_inserted" data = None.
Proof.
  destruct (@constructWebHookData_v2 Z runtime counter gated_hook tasks
              (JObj task) (JObj task) 7%nat eq_refl)
    as (data & H & _ & Hrows & Hins & _).
  exists data. split; [exact H | split; [exact Hrows | exact Hins]].
Defined.

End EnvelopeMoreExamples.

Section DispatchMoreExamples.
Import Js Webhook Example.

(** X11 on the update that leaves the name x. *)
Lemma invokeWebhook_skip_is_silent_witness :
  invokeWebhook still_x = mkInvocation None None None.
Proof.
  apply (invokeWebhook_skip_is_silent still_x
           (Some (mkNotification "URL" (JObj [])))).
  - reflexivity.
  - right. reflexivity.
Defined.

(** X12 on five rows inserted on a hook without condition. *)
Lemma invokeWebhook_without_condition_witness :
  dispatched (invokeWebhook five_inserted) = Some (JArr five_rows).
Proof.
  apply (invokeWebhook_without_condition five_inserted
           (mkNotification "URL" (JObj []))).
  - reflexivity.
  - left. reflexivity.
  - right. reflexivity.
Defined.

(** X13 on two updated tasks named x and y: the one named x is
    delivered. *)
Lemma invokeWebhook_bulk_filter_witness :
  dispatched (invokeWebhook two_updated)
  = Some (JArr [JObj [("Name", JStr "x")]]).
Proof.
  refine (proj1 (invokeWebhook_bulk_filter two_updated
                   (mkNotification "URL" (JObj []))
                   [JObj [("Name", JStr "x")]; JObj [("Name", JStr "y")]]
                   eq_refl eq_refl eq_refl eq_refl eq_refl) _).
  constructor; [intros e; discriminate|].
  constructor; [intros e; discriminate|].
  constructor.
Defined.

(** X14 on the renaming where nothing is logged and the adapter fails,
    and on a hook whose notification cannot be parsed. *)
Lemma invokeWebhook_thrown_witness :
  thrown (@invokeWebhook Z runtime calendar quiet rename_to_x) = None
  /\ thrown (invokeWebhook broken_update)
     = Some (TypeError "Cannot read properties of undefined").
Proof.
  split.
  - exact (proj1 (@invokeWebhook_thrown Z runtime calendar quiet
                    rename_to_x) eq_refl eq_refl).
  - exact (proj1 (proj2 (invokeWebhook_thrown broken_update)
                    (TypeError "Unexpected token") eq_refl eq_refl)).
Defined.

(** X15 on the renaming, which is delivered and logged. *)
Lemma invokeWebhook_logging_witness :
  thrown (invokeWebhook rename_to_x) = None
  /\ exists log,
       inserted (invokeWebhook rename_to_x) = Some log
       /\ log_error log = None
       /\ log_payload log = Some "{}"%string
       /\ test_call log = false.
Proof.
  pose proof (invokeWebhook_logging rename_to_x
                (mkNotification "URL" (JObj [])) (newData rename_to_x)
                eq_refl eq_refl) as H.
  hnf in H. destruct H as (Ht & _ & Hl).
  split; [exact Ht|].
  destruct (Hl eq_refl) as (log & Hi & He & Hp & _ & _ & _ & Hc).
  exists log. repeat split; assumption.
Defined.


End DispatchMoreExamples.

Section LookupMoreExamples.
Import Js Sdk LookupSelect Example.

(** X18 on a plain text column. *)
Lemma generateLookupSelectQuery_invalid_field_witness :
  generateLookupSelectQuery lk_slt customer_name postgres "" false 0
  = Err (BadRequest "Invalid field type").
Proof.
  apply generateLookupSelectQuery_invalid_field; discriminate.
Defined.

(** X19 on the titles of the courses of a student: one many-to-many
    hop, so one join (the junction table) and one condition. *)
Lemma buildSelectQb_shape_witness :
  exists b,
    buildSelectQb lk_slt student_course_titles "" false 0 = Ok (b, 2)
    /\ length (Terms.selects_of (built_selectQb b)) = 1
    /\ length (Terms.joins_of (built_selectQb b)) = 1
    /\ length (Terms.wheres_of (built_selectQb b)) = 1.
Proof.
  eexists. split; [lazy; reflexivity|].
  exact (proj2 (buildSelectQb_shape lk_slt student_course_titles ""
                  false 0 _ 2 eq_refl)).
Defined.

(** X20 on the same column: an alias for the hop, one for the junction
    table and one for the aggregate. *)
Lemma generateLookupSelectQuery_aliases_witness :
  exists q,
    generateLookupSelectQuery lk_slt student_course_titles postgres ""
      false 0 = Ok (q, 3).
Proof.
  destruct (generateLookupSelectQuery lk_slt student_course_titles postgres
              "" false 0) as [[q n']|e] eqn:E; [|discriminate].
  exists q.
  rewrite (generateLookupSelectQuery_aliases lk_slt student_course_titles
             postgres "" false 0 q n' E).
  reflexivity.
Defined.

End LookupMoreExamples.

Section AttachmentExample.
Import Js Sdk LookupSelect Example.

(** X21 on the syllabuses of the courses of a student: refused without
    [isAggregation]. *)
Lemma isAggregation_guards_attachments_example :
  generateLookupSelectQuery lk_slt student_syllabuses postgres "" false 0
  = Err (BadRequest "Group by using attachment column is not supported")
  /\ exists q,
       generateLookupSelectQuery lk_slt student_syllabuses postgres "" true 0
       = Ok (q, 3).
Proof.
  split.
  - rewrite isAggregation_guards_attachments. reflexivity.
  - eexists. lazy. reflexivity.
Defined.

End AttachmentExample.

(* ================================================================== *)
(** * Properties of the flattening of filter trees *)
(* ================================================================== *)

Section FlattenProperties.
Import Js Webhook Webhook.Flatten.
Context {U : Uuid} {A : Type}.

(** An induction principle that reaches the children of a filter. *)
Lemma Flatten_tree_ind (P : Filter A -> Prop) :
  (forall i p g cs x,
      Forall P (match cs with Some l => l | None => [] end) ->
      P (mkFilter i p g cs x)) ->
  forall f, P f.
Proof.
  intros step. fix IH 1. intros [i p g cs x].
  apply step. destruct cs as [l|]; [|constructor].
  revert l. fix IHl 1. intros [|c l].
  - constructor.
  - constructor; [apply IH | apply IHl].
Qed.

Lemma after_uuids_add k1 k2 (st : uuid_source) :
  Terms.after_uuids (k1 + k2) st
  = Terms.after_uuids k2 (Terms.after_uuids k1 st).
Proof.
  revert st. induction k1 as [|k1 IH]; intros st; [reflexivity|].
  cbn. apply IH.
Qed.

Lemma forOf_nodes (cs : list (Filter A)) :
  Forall (fun c : Filter A => forall p st f' out st',
            visit p c st = Ok ((f', out), st') ->
            out = Terms.nodes f'
            /\ Forall2 Terms.kept (Terms.nodes c) (Terms.nodes f')
            /\ st' = Terms.after_uuids
                       (length (filter Terms.unnamed_group (Terms.nodes c)))
                       st) cs ->
  forall p st cs' out st',
    forOf (visit p) cs st = Ok ((cs', out), st') ->
    out = flat_map Terms.nodes cs'
    /\ Forall2 Terms.kept (flat_map Terms.nodes cs) (flat_map Terms.nodes cs')
    /\ st' = Terms.after_uuids
               (length (filter Terms.unnamed_group
                          (flat_map Terms.nodes cs))) st.
Proof.
  induction 1 as [|c cs Hc _ IH]; intros p st cs' out st'; cbn [forOf].
  - intros H. injection H as <- <- <-. repeat split. constructor.
  - destruct (visit p c st) as [[[c' o1] st1]|e] eqn:E1; [|discriminate].
    destruct (forOf (visit p) cs st1) as [[[cs1 o2] st2]|e] eqn:E2;
      [|discriminate].
    intros H. injection H as <- <- <-.
    apply Hc in E1 as (-> & Hk1 & ->).
    apply IH in E2 as (-> & Hk2 & ->).
    cbn [flat_map]. repeat split.
    + now apply Forall2_app.
    + rewrite filter_app, length_app, after_uuids_add. reflexivity.
Qed.

Lemma visit_nodes (f : Filter A) : forall p st f' out st',
  visit p f st = Ok ((f', out), st') ->
  out = Terms.nodes f'
  /\ Forall2 Terms.kept (Terms.nodes f) (Terms.nodes f')
  /\ st' = Terms.after_uuids
             (length (filter Terms.unnamed_group (Terms.nodes f))) st.
Proof.
  induction f as [i fk g cs x IH] using Flatten_tree_ind.
  intros p st f' out st'. cbn [visit].
  destruct g.
  - destruct (negb (truthy_id i)) eqn:Ei.
    + destruct (uuidv4 st) as [u st1] eqn:Eu.
      destruct cs as [cs|]; [|discriminate].
      destruct (forOf (visit (Some u)) cs st1) as [[[cs' o] st2]|e] eqn:E;
        [|discriminate].
      intros H. injection H as <- <- <-.
      apply (forOf_nodes _ IH) in E as (-> & Hk & ->).
      cbn [Terms.nodes]. repeat split.
      * constructor; [|exact Hk].
        unfold Terms.kept, Terms.unnamed_group. cbn. rewrite Ei. cbn.
        repeat split; try discriminate.
        intros Hfk. now rewrite Hfk, andb_false_r.
      * cbn [filter]. unfold Terms.unnamed_group at 1. cbn. rewrite Ei.
        cbn. now rewrite Eu.
    + destruct cs as [cs|]; [|discriminate].
      destruct (forOf (visit i) cs st) as [[[cs' o] st2]|e] eqn:E;
        [|discriminate].
      intros H. injection H as <- <- <-.
      apply (forOf_nodes _ IH) in E as (-> & Hk & ->).
      cbn [Terms.nodes]. repeat split.
      * constructor; [|exact Hk].
        unfold Terms.kept. cbn. repeat split.
        intros Hfk. now rewrite Hfk, andb_false_r.
      * cbn [filter]. unfold Terms.unnamed_group at 1. cbn. rewrite Ei.
        reflexivity.
  - intros H. injection H as <- <- <-. cbn. repeat split.
    constructor; [|constructor]. unfold Terms.kept. cbn. repeat split.
    intros Hfk. now rewrite Hfk, andb_false_r.
Qed.


(** X22: the array returned is the one given followed by every filter
    of the tree, each group before its children and siblings in their
    order; the filters keep their other fields, their [is_group], an
    [fk_parent_id] that was set and their [id] unless they are groups
    without one; and one identifier is drawn for each such group. *)
Theorem flattenFilter_preorder (filters : list (Filter A))
    flattenedFilters parentId st filters' out st' :
  flattenFilter filters flattenedFilters parentId st
  = Ok ((filters', out), st') ->
  out = (flattenedFilters ++ flat_map Terms.nodes filters')%list
  /\ Forall2 Terms.kept (flat_map Terms.nodes filters)
       (flat_map Terms.nodes filters')
  /\ st' = Terms.after_uuids
             (length (filter Terms.unnamed_group
                        (flat_map Terms.nodes filters))) st.
Proof.
  unfold flattenFilter.
  destruct (forOf (visit parentId) filters st) as [[[fs o] st1]|e] eqn:E;
    [|discriminate].
  intros H. injection H as <- <- <-.
  apply forOf_nodes in E as (-> & Hk & ->); [now repeat split|].
  apply Forall_forall. intros f _. apply visit_nodes.
Qed.

Lemma forOf_loaded (cs : list (Filter A)) :
  Forall (fun c => forall p st,
            if Terms.loaded c
            then exists r st', visit p c st = Ok (r, st')
            else visit p c st
                 = Err (TypeError "filter.children is not iterable")) cs ->
  forall p st,
    if forallb Terms.loaded cs
    then exists r st', forOf (visit p) cs st = Ok (r, st')
    else forOf (visit p) cs st
         = Err (TypeError "filter.children is not iterable").
Proof.
  induction 1 as [|c cs Hc _ IH]; intros p st; cbn [forallb forOf].
  - eauto.
  - specialize (Hc p st). destruct (Terms.loaded c); cbn [andb].
    + destruct Hc as ([c' o] & st1 & ->). specialize (IH p st1).
      destruct (forallb Terms.loaded cs).
      * destruct IH as ([cs' o'] & st2 & ->). eauto.
      * now rewrite IH.
    + now rewrite Hc.
Qed.

Lemma visit_loaded (f : Filter A) : forall p st,
  if Terms.loaded f
  then exists r st', visit p f st = Ok (r, st')
  else visit p f st = Err (TypeError "filter.children is not iterable").
Proof.
  induction f as [i fk g cs x IH] using Flatten_tree_ind.
  intros p st. cbn [visit Terms.loaded].
  destruct g; [|eauto].
  destruct cs as [cs|].
  - destruct (negb (truthy_id i)); [destruct (uuidv4 st) as [u st1]|];
      match goal with
      | |- context [forOf (visit ?q) cs ?s] =>
          pose proof (forOf_loaded cs IH q s) as H
      end;
      (destruct (forallb Terms.loaded cs);
       [destruct H as ([cs' o] & st2 & ->); eauto | now rewrite H]).
  - destruct (negb (truthy_id i)); [destruct (uuidv4 st)|]; reflexivity.
Qed.

(** X25: the call returns when every group of the tree carries its
    children, and throws a TypeError when some group does not. *)
Theorem flattenFilter_throws (filters : list (Filter A)) flattenedFilters
    parentId st :
  if forallb Terms.loaded filters
  then exists r st',
         flattenFilter filters flattenedFilters parentId st = Ok (r, st')
  else flattenFilter filters flattenedFilters parentId st
       = Err (TypeError "filter.children is not iterable").
Proof.
  unfold flattenFilter.
  assert (H : Forall (fun c => forall p st,
            if Terms.loaded c
            then exists r st', visit p c st = Ok (r, st')
            else visit p c st
                 = Err (TypeError "filter.children is not iterable"))
            filters)
    by (apply Forall_forall; intros f _; apply visit_loaded).
  pose proof (forOf_loaded filters H parentId st) as Hl.
  destruct (forallb Terms.loaded filters).
  - destruct Hl as ([fs o] & st1 & ->). eauto.
  - now rewrite Hl.
Qed.

(** The identifiers drawn are not empty. *)
Hypothesis uuid_not_empty : forall st, fst (uuidv4 st) <> "".

Lemma visit_fk_parent_id p (f : Filter A) st f' out st' :
  visit p f st = Ok ((f', out), st') ->
  fk_parent_id f'
  = if truthy_id p && negb (truthy_id (fk_parent_id f))
    then p else fk_parent_id f.
Proof.
  destruct f as [i fk g cs x]. cbn [visit].
  destruct g.
  - destruct (negb (truthy_id i)); [destruct (uuidv4 st) as [u st1]|];
      (destruct cs as [cs|]; [|discriminate]);
      match goal with
      | |- match ?c with _ => _ end = _ -> _ =>
          destruct c as [[[cs' o] st2]|e]; [|discriminate]
      end; intros H; injection H as <- <- <-; reflexivity.
  - intros H. injection H as <- <- <-. reflexivity.
Qed.

Lemma forOf_linked cs :
  Forall (fun c : Filter A => forall p st f' out st',
            visit p c st = Ok ((f', out), st') ->
            Forall2 Terms.linked (Terms.nodes c) (Terms.nodes f')) cs ->
  forall p st cs' out st',
    forOf (visit p) cs st = Ok ((cs', out), st') ->
    Forall2 Terms.linked (flat_map Terms.nodes cs) (flat_map Terms.nodes cs')
    /\ Forall2 (fun c c' =>
                  fk_parent_id c'
                  = if truthy_id p && negb (truthy_id (fk_parent_id c))
                    then p else fk_parent_id c) cs cs'.
Proof.
  induction 1 as [|c cs Hc _ IH]; intros p st cs' out st'; cbn [forOf].
  - intros H. injection H as <- <- <-. split; constructor.
  - destruct (visit p c st) as [[[c' o1] st1]|e] eqn:E1; [|discriminate].
    destruct (forOf (visit p) cs st1) as [[[cs1 o2] st2]|e] eqn:E2;
      [|discriminate].
    intros H. injection H as <- <- <-.
    pose proof (visit_fk_parent_id _ _ _ _ _ _ E1) as Hfk.
    apply Hc in E1. apply IH in E2 as [H1 H2].
    cbn [flat_map]. split; [now apply Forall2_app | now constructor].
Qed.

Lemma adopted_children (i : option string) fk (cs' : list (Filter A))
    x cs :
  truthy_id i = true ->
  Forall2 (fun c c' =>
             fk_parent_id c'
             = if truthy_id i && negb (truthy_id (fk_parent_id c))
               then i else fk_parent_id c) cs cs' ->
  Forall2 (Terms.adopted (mkFilter i fk true (Some cs') x)) cs cs'.
Proof.
  intros Hi H. induction H as [|c c' cs cs' Hc _ IH]; constructor; [|exact IH].
  unfold Terms.adopted. cbn [id]. rewrite Hc, Hi. cbn.
  now destruct (truthy_id (fk_parent_id c)).
Qed.

Lemma visit_linked (f : Filter A) : forall p st f' out st',
  visit p f st = Ok ((f', out), st') ->
  Forall2 Terms.linked (Terms.nodes f) (Terms.nodes f').
Proof.
  induction f as [i fk g cs x IH] using Flatten_tree_ind.
  intros p st f' out st'. cbn [visit].
  destruct g.
  - destruct (negb (truthy_id i)) eqn:Ei.
    + destruct (uuidv4 st) as [u st1] eqn:Eu.
      destruct cs as [cs|]; [|discriminate].
      destruct (forOf (visit (Some u)) cs st1) as [[[cs' o] st2]|e] eqn:E;
        [|discriminate].
      intros H. injection H as <- <- <-.
      apply (forOf_linked _ IH) in E as [Hl Hfk].
      assert (Hu : truthy_id (Some u) = true).
      { cbn. pose proof (uuid_not_empty st) as Hne. rewrite Eu in Hne.
        cbn in Hne. now apply String.eqb_neq in Hne as ->. }
      cbn [Terms.nodes]. constructor; [|exact Hl].
      intros _. cbn [id]. split; [exact Hu|].
      unfold Terms.children_of. cbn [children].
      now apply adopted_children.
    + destruct cs as [cs|]; [|discriminate].
      destruct (forOf (visit i) cs st) as [[[cs' o] st2]|e] eqn:E;
        [|discriminate].
      intros H. injection H as <- <- <-.
      apply (forOf_linked _ IH) in E as [Hl Hfk].
      apply negb_false_iff in Ei.
      cbn [Terms.nodes]. constructor; [|exact Hl].
      intros _. cbn [id]. split; [exact Ei|].
      unfold Terms.children_of. cbn [children].
      now apply adopted_children.
  - intros H. injection H as <- <- <-. cbn.
    constructor; [|constructor]. intros Hg. discriminate.
Qed.

(** X23: when it returns, every group has an id, and every child of a
    group has a parent id: its own when it came with one, the id of its
    group otherwise.  The filters at the top are given [parentId] in
    the same way when it is set. *)
Theorem flattenFilter_links (filters : list (Filter A))
    flattenedFilters parentId st filters' out st' :
  flattenFilter filters flattenedFilters parentId st
  = Ok ((filters', out), st') ->
  Forall2 Terms.linked (flat_map Terms.nodes filters)
    (flat_map Terms.nodes filters')
  /\ Forall2 (fun f f' =>
                fk_parent_id f'
                = if truthy_id parentId
                     && negb (truthy_id (fk_parent_id f))
                  then parentId else fk_parent_id f) filters filters'.
Proof.
  unfold flattenFilter.
  destruct (forOf (visit parentId) filters st) as [[[fs o] st1]|e] eqn:E;
    [|discriminate].
  intros H. injection H as <- <- <-.
  apply forOf_linked in E; [exact E|].
  apply Forall_forall. intros f _. apply visit_linked.
Qed.

Lemma forOf_again (cs : list (Filter A)) :
  Forall (fun c : Filter A => forall p st f' out st',
            visit p c st = Ok ((f', out), st') ->
            forall st2, visit p f' st2 = Ok ((f', out), st2)) cs ->
  forall p st cs' out st',
    forOf (visit p) cs st = Ok ((cs', out), st') ->
    forall st2, forOf (visit p) cs' st2 = Ok ((cs', out), st2).
Proof.
  induction 1 as [|c cs Hc _ IH]; intros p st cs' out st'; cbn [forOf].
  - intros H. injection H as <- <- <-. reflexivity.
  - destruct (visit p c st) as [[[c' o1] st1]|e] eqn:E1; [|discriminate].
    destruct (forOf (visit p) cs st1) as [[[cs1 o2] st2]|e] eqn:E2;
      [|discriminate].
    intros H. injection H as <- <- <-. intros st3.
    cbn [forOf]. rewrite (Hc _ _ _ _ _ E1 st3), (IH _ _ _ _ _ E2 st3).
    reflexivity.
Qed.

Lemma settled_fk (p fk : option string) :
  let fk' := if truthy_id p && negb (truthy_id fk) then p else fk in
  (if truthy_id p && negb (truthy_id fk') then p else fk') = fk'.
Proof.
  destruct (truthy_id p) eqn:Hp, (truthy_id fk) eqn:Hfk; cbn;
    rewrite ?Hp, ?Hfk; reflexivity.
Qed.

Lemma visit_again (f : Filter A) : forall p st f' out st',
  visit p f st = Ok ((f', out), st') ->
  forall st2, visit p f' st2 = Ok ((f', out), st2).
Proof.
  induction f as [i fk g cs x IH] using Flatten_tree_ind.
  intros p st f' out st'. cbn [visit].
  pose proof (settled_fk p fk) as Hs. cbn zeta in Hs.
  destruct g.
  - destruct (negb (truthy_id i)) eqn:Ei.
    + destruct (uuidv4 st) as [u st1] eqn:Eu.
      destruct cs as [cs|]; [|discriminate].
      destruct (forOf (visit (Some u)) cs st1) as [[[cs' o] st2]|e] eqn:E;
        [|discriminate].
      intros H. injection H as <- <- <-. intros st3.
      assert (Hu : truthy_id (Some u) = true).
      { cbn. pose proof (uuid_not_empty st) as Hne. rewrite Eu in Hne.
        cbn in Hne. now apply String.eqb_neq in Hne as ->. }
      cbn [visit]. rewrite Hs, Hu. cbn [negb].
      now rewrite (forOf_again _ IH _ _ _ _ _ E st3).
    + destruct cs as [cs|]; [|discriminate].
      destruct (forOf (visit i) cs st) as [[[cs' o] st2]|e] eqn:E;
        [|discriminate].
      intros H. injection H as <- <- <-. intros st3.
      cbn [visit]. rewrite Hs, Ei.
      now rewrite (forOf_again _ IH _ _ _ _ _ E st3).
  - intros H. injection H as <- <- <-. intros st3.
    cbn [visit]. now rewrite Hs.
Qed.

(** X24: flattening again changes nothing: on the filters as a first
    call leaves them, a second call returns the same array, leaves the
    filters as they are and draws no identifier. *)
Theorem flattenFilter_again (filters : list (Filter A)) parentId st
    filters' out st' :
  flattenFilter filters [] parentId st = Ok ((filters', out), st') ->
  forall st2,
    flattenFilter filters' [] parentId st2 = Ok ((filters', out), st2).
Proof.
  unfold flattenFilter.
  destruct (forOf (visit parentId) filters st) as [[[fs o] st1]|e] eqn:E;
    [|discriminate].
  intros H. injection H as <- <- <-. intros st2.
  erewrite forOf_again; [reflexivity| |exact E].
  apply Forall_forall. intros f _. apply visit_again.
Qed.

End FlattenProperties.

Section FlattenExamples.
Import Js Webhook Webhook.Flatten Example.

(** X22 on the example tree: five filters, and one identifier drawn. *)
Lemma flattenFilter_preorder_witness :
  exists filters' out,
    flattenFilter filter_tree [] None 0%nat = Ok ((filters', out), 1%nat)
    /\ map fields out = ["f1"; "g1"; "f2"; "g2"; "f3"]
    /\ out = flat_map Terms.nodes filters'
    /\ Forall2 Terms.kept (flat_map Terms.nodes filter_tree)
         (flat_map Terms.nodes filters').
Proof.
  eexists. eexists. split; [lazy; reflexivity|].
  split; [reflexivity|].
  pose proof (@flattenFilter_preorder counter string filter_tree [] None
                0%nat _ _ 1%nat eq_refl) as (H1 & H2 & _).
  split; [exact H1 | exact H2].
Defined.

(** X23 on the example tree. *)
Lemma flattenFilter_links_witness :
  exists filters' out,
    flattenFilter filter_tree [] None 0%nat = Ok ((filters', out), 1%nat)
    /\ map id out
       = [Some "f1"; Some "uuid-0"; Some "f2"; Some "g2"; Some "f3"]
    /\ map fk_parent_id out
       = [None; None; Some "uuid-0"; Some "uuid-0"; Some "g2"]
    /\ Forall2 Terms.linked (flat_map Terms.nodes filter_tree)
         (flat_map Terms.nodes filters').
Proof.
  eexists. eexists. split; [lazy; reflexivity|].
  split; [reflexivity|]. split; [reflexivity|].
  refine (proj1 (@flattenFilter_links counter string _ filter_tree [] None
                   0%nat _ _ 1%nat eq_refl)).
  intros st. discriminate.
Defined.

(** X24 on the example tree. *)
Lemma flattenFilter_again_witness :
  exists filters' out,
    flattenFilter filter_tree [] None 0%nat = Ok ((filters', out), 1%nat)
    /\ flattenFilter filters' [] None 1%nat = Ok ((filters', out), 1%nat).
Proof.
  eexists. eexists. split; [lazy; reflexivity|].
  refine (@flattenFilter_again counter string _ filter_tree None 0%nat
            _ _ 1%nat eq_refl 1%nat).
  intros st. discriminate.
Defined.

(** X25 on a group whose children have not been loaded. *)
Lemma flattenFilter_throws_witness :
  flattenFilter unloaded_tree [] None 0%nat
  = Err (TypeError "filter.children is not iterable").
Proof.
  exact (@flattenFilter_throws counter string unloaded_tree [] None 0%nat).
Defined.

End FlattenExamples.

(* ================================================================== *)
(** * Properties of the HTTP request of a webhook *)
(* ================================================================== *)

Section RequestProperties.
Import Js Webhook.
Context {number : Type} {RT : Runtime number} {HB : Handlebars number}
        {U : Uuid} {H : Http number}.
Variable NC_ALLOW_LOCAL_HOOKS : option string.

Lemma lookup_app_last k (obj : list (string * value number)) k' v :
  lookup k (obj ++ [(k', v)]) = if k' =? k then Some v else lookup k obj.
Proof.
  induction obj as [|[k0 v0] obj IH]; cbn [app lookup].
  - reflexivity.
  - rewrite IH. now destruct (k' =? k).
Qed.

Lemma find_app_last {X} (f : X -> bool) l e :
  find f (l ++ [e])
  = match find f l with
    | Some x => Some x
    | None => if f e then Some e else None
    end.
Proof.
  induction l as [|x l IHl]; cbn [app find]; [reflexivity|].
  destruct (f x); [reflexivity | exact IHl].
Qed.

Lemma rendered_returns template (webhookData : value number) :
  exists v, rendered template webhookData = Ok v.
Proof.
  destruct template as [t|]; cbn; [|eauto].
  unfold parseBody. destruct (t =? ""); cbn; [eauto|].
  destruct (compile_and_render _ _); cbn; eauto.
Qed.

(** The object after the reduction: a key is set by the last entry that
    sets it, and left as it was when there is none. *)
Lemma reduce_lookup (webhookData : value number) entries :
  forall obj obj',
    reduce webhookData entries obj = Ok obj' ->
    forall k,
      lookup k obj'
      = match find (Terms.sets k) (rev entries) with
        | Some _ => Terms.entry_for webhookData entries k
        | None => lookup k obj
        end.
Proof.
  unfold Terms.entry_for.
  induction entries as [|e entries IH]; intros obj obj'; cbn [reduce].
  - intros Hr. injection Hr as <-. reflexivity.
  - intros Hr k. cbn [rev].
    rewrite find_app_last.
    assert (Hsets : Terms.sets k e
                    = match entry_name e with
                      | Some name =>
                          (name =? k)
                          && (negb (name =? "") && entry_enabled e)
                      | None => false
                      end).
    { unfold Terms.sets. destruct (entry_name e); [|reflexivity].
      now rewrite andb_assoc. }
    destruct (entry_name e) as [name|] eqn:En.
    + destruct (negb (name =? "") && entry_enabled e) eqn:Eset.
      * destruct (rendered_returns (entry_value e) webhookData) as [v Hv].
        rewrite Hv in Hr. cbn [bind] in Hr.
        rewrite (IH _ _ Hr k), lookup_app_last.
        destruct (find (Terms.sets k) (rev entries)); [reflexivity|].
        rewrite Hsets, andb_true_r.
        destruct (name =? k); [now rewrite Hv | reflexivity].
      * cbn [bind] in Hr. rewrite (IH _ _ Hr k).
        destruct (find (Terms.sets k) (rev entries)); [reflexivity|].
        now rewrite Hsets, andb_false_r.
    + cbn [bind] in Hr. rewrite (IH _ _ Hr k).
      destruct (find (Terms.sets k) (rev entries)); [reflexivity|].
      now rewrite Hsets.
Qed.


(** What a successful call puts into the request. *)
Lemma populateAxiosReq_parts apiMeta hook model prevData newData st req st' :
  populateAxiosReq NC_ALLOW_LOCAL_HOOKS (Some apiMeta) hook model prevData
    newData st = Ok (req, st') ->
  let webhookData :=
    fst (constructWebHookData hook model prevData newData st) in
  reduce webhookData (headers_with_default (api_headers apiMeta)) []
  = Ok (req_headers req)
  /\ match api_parameters apiMeta with
     | Some parameters => reduce webhookData parameters []
     | None => Ok []
     end = Ok (req_params req).
Proof.
  unfold populateAxiosReq.
  destruct (constructWebHookData hook model prevData newData st)
    as [webhookData st1].
  cbn [fst].
  destruct (templated (api_body apiMeta) webhookData) as [body|e];
    [|discriminate].
  cbn [bind].
  destruct (templated (api_auth apiMeta) webhookData) as [auth|e];
    [|discriminate].
  cbn [bind].
  destruct (rendered (api_path apiMeta) webhookData) as [url|e];
    [|discriminate].
  cbn [bind].
  match goal with
  | |- bind ?c _ = _ -> _ => destruct c as [params|e]; [|discriminate]
  end.
  cbn [bind].
  destruct (reduce webhookData _ []) as [headers|e]; [|discriminate].
  cbn [bind].
  match goal with
  | |- bind ?c _ = _ -> _ => destruct c as [agents|e]; [|discriminate]
  end.
  cbn [bind]. intros Hr. injection Hr as <- _. now split.
Qed.


Lemma content_type_entry (headers : option (list Entry)) :
  toLowerCase "Content-Type" = "content-type" ->
  exists entry,
    In entry (headers_with_default headers)
    /\ is_content_type entry = true.
Proof.
  intros Hlower.
  assert (Hpushed : is_content_type
                      (mkEntry (Some "Content-Type") true
                         (Some "application/json")) = true)
    by (unfold is_content_type; cbn; now rewrite Hlower).
  unfold headers_with_default. destruct headers as [hs|].
  - destruct (existsb is_content_type hs) eqn:E.
    + apply existsb_exists in E as (entry & Hin & He). eauto.
    + eexists. split; [apply in_or_app; right; left; reflexivity|].
      exact Hpushed.
  - eexists. split; [left; reflexivity | exact Hpushed].
Qed.

(** X27: the request always has a content type.  Some header of the
    request is named content-type, whatever the case of the letters;
    and when no enabled header of [apiMeta] is, the header Content-Type
    is what the template application/json renders to. *)
Theorem populateAxiosReq_content_type apiMeta hook model prevData newData
    st req st' :
  toLowerCase "Content-Type" = "content-type" ->
  toLowerCase "" = "" ->
  populateAxiosReq NC_ALLOW_LOCAL_HOOKS (Some apiMeta) hook model prevData
    newData st = Ok (req, st') ->
  (exists name v,
      toLowerCase name = "content-type"
      /\ lookup name (req_headers req) = Some v)
  /\ (match api_headers apiMeta with
      | Some headers => existsb is_content_type headers = false
      | None => True
      end ->
      exists v,
        rendered (Some "application/json")
          (fst (constructWebHookData hook model prevData newData st))
        = Ok v
        /\ lookup "Content-Type" (req_headers req) = Some v).
Proof.
  intros Hlower Hempty Hr.
  apply populateAxiosReq_parts in Hr as [Hh _]. cbn zeta in Hh.
  split.
  2:{ intros Hnone.
      destruct (rendered_returns (Some "application/json")
                  (fst (constructWebHookData hook model prevData newData st)))
        as [v Hv].
      exists v. split; [exact Hv|].
      rewrite (reduce_lookup _ _ _ _ Hh "Content-Type").
      unfold Terms.entry_for, headers_with_default.
      destruct (api_headers apiMeta) as [hs|].
      - rewrite Hnone, rev_app_distr. cbn. cbn in Hv. now rewrite Hv.
      - cbn. cbn in Hv. now rewrite Hv. }
  destruct (content_type_entry (api_headers apiMeta) Hlower)
    as (entry & Hin & Hct).
  unfold is_content_type in Hct.
  destruct (entry_name entry) as [name|] eqn:En; [|discriminate].
  apply andb_prop in Hct as [Hname Hen]. apply String.eqb_eq in Hname.
  assert (Hne : (name =? "") = false).
  { apply String.eqb_neq. intros ->. rewrite Hempty in Hname.
    discriminate. }
  assert (Hsets : Terms.sets name entry = true).
  { unfold Terms.sets. now rewrite En, String.eqb_refl, Hne, Hen. }
  exists name. rewrite (reduce_lookup _ _ _ _ Hh name).
  unfold Terms.entry_for.
  destruct (find (Terms.sets name) (rev _)) as [last|] eqn:Ef.
  - destruct (rendered_returns (entry_value last)
                (fst (constructWebHookData hook model prevData newData st)))
      as [v Hv].
    exists v. now rewrite Hv.
  - apply in_rev in Hin.
    rewrite (find_none _ _ Ef _ Hin) in Hsets. discriminate.
Qed.

End RequestProperties.

Section RequestExamples.
Import Js Webhook Example.


(** X27 on the example request, whose content type is disabled: the
    default is sent. *)
Lemma populateAxiosReq_content_type_witness :
  exists req,
    populateAxiosReq None (Some notify_api) legacy_hook tasks null
      (JObj task) 0%nat = Ok (req, 0%nat)
    /\ exists v,
         rendered (Some "application/json") (JObj task) = Ok v
         /\ lookup "Content-Type" (req_headers req) = Some v.
Proof.
  eexists. split; [lazy; reflexivity|].
  exact (proj2 (populateAxiosReq_content_type None notify_api legacy_hook
                  tasks null (JObj task) 0%nat _ 0%nat
                  eq_refl eq_refl eq_refl) eq_refl).
Defined.

End RequestExamples.

(* ================================================================== *)
(** * Properties of the display value of a related table *)
(* ================================================================== *)

Section DisplayValueProperties.
Import LookupSelect.
Context {C : Type}.
Variable pv : C -> bool.

Lemma find_first (cols : list C) col :
  find pv cols = Some col ->
  exists before after,
    cols = (before ++ col :: after)%list
    /\ forallb (fun c => negb (pv c)) before = true
    /\ pv col = true.
Proof.
  induction cols as [|c cols IH]; cbn [find]; [discriminate|].
  destruct (pv c) eqn:E.
  - intros Hf. injection Hf as <-. now exists [], cols.
  - intros Hf. destruct (IH Hf) as (before & after & -> & Hb & Hc).
    exists (c :: before), after. cbn. now rewrite E.
Qed.

Lemma find_nothing (cols : list C) :
  find pv cols = None -> forallb (fun c => negb (pv c)) cols = true.
Proof.
  induction cols as [|c cols IH]; cbn [find forallb]; [reflexivity|].
  destruct (pv c); [discriminate|]. exact IH.
Qed.

(** X28: the display value of a related table is undefined only when
    the table has no column; it is the first column marked as primary
    value when there is one, and the first column of the table when
    none is marked. *)
Theorem getDisplayValueOfRefTable_first (cols : list C) :
  match getDisplayValueOfRefTable pv cols with
  | None => cols = []
  | Some col =>
      exists before after,
        cols = (before ++ col :: after)%list
        /\ forallb (fun c => negb (pv c)) before = true
        /\ (pv col = true
            \/ before = [] /\ forallb (fun c => negb (pv c)) cols = true)
  end.
Proof.
  unfold getDisplayValueOfRefTable.
  destruct (find pv cols) as [col|] eqn:Ef.
  - destruct (find_first _ _ Ef) as (before & after & Hc & Hb & Hp).
    exists before, after. auto.
  - apply find_nothing in Ef. destruct cols as [|c cols]; [reflexivity|].
    cbn [nth_error]. exists [], cols. auto.
Qed.

End DisplayValueProperties.

(* ================================================================== *)
(** * Further properties of the comparators *)
(* ================================================================== *)

Section ComparatorProperties.
Import Js Sdk Webhook.
Context {number : Type} {RT : Runtime number} {DJ : Dayjs number}.
#[local] Abbreviation value := (value number).
#[local] Abbreviation Filter := (@Filter number).

(** X29: [le] is [lte] and [ge] is [gte] on every leaf; on a column
    that is neither of the date family nor a user reference, [neq]
    gives the negation of [eq], [notchecked] that of [checked] and
    [notnull] that of [null]. *)
Theorem comparison_aliases client (data : value) (f : Filter) :
  is_group f = false ->
  let test op := filterRes client data (Terms.with_comparison_op op f) in
  test cmp_le = test cmp_lte
  /\ test cmp_ge = test cmp_gte
  /\ (is_date_family (uidt (column f)) = false ->
      is_user_family (uidt (column f)) = false ->
      test cmp_neq = Terms.negated (test cmp_eq)
      /\ test cmp_notchecked = Terms.negated (test cmp_checked)
      /\ test cmp_notnull = Terms.negated (test cmp_null)).
Proof.
  intros Hleaf test. subst test. cbv beta.
  assert (Hl : forall op,
             filterRes client data (Terms.with_comparison_op op f)
             = leafRes client data (Terms.with_comparison_op op f))
    by (intros op; apply filterRes_leaf; now destruct f).
  rewrite !Hl. destruct f as [g children l c sub v col].
  unfold leafRes.
  cbn [Terms.with_comparison_op column comparison_op filter_value
       is_emptiness_op negb].
  destruct (get data (title col)) as [d|e]; [|repeat split].
  split; [|split].
  - destruct (is_date_family (uidt col)); cbn [andb].
    + unfold dateLeaf. cbn [column comparison_op filter_value
                            comparison_sub_op].
      destruct (resolveSubOp _ _ _); reflexivity.
    + destruct (is_user_family (uidt col)); [|reflexivity].
      unfold userLeaf. cbn [filter_value comparison_op].
      destruct (userIds d); [|reflexivity].
      destruct (filterValues v); reflexivity.
  - destruct (is_date_family (uidt col)); cbn [andb].
    + unfold dateLeaf. cbn [column comparison_op filter_value
                            comparison_sub_op].
      destruct (resolveSubOp _ _ _); reflexivity.
    + destruct (is_user_family (uidt col)); [|reflexivity].
      unfold userLeaf. cbn [filter_value comparison_op].
      destruct (userIds d); [|reflexivity].
      destruct (filterValues v); reflexivity.
  - cbn [column]. intros -> ->. cbn [andb]. repeat split.
Qed.


End ComparatorProperties.

Section ComparatorExamples.
Import Js Sdk Webhook Example.

(** X29 on the name of the task. *)
Lemma comparison_aliases_witness :
  filterRes None (JObj task)
    (Terms.with_comparison_op cmp_neq (name_is None "x"))
  = Terms.negated
      (filterRes None (JObj task)
         (Terms.with_comparison_op cmp_eq (name_is None "x"))).
Proof.
  exact (proj1 (proj2 (proj2 (comparison_aliases None (JObj task)
                                (name_is None "x") eq_refl))
                  eq_refl eq_refl)).
Defined.


End ComparatorExamples.
